(** * Angular CLI build pipeline: resource loader, Ivy webpack plugin and
    webpack configuration helpers.

    A shallow embedding of
    - [getOutputHashFormat] (webpack configuration helpers),
    - [WebpackResourceLoader] (the child-compilation based resource loader),
    - [AngularWebpackPlugin] (the Ivy webpack plugin: cache handling,
      unused-file analysis, file emitter),
    - [normalizeExtraEntryPoints] and the parts of [getCommonConfig] that
      use the helpers: entry points, global scripts and asset patterns,
    followed by the properties established about them.

    Conventions.  JavaScript [Map] and [Set] objects are finite maps and
    finite sets ([gmap], [gset]); where iteration order is observable a
    [Set] is an insertion-ordered duplicate-free list.  Plain objects used
    as dictionaries keep the prototype chain: a read of a missing key that
    names a member of [Object.prototype] is not [undefined].  Promises are
    modelled by their settlement.  Everything webpack, TypeScript or the
    [vm] module computes is an oracle passed to the embedded function. *)

From Stdlib Require Import Ascii.
From stdpp Require Import base option list strings pretty gmap fin_sets relations.

#[local] Set Warnings "-clear-no-such-hyp".

(** ** Part I: the embedding *)

(** *** JavaScript values shared by the components *)
Module Js.

(** Result of the property read [obj[key]] on a plain object. *)
Inductive Prop_ (A : Type) : Type :=
| Own (a : A)                 (* an own property holding [a] *)
| Inherited (name : string)   (* the member [name] of [Object.prototype] *)
| Undefined.
Arguments Own {A} a.
Arguments Inherited {A} name.
Arguments Undefined {A}.

(** Names found on [Object.prototype]; every one of them holds a function
    or an object, hence a truthy value different from [undefined]. *)
Definition object_prototype_members : list string :=
  [ "constructor"; "__defineGetter__"; "__defineSetter__"; "hasOwnProperty";
    "__lookupGetter__"; "__lookupSetter__"; "isPrototypeOf";
    "propertyIsEnumerable"; "toString"; "valueOf"; "__proto__";
    "toLocaleString" ].

(** [obj[key]] for an object literal (or [{}]) with own properties [obj]. *)
Definition get {A} (obj : gmap string A) (key : string) : Prop_ A :=
  match obj !! key with
  | Some a => Own a
  | None =>
      if decide (key ∈ object_prototype_members) then Inherited key
      else Undefined
  end.

(** [x == undefined] for the result of a property read whose own values are
    objects. *)
Definition is_undefined {A} (p : Prop_ A) : bool :=
  match p with Undefined => true | _ => false end.

(** A thrown value or rejection reason. *)
Inductive Thrown : Type :=
| ThrownString (s : string)        (* a plain string, as in [Promise.reject('...')] *)
| ThrownError (message : string)   (* [new Error(message)] *)
| ThrownTypeError (message : string).


(** Settlement of a promise.  [Uncaught] stands for an exception that
    leaves a callback running inside webpack: the promise is then settled
    by nobody in the embedded code. *)
Inductive Promise (A : Type) : Type :=
| Resolved (a : A)
| Rejected (reason : Thrown)
| Uncaught (exn : Thrown).
Arguments Resolved {A} a.
Arguments Rejected {A} reason.
Arguments Uncaught {A} exn.

(** The double-quote character. *)
Definition dquote : string := String "034"%char EmptyString.
(** The line feed character. *)
Definition newline : string := String "010"%char EmptyString.

(** [s.endsWith(suffix)]. *)
Definition endsWith (s suffix : string) : bool :=
  let n := String.length s in
  let k := String.length suffix in
  if decide (k ≤ n)%nat then bool_decide (String.substring (n - k) k s = suffix) else false.

(** [s.includes(sub)]. *)
Fixpoint includes (sub s : string) : bool :=
  String.prefix sub s
  || match s with
     | EmptyString => false
     | String _ rest => includes sub rest
     end.

End Js.

(** *** webpack configuration helpers *)
Module Helpers.

Record HashFormat : Type := {
  chunk : string;
  extract : string;
  file : string;
  script : string;
}.

(** The format of ['none'] and the options that have a format of their own. *)
Definition none_format : HashFormat :=
  {| chunk := EmptyString; extract := EmptyString;
     file := EmptyString; script := EmptyString |}.

Definition known_options : list string := ["none"; "media"; "bundles"; "all"].

(** Template literal rendering of the [length] argument, for a length that
    is an integer below 1e21 in magnitude: JavaScript prints such a number
    digit by digit, as here. *)
Definition number_to_string (n : Z) : string := pretty n.

(** The table built on each call of [getOutputHashFormat]. *)
Definition hashFormats (length : Z) : gmap string HashFormat :=
  let len := number_to_string length in
  <["none" := {| chunk := EmptyString; extract := EmptyString;
                 file := EmptyString; script := EmptyString |}]>
  (<["media" := {| chunk := EmptyString; extract := EmptyString;
                   file := ".[hash:" +:+ len +:+ "]"; script := EmptyString |}]>
  (<["bundles" := {| chunk := ".[chunkhash:" +:+ len +:+ "]";
                     extract := ".[contenthash:" +:+ len +:+ "]";
                     file := EmptyString;
                     script := ".[hash:" +:+ len +:+ "]" |}]>
  (<["all" := {| chunk := ".[chunkhash:" +:+ len +:+ "]";
                 extract := ".[contenthash:" +:+ len +:+ "]";
                 file := ".[hash:" +:+ len +:+ "]";
                 script := ".[hash:" +:+ len +:+ "]" |}]> ∅))).

(** [getOutputHashFormat(option, length = 20)]:
    [return hashFormats[option] || hashFormats['none']].  The left operand
    is returned whenever it is truthy, which includes the members inherited
    from [Object.prototype]. *)
Definition getOutputHashFormat (option : string) (length : Datatypes.option Z)
  : Js.Prop_ HashFormat :=
  let length := default 20%Z length in
  match Js.get (hashFormats length) option with
  | Js.Undefined => Js.get (hashFormats length) "none"
  | found => found
  end.

End Helpers.

(** *** WebpackResourceLoader (resource_loader.ts) *)
Module ResourceLoader.
Import Js.

(** webpack [Source] objects; only [source()] is observed. *)
Inductive Source : Type :=
| RawSource (value : string)          (* [new RawSource(value)] *)
| GeneratedSource (content : string). (* a source produced by webpack itself *)

Definition getSource (s : Source) : string :=
  match s with RawSource v => v | GeneratedSource c => c end.

(** The fields of a webpack [Compilation] that the loader reads or writes.
    Parent and child compilations are both of this type. *)
Record Compilation : Type := {
  context : string;
  fullHash : string;
  assets : gmap string Source;
  warnings : list string;
  errors : list string;
  fileDependencies : list string;
}.

Definition set_assets (a : gmap string Source) (c : Compilation) : Compilation :=
  {| context := context c; fullHash := fullHash c; assets := a;
     warnings := warnings c; errors := errors c;
     fileDependencies := fileDependencies c |}.

Definition set_diagnostics (w e : list string) (c : Compilation) : Compilation :=
  {| context := context c; fullHash := fullHash c; assets := assets c;
     warnings := w; errors := e; fileDependencies := fileDependencies c |}.

Record CompilationOutput : Type := {
  outputName : string;
  source : string;
}.

(** The loader object.  The last two fields are observation logs that the
    class does not have: the arguments of every [_evaluate] call and the
    entry of every child compiler created, oldest first. *)
Record WebpackResourceLoader : Type := {
  _parentCompilation : option Compilation;
  _context : string;
  _fileDependencies : gmap string (gset string);
  _reverseDependencies : gmap string (gset string);
  _cachedSources : gmap string string;
  _cachedEvaluatedSources : gmap string Source;
  changedFiles : option (list string);
  evaluations : list CompilationOutput;
  childCompilers : list string;
}.

(** [new WebpackResourceLoader()]. *)
Definition new : WebpackResourceLoader :=
  {| _parentCompilation := None; _context := EmptyString;
     _fileDependencies := ∅; _reverseDependencies := ∅;
     _cachedSources := ∅; _cachedEvaluatedSources := ∅;
     changedFiles := None; evaluations := []; childCompilers := [] |}.

Definition update (l : WebpackResourceLoader) (parentCompilation : Compilation)
    (changed : option (list string)) : WebpackResourceLoader :=
  {| _parentCompilation := Some parentCompilation;
     _context := context parentCompilation;
     _fileDependencies := _fileDependencies l;
     _reverseDependencies := _reverseDependencies l;
     _cachedSources := _cachedSources l;
     _cachedEvaluatedSources := _cachedEvaluatedSources l;
     changedFiles := changed;
     evaluations := evaluations l; childCompilers := childCompilers l |}.

(** [this._fileDependencies.get(filePath) || []] *)
Definition getResourceDependencies (l : WebpackResourceLoader) (filePath : string)
  : gset string :=
  default ∅ (_fileDependencies l !! filePath).

(** [this._reverseDependencies.get(file) || []] *)
Definition getAffectedResources (l : WebpackResourceLoader) (file : string)
  : gset string :=
  default ∅ (_reverseDependencies l !! file).

Definition setAffectedResources (l : WebpackResourceLoader) (file : string)
    (resources : list string) : WebpackResourceLoader :=
  {| _parentCompilation := _parentCompilation l; _context := _context l;
     _fileDependencies := _fileDependencies l;
     _reverseDependencies := <[file := list_to_set resources]> (_reverseDependencies l);
     _cachedSources := _cachedSources l;
     _cachedEvaluatedSources := _cachedEvaluatedSources l;
     changedFiles := changedFiles l;
     evaluations := evaluations l; childCompilers := childCompilers l |}.

Definition getModifiedResourceFiles (l : WebpackResourceLoader) : gset string :=
  match changedFiles l with
  | None => ∅
  | Some files =>
      foldl (λ modifiedResources changedFile,
               modifiedResources ∪ getAffectedResources l changedFile)
            ∅ files
  end.

(** [filePath.match(/\.[jt]s$/)] *)
Definition is_script_file (filePath : string) : bool :=
  endsWith filePath ".js" || endsWith filePath ".ts".

(** What [vm.runInNewContext] leaves in [context.resource]. *)
Inductive ContextResource : Type :=
| ResourceString (s : string)    (* [typeof context.resource === 'string'] *)
| ResourceDefault (s : string)   (* [typeof context.resource?.default === 'string'] *)
| ResourceOther.

Inductive VmResult : Type :=
| VmThrows (exn : Thrown)
| VmDone (resource : ContextResource).

(** Outcome of the child compiler up to the [additionalAssets] stage of its
    compilation; the stages after that hook are taken to succeed and to
    leave the assets as the hook left them. *)
Inductive ChildRun : Type :=
| ChildError (err : Thrown)
| ChildSealed (compilation : Compilation).

(** The child compiler for a context directory and an entry file. *)
Definition ChildCompiler : Type := string → string → ChildRun.

(** How the tap on [additionalAssets] ends. *)
Inductive HookResult : Type :=
| HookDone                   (* [callback()] *)
| HookError (err : Thrown)   (* [callback(err)] *)
| HookThrows (exn : Thrown). (* an exception leaves the tap *)

(** Field updates on the loader. *)
Definition log_evaluation (arg : CompilationOutput) (l : WebpackResourceLoader)
  : WebpackResourceLoader :=
  {| _parentCompilation := _parentCompilation l; _context := _context l;
     _fileDependencies := _fileDependencies l;
     _reverseDependencies := _reverseDependencies l;
     _cachedSources := _cachedSources l;
     _cachedEvaluatedSources := _cachedEvaluatedSources l;
     changedFiles := changedFiles l;
     evaluations := evaluations l ++ [arg]; childCompilers := childCompilers l |}.

Definition log_childCompiler (entry : string) (l : WebpackResourceLoader)
  : WebpackResourceLoader :=
  {| _parentCompilation := _parentCompilation l; _context := _context l;
     _fileDependencies := _fileDependencies l;
     _reverseDependencies := _reverseDependencies l;
     _cachedSources := _cachedSources l;
     _cachedEvaluatedSources := _cachedEvaluatedSources l;
     changedFiles := changedFiles l;
     evaluations := evaluations l; childCompilers := childCompilers l ++ [entry] |}.

Definition set_cachedEvaluatedSources (m : gmap string Source)
    (l : WebpackResourceLoader) : WebpackResourceLoader :=
  {| _parentCompilation := _parentCompilation l; _context := _context l;
     _fileDependencies := _fileDependencies l;
     _reverseDependencies := _reverseDependencies l;
     _cachedSources := _cachedSources l;
     _cachedEvaluatedSources := m;
     changedFiles := changedFiles l;
     evaluations := evaluations l; childCompilers := childCompilers l |}.

Definition set_cachedSources (m : gmap string string)
    (l : WebpackResourceLoader) : WebpackResourceLoader :=
  {| _parentCompilation := _parentCompilation l; _context := _context l;
     _fileDependencies := _fileDependencies l;
     _reverseDependencies := _reverseDependencies l;
     _cachedSources := m;
     _cachedEvaluatedSources := _cachedEvaluatedSources l;
     changedFiles := changedFiles l;
     evaluations := evaluations l; childCompilers := childCompilers l |}.

Definition set_parent_and_dependencies (parent : Compilation)
    (fwd rev : gmap string (gset string)) (l : WebpackResourceLoader)
  : WebpackResourceLoader :=
  {| _parentCompilation := Some parent; _context := _context l;
     _fileDependencies := fwd;
     _reverseDependencies := rev;
     _cachedSources := _cachedSources l;
     _cachedEvaluatedSources := _cachedEvaluatedSources l;
     changedFiles := changedFiles l;
     evaluations := evaluations l; childCompilers := childCompilers l |}.

Section Compile.
(** [normalizePath] of ivy/paths and [vm.runInNewContext(source, context,
    { filename })] are supplied from outside. *)
Variable normalizePath : string → string.
Variable runInNewContext : string → string → VmResult.

Definition _evaluate (arg : CompilationOutput) : Promise string :=
  match runInNewContext (source arg) (outputName arg) with
  | VmThrows exn => Rejected exn
  | VmDone (ResourceString s) => Resolved s
  | VmDone (ResourceDefault s) => Resolved s
  | VmDone ResourceOther =>
      Rejected (ThrownError ("The loader " +:+ dquote +:+ outputName arg
                             +:+ dquote +:+ " didn't return a string."))
  end.

(** The tap on the child compilation's [additionalAssets] hook. *)
Definition additionalAssets (l : WebpackResourceLoader) (filePath : string)
    (compilation : Compilation)
  : WebpackResourceLoader * Compilation * HookResult :=
  match _cachedEvaluatedSources l !! fullHash compilation with
  | Some cachedEvaluatedSource =>
      (l,
       set_assets (<[filePath := cachedEvaluatedSource]> (assets compilation))
                  compilation,
       HookDone)
  | None =>
      match Js.get (assets compilation) filePath with
      | Own asset =>
          let arg := {| outputName := filePath; source := getSource asset |} in
          let l := log_evaluation arg l in
          match _evaluate arg with
          | Resolved output =>
              let evaluatedSource := RawSource output in
              (set_cachedEvaluatedSources
                 (<[fullHash compilation := evaluatedSource]>
                    (_cachedEvaluatedSources l)) l,
               set_assets (<[filePath := evaluatedSource]> (assets compilation))
                          compilation,
               HookDone)
          | Rejected err => (l, compilation, HookError err)
          | Uncaught exn => (l, compilation, HookThrows exn)
          end
      | Inherited _ =>
          (l, compilation, HookThrows (ThrownTypeError "asset.source is not a function"))
      | Undefined => (l, compilation, HookDone)
      end
  end.

(** [if (xs && xs.length) { target.push(...xs); }] *)
Definition push_all (target xs : list string) : list string :=
  match xs with
  | [] => target
  | _ => target ++ xs
  end.

(** One round of the [Object.keys(childCompilation.assets).forEach] loop. *)
Definition propagate_asset (filePath : string) (parentAssets : gmap string Source)
    (entry : string * Source) : gmap string Source :=
  let '(assetName, asset) := entry in
  if bool_decide (assetName ≠ filePath)
     && bool_decide (assetName ≠ filePath +:+ ".map")
     && is_undefined (Js.get parentAssets assetName)
  then <[assetName := asset]> parentAssets
  else parentAssets.

(** The loop over [Object.keys(childCompilation.assets)].  A round writes at
    most the entry of its own asset name, so the order of the rounds does
    not show in the result. *)
Definition propagate_assets (filePath : string) (childAssets parentAssets : gmap string Source)
  : gmap string Source :=
  foldl (propagate_asset filePath) parentAssets (map_to_list childAssets).

(** One round of the loop over [childCompilation.fileDependencies]. *)
Definition add_reverse_dependency (filePath : string)
    (rev : gmap string (gset string)) (file : string) : gmap string (gset string) :=
  let resolvedFile := normalizePath file in
  match rev !! resolvedFile with
  | Some entry => <[resolvedFile := entry ∪ {[filePath]}]> rev
  | None => <[resolvedFile := {[filePath]}]> rev
  end.

(** [childCompiler.compile(callback)] with the tap above in place: the
    callback gets an error or the child compilation. *)
Inductive CompileResult : Type :=
| CompileError (err : Thrown)
| CompileDone (childCompilation : Compilation)
| CompileThrows (exn : Thrown).

Definition compile_child (webpack : ChildCompiler) (l : WebpackResourceLoader)
    (filePath : string) : WebpackResourceLoader * CompileResult :=
  let l := log_childCompiler filePath l in
  match webpack (_context l) filePath with
  | ChildError err => (l, CompileError err)
  | ChildSealed compilation =>
      match additionalAssets l filePath compilation with
      | (l, _, HookError err) => (l, CompileError err)
      | (l, _, HookThrows exn) => (l, CompileThrows exn)
      | (l, childCompilation, HookDone) => (l, CompileDone childCompilation)
      end
  end.

(** The parent compilation once warnings, errors and assets of the child
    are propagated to it. *)
Definition propagate (filePath : string) (childCompilation parent : Compilation)
  : Compilation :=
  let parent :=
    set_diagnostics (push_all (warnings parent) (warnings childCompilation))
                    (push_all (errors parent) (errors childCompilation))
                    parent in
  set_assets (propagate_assets filePath (assets childCompilation) (assets parent))
             parent.

(** The loader once the propagation to the parent compilation is done and
    the dependencies of the resource are saved. *)
Definition with_dependencies (filePath : string) (parent childCompilation : Compilation)
    (l : WebpackResourceLoader) : WebpackResourceLoader :=
  set_parent_and_dependencies
    (propagate filePath childCompilation parent)
    (<[filePath := list_to_set (fileDependencies childCompilation)]>
       (_fileDependencies l))
    (foldl (add_reverse_dependency filePath) (_reverseDependencies l)
           (fileDependencies childCompilation))
    l.

Definition _compile (webpack : ChildCompiler) (l : WebpackResourceLoader)
    (filePath : string) : WebpackResourceLoader * Promise CompilationOutput :=
  match _parentCompilation l with
  | None =>
      (l, Rejected (ThrownError
                      "WebpackResourceLoader cannot be used without parentCompilation"))
  | Some parent =>
      if is_script_file filePath then
        (l, Rejected (ThrownString
                        ("Cannot use a JavaScript or TypeScript file (" +:+ filePath
                         +:+ ") in a component's styleUrls or templateUrl.")))
      else
        match compile_child webpack l filePath with
        | (l, CompileError err) => (l, Rejected err)
        | (l, CompileThrows exn) => (l, Uncaught exn)
        | (l, CompileDone childCompilation) =>
            let l := with_dependencies filePath parent childCompilation l in
            let compilationHash := fullHash childCompilation in
            let fresh :=
              match Js.get (assets childCompilation) filePath with
              | Own asset =>
                  let source := getSource asset in
                  (set_cachedSources
                     (<[compilationHash := source]> (_cachedSources l)) l,
                   Resolved {| outputName := filePath; source := source |})
              | Inherited _ =>
                  (l, Rejected (ThrownTypeError
                                  "childCompilation.assets[filePath].source is not a function"))
              | Undefined =>
                  (l, Rejected (ThrownTypeError
                                  "Cannot read property 'source' of undefined"))
              end in
            match _cachedSources l !! compilationHash with
            | Some maybeSource =>
                if decide (maybeSource = EmptyString) then fresh
                else (l, Resolved {| outputName := filePath; source := maybeSource |})
            | None => fresh
            end
        end
  end.

(** [get(filePath)]: [this._compile(filePath).then(result => result.source)] *)
Definition get (webpack : ChildCompiler) (l : WebpackResourceLoader)
    (filePath : string) : WebpackResourceLoader * Promise string :=
  let '(l, result) := _compile webpack l filePath in
  (l, match result with
      | Resolved result => Resolved (source result)
      | Rejected reason => Rejected reason
      | Uncaught exn => Uncaught exn
      end).


(** The loaders that arise from one another through the public methods. *)
Inductive step : WebpackResourceLoader → WebpackResourceLoader → Prop :=
| step_update l parentCompilation changed :
    step l (update l parentCompilation changed)
| step_setAffectedResources l file resources :
    step l (setAffectedResources l file resources)
| step_get webpack l filePath l' result :
    get webpack l filePath = (l', result) → step l l'.

(** Every cached source is the content of the evaluated source cached
    under the same hash. *)
Definition cache_consistent (l : WebpackResourceLoader) : Prop :=
  ∀ hash cached,
    _cachedSources l !! hash = Some cached →
    ∃ evaluated,
      _cachedEvaluatedSources l !! hash = Some evaluated
      ∧ getSource evaluated = cached.

End Compile.

End ResourceLoader.

(** *** SourceFileCache (ivy/cache.ts) *)
Module SourceFileCache.

Section Cache.
(** The cached parsed-file representation. *)
Variable SourceFile : Type.

(** [new SourceFileCache()] *)
Definition new : gmap string SourceFile := ∅.

(** A file is stale when its reported timestamp exceeds the last build
    timestamp; none exceeds a build timestamp that is [undefined]. *)
Definition is_stale (fileTimestamps : gmap string Z) (buildTimestamp : option Z)
    (file : string) : bool :=
  match fileTimestamps !! file, buildTimestamp with
  | Some time, Some buildTimestamp => bool_decide (buildTimestamp < time)%Z
  | _, _ => false
  end.

Definition stale_files (cache : gmap string SourceFile)
    (fileTimestamps : gmap string Z) (buildTimestamp : option Z) : gset string :=
  filter (λ file, is_stale fileTimestamps buildTimestamp file = true) (dom cache).

(** What the specification adds to the stale files: the files reached from
    them through a reverse resource-dependency map.  One hop through such a
    map: *)
Definition affected_by (reverseDependencies : gmap string (gset string))
    (file : string) : gset string :=
  default ∅ (reverseDependencies !! file).

Definition affects (reverseDependencies : gmap string (gset string))
  : relation string :=
  λ file resource, resource ∈ affected_by reverseDependencies file.

Definition expand (reverseDependencies : gmap string (gset string))
    (files : gset string) : gset string :=
  files ∪ set_bind (affected_by reverseDependencies) files.

(** Every file that occurs as an affected resource. *)
Definition affected_universe (reverseDependencies : gmap string (gset string))
  : gset string :=
  ⋃ (snd <$> map_to_list reverseDependencies).

Fixpoint saturate (reverseDependencies : gmap string (gset string))
    (rounds : nat) (files : gset string) : gset string :=
  match rounds with
  | O => files
  | S rounds =>
      saturate reverseDependencies rounds (expand reverseDependencies files)
  end.

(** The files reachable from [files] through the reverse map: one round per
    file that can still be added. *)
Definition reachable_files (reverseDependencies : gmap string (gset string))
    (files : gset string) : gset string :=
  saturate reverseDependencies
           (size (affected_universe reverseDependencies)) files.

(** Modelled from the spec: [SourceFileCache.invalidate] of ivy/cache.ts,
    which is not among the sources (only its call in
    [AngularWebpackPlugin.apply] is), with the arguments of that call: the
    file timestamps of the compiler and the last build timestamp.  Every
    cached file whose reported timestamp exceeds the last build timestamp is
    evicted, every other entry is left as it is, and the evicted files are
    returned as the changed files, with the updated cache. *)
Definition invalidate (cache : gmap string SourceFile)
    (fileTimestamps : gmap string Z) (buildTimestamp : option Z)
  : gmap string SourceFile * gset string :=
  let changedFiles := stale_files cache fileTimestamps buildTimestamp in
  (filter (λ entry, entry.1 ∉ changedFiles) cache, changedFiles).

End Cache.

End SourceFileCache.

(** *** AngularWebpackPlugin (ivy/plugin.ts) *)
Module Plugin.
Import Js.

(** The two attributes of a [ts.SourceFile] that the plugin reads. *)
Record SourceFile : Type := {
  fileName : string;
  isDeclarationFile : bool;
}.

#[global] Instance SourceFile_eq_dec : EqDecision SourceFile.
Proof. solve_decision. Defined.

(** A webpack module; [resource] may be absent. *)
Record Module_ : Type := { resource : option string }.

(** What the file emitter hands to the loader. *)
Record EmitFileResult : Type := {
  content : option string;
  map : option string;
  dependencies : list string;
}.

(** A JavaScript [Set] of strings in insertion order. *)
Definition Set_add (x : string) (s : list string) : list string :=
  if decide (x ∈ s) then s else s ++ [x].

Definition Set_new (items : list string) : list string :=
  foldl (λ s x, Set_add x s) [] items.

Definition Set_delete (x : string) (s : list string) : list string :=
  filter (λ y, y ≠ x) s.

Definition Set_has (x : string) (s : list string) : bool := bool_decide (x ∈ s).

(** Modelled from the spec: [addWarning] of webpack-diagnostics, which is
    not among the sources; it records the message as a warning of the
    compilation and leaves the errors alone. *)
Definition addWarning (compilation : ResourceLoader.Compilation) (message : string)
  : ResourceLoader.Compilation :=
  ResourceLoader.set_diagnostics
    (ResourceLoader.warnings compilation ++ [message])
    (ResourceLoader.errors compilation) compilation.

Definition unused_message (unused : string) : string :=
  unused +:+ " is part of the TypeScript compilation but it's unused." +:+ newline
  +:+ "Add only entry points to the 'files' or 'include' properties in your tsconfig.".

Section Program.
(** [NgtscProgram] objects and [ts.CustomTransformers] are opaque;
    [externalizePath] of ivy/paths is supplied from outside, and so is
    [invalidate] of ivy/cache.ts: [invalidate cache fileTimestamps
    buildTimestamp] is the cache after the call
    [cache.invalidate(fileTimestamps, buildTimestamp)], with the changed
    files the call returns. *)
Variable NgtscProgram : Type.
Variable CustomTransformers : Type.
Variable externalizePath : string → string.
Variable invalidate :
  gmap string SourceFile → gmap string Z → option Z
  → gmap string SourceFile * gset string.

(** A TypeScript builder program.  [emit target transformers] lists the
    [(filename, data)] pairs handed to the write callback; [target = None]
    is an emit of the whole program. *)
Record BuilderProgram : Type := {
  getSourceFiles : list SourceFile;
  getSourceFile : string → option SourceFile;
  getAllDependencies : SourceFile → list string;
  emit : option SourceFile → CustomTransformers → list (string * string);
}.

(** The write callback given to [program.emit]. *)
Definition writeFile (out : option string * option string)
    (written : string * string) : option string * option string :=
  let '(content, map) := out in
  let '(filename, data) := written in
  if endsWith filename ".map" then (content, Some data)
  else if endsWith filename ".js" then (Some data, map)
  else (content, map).

(** [createFileEmitter(program, transformers, getExtraDependencies,
    onAfterEmit)].  The emitter is run on a pair: the targets of the
    [program.emit] calls made so far, and the state [onAfterEmit] acts on.
    [None] as result is [undefined]. *)
Definition createFileEmitter {S : Type} (program : BuilderProgram)
    (transformers : CustomTransformers)
    (getExtraDependencies : SourceFile → list string)
    (onAfterEmit : option (SourceFile → S → S))
    (file : string) (st : list (option SourceFile) * S)
  : (list (option SourceFile) * S) * Promise (option EmitFileResult) :=
  match getSourceFile program file with
  | None => (st, Resolved None)
  | Some sourceFile =>
      let '(content, map) :=
        foldl writeFile (None, None) (emit program (Some sourceFile) transformers) in
      let st :=
        (st.1 ++ [Some sourceFile],
         match onAfterEmit with
         | Some callback => callback sourceFile st.2
         | None => st.2
         end) in
      let dependencies :=
        externalizePath <$> (getAllDependencies program sourceFile
                             ++ getExtraDependencies sourceFile) in
      (st, Resolved (Some {| content := content; map := map;
                             dependencies := dependencies |}))
  end.

(** The body of the [modules.forEach] callback of the unused-file analysis. *)
Definition drop_module_dependencies (builder : BuilderProgram)
    (currentUnused : list string) (module : Module_) : list string :=
  match resource module with
  | None => currentUnused
  | Some resource =>
      if decide (resource = EmptyString) then currentUnused
      else
        match getSourceFile builder resource with
        | None => currentUnused
        | Some sourceFile =>
            foldl (λ unused dep, Set_delete dep unused) currentUnused
                  (getAllDependencies builder sourceFile)
        end
  end.

Definition compute_unused (builder : BuilderProgram)
    (allProgramFiles : list SourceFile) (modules : list Module_) : list string :=
  foldl (drop_module_dependencies builder)
        (Set_new (fileName <$> filter (λ sourceFile, isDeclarationFile sourceFile = false)
                                      allProgramFiles))
        modules.

(** [previousUnused && previousUnused.has(unused)] *)
Definition previously_unused (previousUnused : option (list string))
    (unused : string) : bool :=
  match previousUnused with
  | Some previous => Set_has unused previous
  | None => false
  end.

(** A module brings [file] into the bundle when [file] is among the
    dependencies of the source file of its resource. *)
Definition module_depends_on (builder : BuilderProgram) (module : Module_)
    (file : string) : Prop :=
  ∃ resource sourceFile,
    Plugin.resource module = Some resource
    ∧ resource ≠ EmptyString
    ∧ getSourceFile builder resource = Some sourceFile
    ∧ file ∈ getAllDependencies builder sourceFile.

(** One round of the loop over [currentUnused]. *)
Definition warn_unused (previousUnused : option (list string))
    (compilation : ResourceLoader.Compilation) (unused : string)
  : ResourceLoader.Compilation :=
  if previously_unused previousUnused unused then compilation
  else addWarning compilation (unused_message unused).

(** The unused-file analysis at the end of the [finishModules] tap, run on
    the compilation as the module rebuilds left it.  [previousUnused] is the
    variable of that name in the closure of [apply]. *)
Definition analyzeUnusedFiles (builder : BuilderProgram)
    (allProgramFiles : list SourceFile) (modules : list Module_)
    (previousUnused : option (list string))
    (compilation : ResourceLoader.Compilation)
  : ResourceLoader.Compilation * option (list string) :=
  match ResourceLoader.errors compilation with
  | _ :: _ => (compilation, previousUnused)
  | [] =>
      let currentUnused := compute_unused builder allProgramFiles modules in
      (foldl (warn_unused previousUnused) compilation currentUnused,
       Some currentUnused)
  end.

(** The fields of the plugin object that carry state from one compilation
    to the next. *)
Record AngularWebpackPlugin : Type := {
  watchMode : option bool;
  ngtscNextProgram : option NgtscProgram;
  builder : option BuilderProgram;
  sourceFileCache : option (gmap string SourceFile);
  buildTimestamp : option Z;
}.

(** [new AngularWebpackPlugin(options)] *)
Definition new : AngularWebpackPlugin :=
  {| watchMode := None; ngtscNextProgram := None; builder := None;
     sourceFileCache := None; buildTimestamp := None |}.

(** What a compilation gets from the compiler, the clock, the
    configuration and the TypeScript and Angular compilers.
    [cachedByHost] is the content of the cache once the compiler host has
    parsed the files of the program through it. *)
Record Environment : Type := {
  compiler_watchMode : option bool;
  fileTimestamps : gmap string Z;
  now : Z;
  skipTemplateCodegen : bool;
  newNgtscProgram :
    gmap string SourceFile → option NgtscProgram → NgtscProgram;
  createBuilderProgram :
    gmap string SourceFile → option NgtscProgram → option BuilderProgram
    → BuilderProgram;
  cachedByHost : gmap string SourceFile → gmap string SourceFile;
}.

(** What the [thisCompilation] tap sets up. *)
Record Setup : Type := {
  cache : gmap string SourceFile;      (* handed to [augmentHostWithCaching] *)
  constructed : bool;                  (* [new SourceFileCache()] was run *)
  changedFiles : option (gset string); (* result of [cache.invalidate] *)
  program : BuilderProgram;
}.

Definition set_programs (b : option BuilderProgram) (n : option NgtscProgram)
    (p : AngularWebpackPlugin) : AngularWebpackPlugin :=
  {| watchMode := watchMode p; ngtscNextProgram := n; builder := b;
     sourceFileCache := sourceFileCache p; buildTimestamp := buildTimestamp p |}.

(** [if (this.watchMode)] *)
Definition in_watchMode (p : AngularWebpackPlugin) : bool :=
  match watchMode p with Some true => true | _ => false end.

(** The part of [updateAotProgram] that creates and saves the programs. *)
Definition updateAotProgram (env : Environment) (host : gmap string SourceFile)
    (p : AngularWebpackPlugin) : AngularWebpackPlugin * BuilderProgram :=
  let angularProgram := newNgtscProgram env host (ngtscNextProgram p) in
  let builder_ := createBuilderProgram env host (Some angularProgram) (builder p) in
  (if in_watchMode p then set_programs (Some builder_) (Some angularProgram) p else p,
   builder_).

(** The part of [updateJitProgram] that creates and saves the programs. *)
Definition updateJitProgram (env : Environment) (host : gmap string SourceFile)
    (p : AngularWebpackPlugin) : AngularWebpackPlugin * BuilderProgram :=
  let builder_ := createBuilderProgram env host None (builder p) in
  let p := if in_watchMode p then set_programs (Some builder_) (ngtscNextProgram p) p
           else p in
  let angularProgram := newNgtscProgram env host (ngtscNextProgram p) in
  (if in_watchMode p then set_programs (builder p) (Some angularProgram) p else p,
   builder_).

(** [compilerOptions.skipTemplateCodegen ? this.updateJitProgram(...) :
    this.updateAotProgram(...)] *)
Definition update_program (env : Environment) (host : gmap string SourceFile)
    (p : AngularWebpackPlugin) : AngularWebpackPlugin * BuilderProgram :=
  if skipTemplateCodegen env then updateJitProgram env host p
  else updateAotProgram env host p.

(** The set-up of source file caching: the cache to use, the changed files,
    whether the cache was constructed just now, and the value of
    [this.sourceFileCache] afterwards.  A stored cache is invalidated in
    place, with the file timestamps of the compiler and the build timestamp
    the plugin holds. *)
Definition setup_cache (env : Environment) (p : AngularWebpackPlugin) (watch : bool)
  : gmap string SourceFile * option (gset string) * bool
    * option (gmap string SourceFile) :=
  match sourceFileCache p with
  | Some cache_ =>
      let '(cache_, changed) :=
        invalidate cache_ (fileTimestamps env) (buildTimestamp p) in
      (cache_, Some changed, false, Some cache_)
  | None =>
      (SourceFileCache.new SourceFile, None, true,
       if watch then Some (SourceFileCache.new SourceFile) else None)
  end.

(** The [thisCompilation] tap of [apply], from the storing of the watch
    mode to the update of the programs.  [resourceLoader] is the loader of
    the closure of [apply]. *)
Definition thisCompilation (env : Environment)
    (compilation : ResourceLoader.Compilation)
    (st : AngularWebpackPlugin * ResourceLoader.WebpackResourceLoader)
  : (AngularWebpackPlugin * ResourceLoader.WebpackResourceLoader) * Setup :=
  let '(p, resourceLoader) := st in
  let watch := default true (compiler_watchMode env) in
  let '(cache_, changed, fresh, stored) := setup_cache env p watch in
  let p :=
    {| watchMode := Some watch; ngtscNextProgram := ngtscNextProgram p;
       builder := builder p; sourceFileCache := stored;
       buildTimestamp := Some (now env) |} in
  let resourceLoader :=
    ResourceLoader.update resourceLoader compilation (elements <$> changed) in
  let '(p, builder_) := update_program env cache_ p in
  let p :=
    {| watchMode := watchMode p; ngtscNextProgram := ngtscNextProgram p;
       builder := builder p;
       sourceFileCache := cachedByHost env <$> sourceFileCache p;
       buildTimestamp := buildTimestamp p |} in
  ((p, resourceLoader),
   {| cache := cache_; constructed := fresh; changedFiles := changed;
      program := builder_ |}).

(** A run of compilations, oldest first, with what each one set up. *)
Fixpoint compilations (envs : list (Environment * ResourceLoader.Compilation))
    (st : AngularWebpackPlugin * ResourceLoader.WebpackResourceLoader)
  : (AngularWebpackPlugin * ResourceLoader.WebpackResourceLoader) * list Setup :=
  match envs with
  | [] => (st, [])
  | (env, compilation) :: envs =>
      let '(st, setup) := thisCompilation env compilation st in
      let '(st, setups) := compilations envs st in
      (st, setup :: setups)
  end.

End Program.

Arguments getSourceFiles {_} _.
Arguments getSourceFile {_} _ _.
Arguments getAllDependencies {_} _ _.
Arguments emit {_} _ _ _.
Arguments createFileEmitter {_} _ {_} _ _ _ _ _ _.
Arguments module_depends_on {_} _ _ _.
Arguments drop_module_dependencies {_} _ _ _.
Arguments compute_unused {_} _ _ _.
Arguments analyzeUnusedFiles {_} _ _ _ _ _.
Arguments watchMode {_ _} _.
Arguments ngtscNextProgram {_ _} _.
Arguments builder {_ _} _.
Arguments sourceFileCache {_ _} _.
Arguments buildTimestamp {_ _} _.
Arguments compiler_watchMode {_ _} _.
Arguments fileTimestamps {_ _} _.
Arguments now {_ _} _.
Arguments skipTemplateCodegen {_ _} _.
Arguments newNgtscProgram {_ _} _ _ _.
Arguments createBuilderProgram {_ _} _ _ _ _.
Arguments cachedByHost {_ _} _ _.
Arguments cache {_} _.
Arguments constructed {_} _.
Arguments changedFiles {_} _.
Arguments program {_} _.
Arguments set_programs {_ _} _ _ _.
Arguments in_watchMode {_ _} _.
Arguments updateAotProgram {_ _} _ _ _.
Arguments updateJitProgram {_ _} _ _ _.
Arguments update_program {_ _} _ _ _.
Arguments setup_cache {_ _} _ _ _ _.
Arguments thisCompilation {_ _} _ _ _ _.
Arguments compilations {_ _} _ _ _.

End Plugin.

(** *** A small build used to run the embedding *)
Module Scenario.
Import Js.

(** Paths are already normalized. *)
Definition normalizePath (path : string) : string := path.

(** A sandbox in which every bundle evaluates to its own text. *)
Definition runInNewContext (source filename : string) : ResourceLoader.VmResult :=
  ResourceLoader.VmDone (ResourceLoader.ResourceString source).

Definition parent : ResourceLoader.Compilation :=
  {| ResourceLoader.context := "/app";
     ResourceLoader.fullHash := "parent";
     ResourceLoader.assets := {[ "main.js" := ResourceLoader.GeneratedSource "main" ]};
     ResourceLoader.warnings := [];
     ResourceLoader.errors := [];
     ResourceLoader.fileDependencies := [] |}.

(** The loader after [update(parent)]. *)
Definition loader : ResourceLoader.WebpackResourceLoader :=
  ResourceLoader.update ResourceLoader.new parent None.

(** The child compilation of [/app/a.css] with the given hash and bundle. *)
Definition sealed (hash bundle : string) : ResourceLoader.Compilation :=
  {| ResourceLoader.context := "/app";
     ResourceLoader.fullHash := hash;
     ResourceLoader.assets :=
       {[ "/app/a.css" := ResourceLoader.GeneratedSource bundle;
          "font.woff" := ResourceLoader.GeneratedSource "font" ]};
     ResourceLoader.warnings := ["deprecated syntax"];
     ResourceLoader.errors := [];
     ResourceLoader.fileDependencies := ["/app/a.css"; "/app/b.css"] |}.

Definition webpack (hash bundle : string) : ResourceLoader.ChildCompiler :=
  λ _ _, ResourceLoader.ChildSealed (sealed hash bundle).

Definition failing_webpack : ResourceLoader.ChildCompiler :=
  λ _ _, ResourceLoader.ChildError (ThrownError "Module not found").

(** The first compilation of [/app/a.css]. *)
Definition first_compile
  : ResourceLoader.WebpackResourceLoader
    * Promise ResourceLoader.CompilationOutput :=
  ResourceLoader._compile normalizePath runInNewContext (webpack "h1" "one")
                          loader "/app/a.css".

(** A program of two sources and a declaration file; [main.ts] is bundled
    and depends on the declaration file. *)
Definition main_ts : Plugin.SourceFile :=
  {| Plugin.fileName := "/app/main.ts"; Plugin.isDeclarationFile := false |}.
Definition unused_ts : Plugin.SourceFile :=
  {| Plugin.fileName := "/app/unused.ts"; Plugin.isDeclarationFile := false |}.
Definition lib_d_ts : Plugin.SourceFile :=
  {| Plugin.fileName := "/app/lib.d.ts"; Plugin.isDeclarationFile := true |}.

Definition builder : Plugin.BuilderProgram unit :=
  {| Plugin.getSourceFiles := [main_ts; unused_ts; lib_d_ts];
     Plugin.getSourceFile := λ file,
       if decide (file = "/app/main.ts") then Some main_ts
       else if decide (file = "/app/unused.ts") then Some unused_ts
       else if decide (file = "/app/lib.d.ts") then Some lib_d_ts
       else None;
     Plugin.getAllDependencies := λ sourceFile,
       if decide (sourceFile = main_ts) then ["/app/main.ts"; "/app/lib.d.ts"]
       else [Plugin.fileName sourceFile];
     Plugin.emit := λ target _,
       match target with
       | Some sourceFile =>
           [(Plugin.fileName sourceFile +:+ ".js", "code");
            (Plugin.fileName sourceFile +:+ ".js.map", "mappings")]
       | None => []
       end |}.

Definition modules : list Plugin.Module_ :=
  [ {| Plugin.resource := Some "/app/main.ts" |};
    {| Plugin.resource := None |} ].

(** The parent compilation with an error on it. *)
Definition failed : ResourceLoader.Compilation :=
  ResourceLoader.set_diagnostics [] ["TS2304: Cannot find name"] parent.

(** A child compilation of [/app/a.css] in which a module failed to build:
    it holds an error, and an asset for the resource all the same. *)
Definition sealed_with_errors : ResourceLoader.Compilation :=
  ResourceLoader.set_diagnostics [] ["Module build failed"] (sealed "h4" "partial").

Definition webpack_with_errors : ResourceLoader.ChildCompiler :=
  λ _ _, ResourceLoader.ChildSealed sealed_with_errors.

(** A cache of four files; [a.scss] was touched after the build at time 10,
    [b.scss] is affected by it and [c.ts] by [b.scss]. *)
Definition cached : gmap string Plugin.SourceFile :=
  {[ "/app/a.scss" := main_ts; "/app/b.scss" := main_ts;
     "/app/c.ts" := main_ts; "/app/d.ts" := unused_ts ]}.

Definition timestamps : gmap string Z :=
  {[ "/app/a.scss" := 11%Z; "/app/d.ts" := 10%Z ]}.

Definition reverse : gmap string (gset string) :=
  {[ "/app/a.scss" := {[ "/app/b.scss" ]}; "/app/b.scss" := {[ "/app/c.ts" ]} ]}.

(** The loader with [reverse] as its reverse map. *)
Definition loader_with_reverse : ResourceLoader.WebpackResourceLoader :=
  ResourceLoader.setAffectedResources
    (ResourceLoader.setAffectedResources loader "/app/a.scss" ["/app/b.scss"])
    "/app/b.scss" ["/app/c.ts"].

(** The plugin after a compilation in watch mode at time 10, with [cached]
    as the stored cache. *)
Definition watching : Plugin.AngularWebpackPlugin unit unit :=
  {| Plugin.watchMode := Some true;
     Plugin.ngtscNextProgram := Some tt;
     Plugin.builder := Some builder;
     Plugin.sourceFileCache := Some cached;
     Plugin.buildTimestamp := Some 10%Z |}.

(** A watch environment in which the compiler reports [timestamps]. *)
Definition watch_run : Plugin.Environment unit unit :=
  {| Plugin.compiler_watchMode := Some true;
     Plugin.fileTimestamps := timestamps;
     Plugin.now := 2000;
     Plugin.skipTemplateCodegen := false;
     Plugin.newNgtscProgram := λ _ _, tt;
     Plugin.createBuilderProgram := λ _ _ _, builder;
     Plugin.cachedByHost := λ cache, cache |}.

(** A non-watch environment. *)
Definition single_run : Plugin.Environment unit unit :=
  {| Plugin.compiler_watchMode := Some false;
     Plugin.fileTimestamps := ∅;
     Plugin.now := 1000;
     Plugin.skipTemplateCodegen := false;
     Plugin.newNgtscProgram := λ _ _, tt;
     Plugin.createBuilderProgram := λ _ _ _, builder;
     Plugin.cachedByHost := λ cache, <["/app/main.ts" := main_ts]> cache |}.

End Scenario.

(** *** WebpackResourceLoader as the Ivy plugin drives it *)
Module LoaderUse.
Import Js ResourceLoader.

Section Loads.
Variable normalizePath : string → string.
Variable runInNewContext : string → string → VmResult.

(** The Ivy plugin calls [update] at the start of a compilation and, through
    the compiler host, [get] for every resource; it never calls
    [setAffectedResources]. *)
Inductive load_step : relation WebpackResourceLoader :=
| load_update l parentCompilation changed :
    load_step l (update l parentCompilation changed)
| load_get webpack l filePath l' result :
    get normalizePath runInNewContext webpack l filePath = (l', result) →
    load_step l l'.

(** Every dependency recorded for a resource points back to the resource. *)
Definition dependencies_in_sync (l : WebpackResourceLoader) : Prop :=
  ∀ resource file,
    file ∈ getResourceDependencies l resource →
    resource ∈ getAffectedResources l (normalizePath file).

End Loads.

(** Asset names that [propagate_asset] may copy for the resource [filePath]. *)
Definition propagated_name (filePath assetName : string) : Prop :=
  assetName ≠ filePath ∧ assetName ≠ filePath +:+ ".map"
  ∧ assetName ∉ object_prototype_members.

#[global] Instance propagated_name_dec filePath assetName :
  Decision (propagated_name filePath assetName).
Proof. unfold propagated_name. apply _. Defined.

End LoaderUse.

(** *** Extra entry points (webpack/utils/helpers.ts) *)
Module EntryPoints.

(** An entry of the [scripts] or [styles] option in its object form. *)
Record ExtraEntryPointClass : Type := {
  input : string;
  bundleName : option string;
  inject : option bool;
}.

(** [ExtraEntryPoint]: a path or an object. *)
Inductive ExtraEntryPoint : Type :=
| EntryPath (path : string)
| EntryObject (entry : ExtraEntryPointClass).

(** [Required<ExtraEntryPointClass>] *)
Record NormalizedEntryPoint : Type := {
  n_input : string;
  n_bundleName : string;
  n_inject : bool;
}.

(** The path of an entry. *)
Definition entry_input (entry : ExtraEntryPoint) : string :=
  match entry with
  | EntryPath path => path
  | EntryObject entry => input entry
  end.

(** A normalized entry read as an entry again. *)
Definition as_entry (entry : NormalizedEntryPoint) : ExtraEntryPoint :=
  EntryObject {| input := n_input entry;
                 bundleName := Some (n_bundleName entry);
                 inject := Some (n_inject entry) |}.

(** ASCII lower case, as the [i] flag of a regular expression needs it. *)
Definition lower_ascii (c : ascii) : ascii :=
  let n := nat_of_ascii c in
  if decide (65 ≤ n ∧ n ≤ 90) then ascii_of_nat (n + 32) else c.

Fixpoint lower (s : string) : string :=
  match s with
  | EmptyString => EmptyString
  | String c rest => String (lower_ascii c) (lower rest)
  end.

Definition known_extensions : list string :=
  ["js"; "css"; "scss"; "sass"; "less"; "styl"].

(** [input.replace(/\.(js|css|scss|sass|less|styl)$/i, '')] *)
Definition strip_known_extension (input : string) : string :=
  match list_find (λ ext, Js.endsWith (lower input) ("." +:+ ext) = true)
                  known_extensions with
  | Some (_, ext) =>
      String.substring 0 (String.length input - String.length ext - 1) input
  | None => input
  end.

Section Normalize.
(** [basename(normalize(path))] of [@angular-devkit/core]. *)
Variable basename_normalize : string → string.

Definition normalizeExtraEntryPoint (defaultBundleName : string)
    (entry : ExtraEntryPoint) : NormalizedEntryPoint :=
  match entry with
  | EntryPath path =>
      {| n_input := path; n_inject := true; n_bundleName := defaultBundleName |}
  | EntryObject entry =>
      let inject_ := default true (inject entry) in
      let otherwise :=
        if negb inject_ then
          (* Lazy entry points use the file name as bundle name. *)
          basename_normalize (strip_known_extension (input entry))
        else defaultBundleName in
      let bundleName_ :=
        match bundleName entry with
        | Some name => if decide (name = EmptyString) then otherwise else name
        | None => otherwise
        end in
      {| n_input := input entry; n_inject := inject_; n_bundleName := bundleName_ |}
  end.

Definition normalizeExtraEntryPoints (extraEntryPoints : list ExtraEntryPoint)
    (defaultBundleName : string) : list NormalizedEntryPoint :=
  normalizeExtraEntryPoint defaultBundleName <$> extraEntryPoints.

End Normalize.

End EntryPoints.

(** *** Global scripts of the common configuration ([getCommonConfig]) *)
Module GlobalScripts.
Import Js EntryPoints.

Record ScriptBundle : Type := {
  bundleName : string;
  paths : list string;
  inject : bool;
}.

Section Scripts.
Variable basename_normalize : string → string.
(** [path.resolve(root, input)], [existsSync] and
    [require.resolve(input, { paths: [root] })], which throws when it finds
    nothing. *)
Variable path_resolve : string → string.
Variable existsSync : string → bool.
Variable require_resolve : string → option string.

Definition resolve_script (input : string) : Thrown + string :=
  let resolvedPath := path_resolve input in
  if existsSync resolvedPath then inr resolvedPath
  else
    match require_resolve input with
    | Some resolvedPath => inr resolvedPath
    | None => inl (ThrownError ("Script file " +:+ input +:+ " does not exist."))
    end.

(** [existingEntry.paths.push(resolvedPath)] *)
Definition push_path (resolvedPath : string) (bundle : ScriptBundle) : ScriptBundle :=
  {| bundleName := bundleName bundle;
     paths := paths bundle ++ [resolvedPath];
     inject := inject bundle |}.

(** The callback of [reduce]. *)
Definition group_script (prev : list ScriptBundle) (curr : NormalizedEntryPoint)
  : Thrown + list ScriptBundle :=
  match resolve_script (n_input curr) with
  | inl err => inl err
  | inr resolvedPath =>
      match list_find (λ el, bundleName el = n_bundleName curr) prev with
      | Some (index, existingEntry) =>
          if inject existingEntry && negb (n_inject curr) then
            (* All entries have to be lazy for the bundle to be lazy. *)
            inl (ThrownError ("The " +:+ n_bundleName curr
                              +:+ " bundle is mixing injected and non-injected scripts."))
          else inr (<[index := push_path resolvedPath existingEntry]> prev)
      | None =>
          inr (prev ++ [{| bundleName := n_bundleName curr;
                           inject := n_inject curr;
                           paths := [resolvedPath] |}])
      end
  end.

Definition group_scripts (entries : list NormalizedEntryPoint)
  : Thrown + list ScriptBundle :=
  foldl (λ acc curr,
           match acc with
           | inl err => inl err
           | inr prev => group_script prev curr
           end)
        (inr []) entries.

(** Entries paired with their resolved paths are grouped in [bundles]: no
    two bundles share a name, the paths of the bundles are the resolved
    paths, and each path is in the bundle of its entry, which is injected
    only if the entry is. *)
Definition grouped (resolved : list (NormalizedEntryPoint * string))
    (bundles : list ScriptBundle) : Prop :=
  NoDup (bundleName <$> bundles)
  ∧ concat (paths <$> bundles) ≡ₚ resolved.*2
  ∧ ∀ entry resolvedPath,
      (entry, resolvedPath) ∈ resolved →
      ∃ bundle,
        bundle ∈ bundles
        ∧ bundleName bundle = n_bundleName entry
        ∧ resolvedPath ∈ paths bundle
        ∧ (inject bundle = true → n_inject entry = true).

(** [globalScriptsByBundleName] *)
Definition globalScriptsByBundleName (scripts : list ExtraEntryPoint)
  : Thrown + list ScriptBundle :=
  group_scripts (normalizeExtraEntryPoints basename_normalize scripts "scripts").

End Scripts.

End GlobalScripts.

(** *** Asset patterns of the common configuration ([getCommonConfig]) *)
Module AssetPatterns.
Import Js.

Record AssetPatternClass : Type := {
  input : string;
  output : string;
  glob : string;
  ignore : option (list string);
  followSymlinks : option bool;
}.

(** A pattern handed to [CopyWebpackPlugin]; [noErrorOnMissing], [force]
    and [dot] are constants. *)
Record CopyPattern : Type := {
  context : string;
  to : string;
  from : string;
  followSymbolicLinks : bool;
  globIgnore : list string;
}.

Definition backslash : ascii := "092"%char.
Definition slash : ascii := "/"%char.

(** [s.replace(/\\/g, '/')] *)
Fixpoint slashes (s : string) : string :=
  match s with
  | EmptyString => EmptyString
  | String c rest =>
      String (if decide (c = backslash) then slash else c) (slashes rest)
  end.

(** [s.endsWith('/') ? s : s + '/'] *)
Definition with_trailing_slash (s : string) : string :=
  if endsWith s "/" then s else s +:+ "/".

(** [s.replace(/^\//, '')] *)
Definition without_leading_slash (s : string) : string :=
  match s with
  | String c rest => if decide (c = slash) then rest else s
  | EmptyString => s
  end.

Section Patterns.
(** [path.resolve(root, input)] and [path.posix.join]. *)
Variable path_resolve : string → string.
Variable posix_join : string → string → string.

(** The callback of [buildOptions.assets.map]. *)
Definition copy_pattern (asset : AssetPatternClass) : Thrown + CopyPattern :=
  let ignore_ := default [] (ignore asset) in
  let input_ := with_trailing_slash (slashes (path_resolve (input asset))) in
  let output_ := with_trailing_slash (output asset) in
  if String.prefix ".." output_ then
    inl (ThrownError
           "An asset cannot be written to a location outside of the output path.")
  else
    inr {| context := input_;
           to := without_leading_slash output_;
           from := glob asset;
           followSymbolicLinks :=
             match followSymlinks asset with Some true => true | _ => false end;
           globIgnore :=
             posix_join input_
               <$> [".gitkeep"; "**/.DS_Store"; "**/Thumbs.db"] ++ ignore_ |}.

End Patterns.

End AssetPatterns.

(** *** Entry points of the common configuration ([getCommonConfig]) *)
Module EntryConfig.

(** The options that decide the entry points.  An absent boolean is falsy,
    an empty path as well. *)
Record BuildOptions : Type := {
  platform : option string;
  main : option string;
  polyfills : option string;
  aot : option bool;
  differentialLoadingMode : option bool;
}.

Definition truthy (flag : option bool) : bool := default false flag.

Definition given (path : option string) : option string :=
  match path with
  | Some p => if decide (p = EmptyString) then None else Some p
  | None => None
  end.

(** [isPolyfillsEntry] of webpack/utils/helpers.ts. *)
Definition isPolyfillsEntry (name : string) : bool :=
  bool_decide (name = "polyfills") || bool_decide (name = "polyfills-es5").

(** Entry points as webpack needs them: each has at least one file, and
    each is [main] or a polyfills entry. *)
Definition entries_ok (entries : gmap string (list string)) : Prop :=
  ∀ name files,
    entries !! name = Some files →
    files ≠ [] ∧ (name = "main" ∨ isPolyfillsEntry name = true).

Section Entries.
(** [path.resolve(root, file)], [path.join(__dirname, '..', file)],
    [tsConfig.options.target === ScriptTarget.ES5] and
    [buildBrowserFeatures.isEs5SupportNeeded()]. *)
Variable path_resolve : string → string.
Variable shipped : string → string.
Variable targetIsES5 : bool.
Variable isEs5SupportNeeded : bool.

(** [entryPoints[name].push(file)] where the entry exists, else
    [entryPoints[name] = [file]]. *)
Definition push_entry (name file : string) (entryPoints : gmap string (list string))
  : gmap string (list string) :=
  match entryPoints !! name with
  | Some files => <[name := files ++ [file]]> entryPoints
  | None => <[name := [file]]> entryPoints
  end.

(** The files of the [polyfills-es5] entry. *)
Definition es5_polyfills (buildOptions : BuildOptions) : list string :=
  [shipped "es5-polyfills.js"]
  ++ (if truthy (differentialLoadingMode buildOptions)
      then ["zone.js/dist/zone-legacy"] else [])
  ++ (if truthy (aot buildOptions) then []
      else (if truthy (differentialLoadingMode buildOptions)
            then [shipped "jit-polyfills.js"] else [])
           ++ [shipped "es5-jit-polyfills.js"])
  ++ match given (polyfills buildOptions) with
     | Some file => [path_resolve file]
     | None => []
     end.

(** The [entryPoints] object of [getCommonConfig]. *)
Definition entryPoints (buildOptions : BuildOptions) : gmap string (list string) :=
  let entries : gmap string (list string) :=
    match given (main buildOptions) with
    | Some file => {[ "main" := [path_resolve file] ]}
    | None => ∅
    end in
  if decide (default "browser" (platform buildOptions) = "server") then entries
  else
    let entries :=
      if (truthy (differentialLoadingMode buildOptions) || targetIsES5)
         && isEs5SupportNeeded
      then <["polyfills-es5" := es5_polyfills buildOptions]> entries
      else entries in
    let entries :=
      match given (polyfills buildOptions) with
      | Some file => push_entry "polyfills" (path_resolve file) entries
      | None => entries
      end in
    if truthy (aot buildOptions) then entries
    else push_entry "polyfills" (shipped "jit-polyfills.js") entries.

End Entries.

End EntryConfig.

(** *** The file emitter of an AOT program (ivy/plugin.ts) *)
Module AotEmitter.
Import Js Plugin.

(** What [updateAotProgram] reads of the Angular compiler: the set
    [ignoreForEmit], [incrementalDriver.safeToSkipEmit] and
    [getResourceDependencies]. *)
Record AngularCompiler : Type := {
  ignoreForEmit : SourceFile → bool;
  safeToSkipEmit : SourceFile → bool;
  getResourceDependencies : SourceFile → list string;
}.

(** The state the [onAfterEmit] callback acts on: the set
    [this.requiredFilesToEmit], and the source files handed to
    [incrementalDriver.recordSuccessfulEmit], oldest first. *)
Record EmitState : Type := {
  requiredFilesToEmit : list string;
  successfulEmits : list SourceFile;
}.

(** The test of the loop that collects the sources required to be emitted. *)
Definition is_required (angularCompiler : AngularCompiler)
    (sourceFile : SourceFile) : bool :=
  negb (isDeclarationFile sourceFile)
  && negb (ignoreForEmit angularCompiler sourceFile)
  && negb (safeToSkipEmit angularCompiler sourceFile).

(** [this.requiredFilesToEmit] after [clear()] and the loop over
    [builder.getSourceFiles()]. *)
Definition collect_required (angularCompiler : AngularCompiler)
    (sourceFiles : list SourceFile) : list string :=
  foldl (λ required sourceFile,
           if is_required angularCompiler sourceFile
           then Set_add (fileName sourceFile) required else required)
        [] sourceFiles.

(** The [onAfterEmit] callback of the AOT file emitter. *)
Definition onAfterEmit (sourceFile : SourceFile) (st : EmitState) : EmitState :=
  {| requiredFilesToEmit := Set_delete (fileName sourceFile) (requiredFilesToEmit st);
     successfulEmits := successfulEmits st ++ [sourceFile] |}.

(** [getDependencies] of [updateAotProgram].  [resourceLoader] is the
    loader as it is when the function runs; the dependencies of a resource
    come in the order of the set, which [elements] stands for. *)
Definition getDependencies (angularCompiler : AngularCompiler)
    (resourceLoader : ResourceLoader.WebpackResourceLoader)
    (sourceFile : SourceFile) : list string :=
  foldl (λ dependencies resourcePath,
           dependencies
           ++ resourcePath
              :: elements (ResourceLoader.getResourceDependencies
                             resourceLoader resourcePath))
        [] (getResourceDependencies angularCompiler sourceFile).

Section Emitter.
Variable CustomTransformers : Type.
Variable externalizePath : string → string.

(** The file emitter [updateAotProgram] creates once the analysis is done. *)
Definition fileEmitter (builder : BuilderProgram CustomTransformers)
    (transformers : CustomTransformers) (angularCompiler : AngularCompiler)
    (resourceLoader : ResourceLoader.WebpackResourceLoader)
    (file : string) (st : list (option SourceFile) * EmitState)
  : (list (option SourceFile) * EmitState) * Promise (option EmitFileResult) :=
  createFileEmitter externalizePath builder transformers
                    (getDependencies angularCompiler resourceLoader)
                    (Some onAfterEmit) file st.

(** The emitter called for one file after the other. *)
Definition emit_files (builder : BuilderProgram CustomTransformers)
    (transformers : CustomTransformers) (angularCompiler : AngularCompiler)
    (resourceLoader : ResourceLoader.WebpackResourceLoader)
    (files : list string) (st : list (option SourceFile) * EmitState)
  : list (option SourceFile) * EmitState :=
  foldl (λ st file,
           (fileEmitter builder transformers angularCompiler resourceLoader file st).1)
        st files.

End Emitter.

Arguments fileEmitter {_} _ _ _ _ _ _ _.
Arguments emit_files {_} _ _ _ _ _ _ _.

End AotEmitter.

(** *** The unused-file analysis over successive compilations (ivy/plugin.ts) *)
Module Rebuilds.
Import Plugin.

Section Cycles.
Variable CustomTransformers : Type.

(** What the [finishModules] tap of one compilation works on: the builder
    and the program files of that compilation, the modules webpack hands
    over, and the compilation as the module rebuilds left it. *)
Record Cycle : Type := {
  cycle_builder : BuilderProgram CustomTransformers;
  cycle_files : list SourceFile;
  cycle_modules : list Module_;
  cycle_compilation : ResourceLoader.Compilation;
}.

(** The analyses of successive compilations, oldest first.  They share the
    variable [previousUnused] of the closure of [apply]. *)
Fixpoint analyses (cycles : list Cycle) (previousUnused : option (list string))
  : list ResourceLoader.Compilation * option (list string) :=
  match cycles with
  | [] => ([], previousUnused)
  | cycle :: cycles =>
      let '(compilation, previousUnused) :=
        analyzeUnusedFiles (cycle_builder cycle) (cycle_files cycle)
                           (cycle_modules cycle) previousUnused
                           (cycle_compilation cycle) in
      let '(compilations, previousUnused) := analyses cycles previousUnused in
      (compilation :: compilations, previousUnused)
  end.

End Cycles.

Arguments cycle_builder {_} _.
Arguments cycle_files {_} _.
Arguments cycle_modules {_} _.
Arguments cycle_compilation {_} _.
Arguments analyses {_} _ _.

End Rebuilds.

(** *** Further runs of the small build *)
Module Runs.
Import Js.

(** A sandbox in which the bundle [broken] leaves no string in [resource]. *)
Definition sandbox (source filename : string) : ResourceLoader.VmResult :=
  if decide (source = "broken")
  then ResourceLoader.VmDone ResourceLoader.ResourceOther
  else ResourceLoader.VmDone (ResourceLoader.ResourceString source).

(** A child compilation that failed to build the resource and has no asset
    for it. *)
Definition without_asset : ResourceLoader.Compilation :=
  {| ResourceLoader.context := "/app";
     ResourceLoader.fullHash := "h3";
     ResourceLoader.assets := {[ "font.woff" := ResourceLoader.GeneratedSource "font" ]};
     ResourceLoader.warnings := [];
     ResourceLoader.errors := ["Module build failed"];
     ResourceLoader.fileDependencies := ["/app/c.css"] |}.

Definition webpack_without_asset : ResourceLoader.ChildCompiler :=
  λ _ _, ResourceLoader.ChildSealed without_asset.

(** The loader after the first compilation of [/app/a.css] and a [get] of
    [/app/c.css] that fails. *)
Definition after_failure : ResourceLoader.WebpackResourceLoader :=
  (ResourceLoader.get Scenario.normalizePath Scenario.runInNewContext
                      Scenario.failing_webpack Scenario.first_compile.1
                      "/app/c.css").1.

(** The next compilation starts: [b.css] has changed. *)
Definition rebuild : ResourceLoader.WebpackResourceLoader :=
  ResourceLoader.update after_failure Scenario.parent (Some ["/app/b.css"]).

(** The Angular compiler of the small program: [main.ts] uses the style
    sheet [/app/a.css], and every source has to be emitted. *)
Definition angularCompiler : AotEmitter.AngularCompiler :=
  {| AotEmitter.ignoreForEmit := λ _, false;
     AotEmitter.safeToSkipEmit := λ _, false;
     AotEmitter.getResourceDependencies := λ sourceFile,
       if decide (sourceFile = Scenario.main_ts) then ["/app/a.css"] else [] |}.

(** Two compilations after the one that warned about [unused.ts]: the
    first ends with an error, the second without. *)
Definition later_cycles : list (Rebuilds.Cycle unit) :=
  [ {| Rebuilds.cycle_builder := Scenario.builder;
       Rebuilds.cycle_files := Plugin.getSourceFiles Scenario.builder;
       Rebuilds.cycle_modules := Scenario.modules;
       Rebuilds.cycle_compilation := Scenario.failed |};
    {| Rebuilds.cycle_builder := Scenario.builder;
       Rebuilds.cycle_files := Plugin.getSourceFiles Scenario.builder;
       Rebuilds.cycle_modules := Scenario.modules;
       Rebuilds.cycle_compilation := Scenario.parent |} ].

(** Paths are already external. *)
Definition externalizePath (path : string) : string := path.

(** Three scripts for the workspace [/ws]: two for the default bundle and
    one lazy one. *)
Definition scripts : list EntryPoints.NormalizedEntryPoint :=
  [ {| EntryPoints.n_input := "a.js"; EntryPoints.n_bundleName := "scripts";
       EntryPoints.n_inject := true |};
    {| EntryPoints.n_input := "lazy.js"; EntryPoints.n_bundleName := "lazy";
       EntryPoints.n_inject := false |};
    {| EntryPoints.n_input := "b.js"; EntryPoints.n_bundleName := "scripts";
       EntryPoints.n_inject := true |} ].

(** The last segment of a path. *)
Fixpoint basename (path : string) : string :=
  match path with
  | EmptyString => EmptyString
  | String c rest =>
      if includes "/" rest then basename rest
      else if decide (c = "/"%char) then rest else path
  end.

(** A lazy style sheet given without bundle name. *)
Definition lazy_style : EntryPoints.ExtraEntryPointClass :=
  {| EntryPoints.input := "src/lazy.theme.SCSS";
     EntryPoints.bundleName := None;
     EntryPoints.inject := Some false |}.

Definition path_resolve (input : string) : string := "/ws/" +:+ input.
Definition existsSync (path : string) : bool := true.
Definition require_resolve (input : string) : option string := None.

End Runs.

(** ** Part II: properties *)

(** *** getOutputHashFormat *)
Section HashFormatTheory.
Import Js Helpers.

Lemma hashFormats_lookup_unknown length option :
  option ∉ known_options → hashFormats length !! option = None.
Proof.
  unfold hashFormats, known_options. rewrite !not_elem_of_cons.
  intros (? & ? & ? & ? & _).
  by rewrite !lookup_insert_ne, lookup_empty.
Qed.

(** The four known options yield their fixed formats, with the length
    rendered in decimal. *)
Lemma getOutputHashFormat_known length :
  let len := number_to_string (default 20%Z length) in
  (getOutputHashFormat "none" length = Own none_format
   ∧ getOutputHashFormat "media" length
     = Own {| chunk := EmptyString; extract := EmptyString;
              file := ".[hash:" +:+ len +:+ "]"; script := EmptyString |}
   ∧ getOutputHashFormat "bundles" length
     = Own {| chunk := ".[chunkhash:" +:+ len +:+ "]";
              extract := ".[contenthash:" +:+ len +:+ "]";
              file := EmptyString; script := ".[hash:" +:+ len +:+ "]" |}
   ∧ getOutputHashFormat "all" length
     = Own {| chunk := ".[chunkhash:" +:+ len +:+ "]";
              extract := ".[contenthash:" +:+ len +:+ "]";
              file := ".[hash:" +:+ len +:+ "]";
              script := ".[hash:" +:+ len +:+ "]" |}).
Proof. by repeat split. Qed.

(** An unknown option that is not the name of a member of
    [Object.prototype] falls back to the format of ['none']. *)
Lemma getOutputHashFormat_fallback option length :
  option ∉ known_options → option ∉ object_prototype_members →
  getOutputHashFormat option length = Own none_format.
Proof.
  intros Hunknown Hproto. unfold getOutputHashFormat, Js.get at 1.
  rewrite hashFormats_lookup_unknown by done.
  by rewrite decide_False by done.
Qed.

(** C10.  The option ['constructor'] is none of the four known options, and
    [getOutputHashFormat] does not return the ['none'] format for it: the
    read [hashFormats['constructor']] finds the member inherited from
    [Object.prototype], which is truthy, so that member is returned. *)
Theorem getOutputHashFormat_constructor :
("constructor" ∉ known_options)
  ∧ getOutputHashFormat "constructor" None = Inherited "constructor"
  ∧ getOutputHashFormat "constructor" None ≠ Own none_format.
Proof.
  split; [|split].
  - unfold known_options. rewrite !not_elem_of_cons, elem_of_nil. naive_solver.
  - reflexivity.
  - discriminate.
Qed.

End HashFormatTheory.

(** *** WebpackResourceLoader: dependency maps *)
Section ResourceLoaderTheory.
Import Js ResourceLoader.

Lemma foldl_union_affected (l : WebpackResourceLoader) (files : list string)
    (start : gset string) :
  foldl (λ modifiedResources changedFile,
           modifiedResources ∪ getAffectedResources l changedFile) start files
  = start ∪ ⋃ (getAffectedResources l <$> files).
Proof.
  revert start. induction files as [|file files IH]; intros start; simpl.
  - set_solver.
  - rewrite IH. set_solver.
Qed.

(** Membership in the set of modified resources. *)
Lemma elem_of_getModifiedResourceFiles (l : WebpackResourceLoader) files resource :
  changedFiles l = Some files →
  resource ∈ getModifiedResourceFiles l
  ↔ ∃ changedFile, changedFile ∈ files ∧ resource ∈ getAffectedResources l changedFile.
Proof.
  intros Hfiles. unfold getModifiedResourceFiles.
  rewrite Hfiles, foldl_union_affected, elem_of_union, elem_of_union_list. split.
  - intros [[]%not_elem_of_empty|(X & HX & Hin)].
    apply list_elem_of_fmap in HX as (c & -> & Hc). eauto.
  - intros (c & Hc & Hin). right. exists (getAffectedResources l c). split; [|done].
    apply list_elem_of_fmap. eauto.
Qed.

(** C4.  [getModifiedResourceFiles()] is the union of
    [getAffectedResources(c)] over the changed files [c] when a changed-file
    list was supplied, and the empty set when none was. *)
Theorem getModifiedResourceFiles_union (l : WebpackResourceLoader) :
  getModifiedResourceFiles l
  = match changedFiles l with
    | Some files => ⋃ (getAffectedResources l <$> files)
    | None => ∅
    end.
Proof.
  unfold getModifiedResourceFiles. destruct (changedFiles l) as [files|]; [|done].
  rewrite foldl_union_affected. set_solver.
Qed.

Variable normalizePath : string → string.
Variable runInNewContext : string → string → VmResult.

Local Abbreviation additionalAssets := (additionalAssets runInNewContext).
Local Abbreviation compile_child := (compile_child runInNewContext).
Local Abbreviation _compile := (_compile normalizePath runInNewContext).
Local Abbreviation add_reverse_dependency := (add_reverse_dependency normalizePath).
Local Abbreviation with_dependencies := (with_dependencies normalizePath).

(** The tap only touches the assets of the child compilation, and only the
    evaluation cache and the evaluation log of the loader. *)
Lemma additionalAssets_frame l filePath compilation l' compilation' result :
  additionalAssets l filePath compilation = (l', compilation', result) →
  fullHash compilation' = fullHash compilation
  ∧ fileDependencies compilation' = fileDependencies compilation
  ∧ warnings compilation' = warnings compilation
  ∧ errors compilation' = errors compilation
  ∧ _parentCompilation l' = _parentCompilation l
  ∧ _context l' = _context l
  ∧ _fileDependencies l' = _fileDependencies l
  ∧ _reverseDependencies l' = _reverseDependencies l
  ∧ _cachedSources l' = _cachedSources l
  ∧ changedFiles l' = changedFiles l
  ∧ childCompilers l' = childCompilers l.
Proof.
  unfold ResourceLoader.additionalAssets. intros Heq.
  repeat case_match; simplify_eq; done.
Qed.

Lemma compile_child_done_inv webpack l filePath l' childCompilation :
  compile_child webpack l filePath = (l', CompileDone childCompilation) →
  ∃ compilation,
    webpack (_context l) filePath = ChildSealed compilation
    ∧ additionalAssets (log_childCompiler filePath l) filePath compilation
      = (l', childCompilation, HookDone).
Proof.
  unfold ResourceLoader.compile_child. simpl. intros Heq.
  destruct (webpack _ _) as [err|compilation]; [done|].
  destruct (additionalAssets _ _ _) as [[l1 c1] [| |]] eqn:Hhook; simplify_eq.
  by exists compilation.
Qed.

Lemma compile_resolved_inv webpack l filePath l' output :
  _compile webpack l filePath = (l', Resolved output) →
  ∃ parent l1 childCompilation,
    _parentCompilation l = Some parent
    ∧ is_script_file filePath = false
    ∧ compile_child webpack l filePath = (l1, CompileDone childCompilation)
    ∧ outputName output = filePath
    ∧ (l' = with_dependencies filePath parent childCompilation l1
       ∨ l' = set_cachedSources
                (<[fullHash childCompilation := source output]> (_cachedSources l1))
                (with_dependencies filePath parent childCompilation l1)).
Proof.
  unfold ResourceLoader._compile. intros Heq.
  destruct (_parentCompilation l) as [parent|]; [|done].
  destruct (is_script_file filePath); [done|].
  destruct (compile_child webpack l filePath) as [l1 [err|child|exn]] eqn:Hchild;
    [done| |done].
  exists parent, l1, child. repeat split; [| ].
  - simpl in Heq. repeat case_match; by simplify_eq.
  - simpl in Heq. repeat case_match; simplify_eq; auto.
Qed.

Lemma add_reverse_dependency_keeps filePath rev file key :
  filePath ∈ default ∅ (rev !! key) →
  filePath ∈ default ∅ (add_reverse_dependency filePath rev file !! key).
Proof.
  unfold ResourceLoader.add_reverse_dependency. intros Hin.
  destruct (rev !! normalizePath file) as [entry|] eqn:Hentry;
    (destruct (decide (normalizePath file = key)) as [<-|Hne];
     [rewrite lookup_insert_eq; rewrite ?Hentry in Hin; simpl in *; set_solver
     |by rewrite lookup_insert_ne]).
Qed.

Lemma add_reverse_dependency_adds filePath rev file :
  filePath ∈ default ∅ (add_reverse_dependency filePath rev file
                          !! normalizePath file).
Proof.
  unfold ResourceLoader.add_reverse_dependency.
  destruct (rev !! normalizePath file); rewrite lookup_insert_eq; simpl; set_solver.
Qed.

Lemma reverse_dependencies_keep filePath files rev key :
  filePath ∈ default ∅ (rev !! key) →
  filePath ∈ default ∅ (foldl (add_reverse_dependency filePath) rev files !! key).
Proof.
  revert rev. induction files as [|file files IH]; intros rev Hin; [done|].
  simpl. by apply IH, add_reverse_dependency_keeps.
Qed.

Lemma reverse_dependencies_add filePath files rev file :
  file ∈ files →
  filePath ∈ default ∅ (foldl (add_reverse_dependency filePath) rev files
                          !! normalizePath file).
Proof.
  revert rev. induction files as [|file' files IH]; intros rev Hin.
  - by apply elem_of_nil in Hin.
  - simpl. apply elem_of_cons in Hin as [->|Hin].
    + apply reverse_dependencies_keep, add_reverse_dependency_adds.
    + by apply IH.
Qed.

(** C3.  After a successful [_compile(filePath)] the two dependency maps
    agree with the child compilation: [getResourceDependencies(filePath)]
    is the set of its file dependencies, and [getAffectedResources] of the
    normalized path of each of them contains [filePath]. *)
Theorem compile_dependency_maps_in_sync webpack l filePath l' output :
  _compile webpack l filePath = (l', Resolved output) →
  ∃ l1 childCompilation,
    compile_child webpack l filePath = (l1, CompileDone childCompilation)
    ∧ getResourceDependencies l' filePath
      = list_to_set (fileDependencies childCompilation)
    ∧ ∀ file, file ∈ fileDependencies childCompilation →
              filePath ∈ getAffectedResources l' (normalizePath file).
Proof.
  intros Hcompile.
  apply compile_resolved_inv in Hcompile
    as (parent & l1 & child & _ & _ & Hchild & _ & Hl').
  exists l1, child. split; [done|].
  assert (_fileDependencies l'
          = <[filePath := list_to_set (fileDependencies child)]>
              (_fileDependencies l1)
          ∧ _reverseDependencies l'
            = foldl (add_reverse_dependency filePath) (_reverseDependencies l1)
                    (fileDependencies child)) as [Hfwd Hrev].
  { by destruct Hl' as [-> | ->]. }
  unfold getResourceDependencies, getAffectedResources. rewrite Hfwd, Hrev. split.
  - by rewrite lookup_insert_eq.
  - intros file Hin. by apply reverse_dependencies_add.
Qed.

(** Whatever the outcome, the loader after [_compile] is the loader it
    started from, the loader the child compiler left, or the latter with
    the propagation done, the dependencies saved and possibly the source
    cached. *)
Lemma compile_cases webpack l filePath l' result :
  _compile webpack l filePath = (l', result) →
  l' = l
  ∨ ∃ parent l1 outcome,
      _parentCompilation l = Some parent
      ∧ compile_child webpack l filePath = (l1, outcome)
      ∧ (l' = l1
         ∨ ∃ childCompilation,
             outcome = CompileDone childCompilation
             ∧ (l' = with_dependencies filePath parent childCompilation l1
                ∨ ∃ asset,
                    Js.get (assets childCompilation) filePath = Own asset
                    ∧ result = Resolved {| outputName := filePath;
                                           source := getSource asset |}
                    ∧ l' = set_cachedSources
                             (<[fullHash childCompilation := getSource asset]>
                                (_cachedSources l1))
                             (with_dependencies filePath parent childCompilation l1))).
Proof.
  unfold ResourceLoader._compile. intros Heq.
  destruct (_parentCompilation l) as [parent|]; [|left; by simplify_eq].
  destruct (is_script_file filePath); [left; by simplify_eq|].
  destruct (compile_child webpack l filePath) as [l1 outcome] eqn:Hchild.
  right. exists parent, l1, outcome. split; [done|]. split; [done|].
  destruct outcome as [err|child|exn]; [left; by simplify_eq| |left; by simplify_eq].
  right. exists child. split; [done|]. simpl in Heq.
  repeat case_match; simplify_eq; eauto.
Qed.

Lemma compile_child_frame webpack l filePath l' outcome :
  compile_child webpack l filePath = (l', outcome) →
  _parentCompilation l' = _parentCompilation l
  ∧ _context l' = _context l
  ∧ _fileDependencies l' = _fileDependencies l
  ∧ _reverseDependencies l' = _reverseDependencies l
  ∧ _cachedSources l' = _cachedSources l
  ∧ changedFiles l' = changedFiles l
  ∧ childCompilers l' = childCompilers l ++ [filePath].
Proof.
  unfold ResourceLoader.compile_child. intros Heq.
  destruct (webpack _ _) as [err|compilation]; [by simplify_eq|].
  destruct (additionalAssets _ _ _) as [[l1 c1] hook] eqn:Hhook.
  apply additionalAssets_frame in Hhook.
  destruct hook; simplify_eq; naive_solver.
Qed.

(** *** WebpackResourceLoader: propagation of assets *)

Lemma propagate_asset_keeps filePath parentAssets entry name asset :
  parentAssets !! name = Some asset →
  propagate_asset filePath parentAssets entry !! name = Some asset.
Proof.
  unfold propagate_asset. destruct entry as [assetName childAsset]. intros Hname.
  case_match; [|done].
  destruct (decide (assetName = name)) as [->|?]; [|by rewrite lookup_insert_ne].
  unfold Js.get in *. rewrite Hname in *. by rewrite !andb_false_r in *.
Qed.

Lemma propagate_asset_skips filePath parentAssets entry name :
  name = filePath ∨ name = filePath +:+ ".map" →
  propagate_asset filePath parentAssets entry !! name = parentAssets !! name.
Proof.
  unfold propagate_asset. destruct entry as [assetName childAsset]. intros Hname.
  case_match eqn:Hguard; [|done].
  apply andb_prop in Hguard as [Hguard _]. apply andb_prop in Hguard as [H1 H2].
  apply bool_decide_eq_true in H1, H2.
  rewrite lookup_insert_ne; [done|]. naive_solver.
Qed.

Lemma propagate_assets_keeps filePath childAssets parentAssets name asset :
  parentAssets !! name = Some asset →
  propagate_assets filePath childAssets parentAssets !! name = Some asset.
Proof.
  unfold propagate_assets. generalize (map_to_list childAssets). intros entries.
  revert parentAssets. induction entries as [|entry entries IH]; intros pa Hname; [done|].
  simpl. by apply IH, propagate_asset_keeps.
Qed.

Lemma propagate_assets_skips filePath childAssets parentAssets name :
  name = filePath ∨ name = filePath +:+ ".map" →
  propagate_assets filePath childAssets parentAssets !! name = parentAssets !! name.
Proof.
  unfold propagate_assets. generalize (map_to_list childAssets). intros entries.
  revert parentAssets. induction entries as [|entry entries IH]; intros pa Hname; [done|].
  simpl. rewrite IH by done. by apply propagate_asset_skips.
Qed.

(** C9.  Whatever [_compile(filePath)] ends with, every asset the parent
    compilation already had is still there unchanged, and the entries of
    the parent's assets for [filePath] and for [filePath + '.map'] are what
    they were: the propagation never adds them. *)
Theorem compile_parent_assets_frame webpack l filePath parent l' result :
  _parentCompilation l = Some parent →
  _compile webpack l filePath = (l', result) →
  ∃ parent',
    _parentCompilation l' = Some parent'
    ∧ (∀ name asset, assets parent !! name = Some asset →
                     assets parent' !! name = Some asset)
    ∧ assets parent' !! filePath = assets parent !! filePath
    ∧ assets parent' !! (filePath +:+ ".map") = assets parent !! (filePath +:+ ".map").
Proof.
  intros Hparent Hcompile.
  apply compile_cases in Hcompile
    as [->|(parent0 & l1 & outcome & Hparent0 & Hchild & Hl')]; [by exists parent|].
  assert (parent0 = parent) as -> by congruence.
  apply compile_child_frame in Hchild as (Hp1 & _).
  destruct Hl' as [->|(child & -> & Hl')].
  { exists parent. by rewrite Hp1. }
  exists (propagate filePath child parent). split.
  { by destruct Hl' as [->|(asset & _ & _ & ->)]. }
  unfold propagate. simpl. split; [|split].
  - intros name asset. apply propagate_assets_keeps.
  - apply propagate_assets_skips. by left.
  - apply propagate_assets_skips. by right.
Qed.

(** *** WebpackResourceLoader: failures *)

Lemma prefix_append sub rest : String.prefix sub (sub +:+ rest) = true.
Proof.
  induction sub as [|a sub IH]; simpl; [by destruct rest|].
  by destruct (Ascii.ascii_dec a a).
Qed.

Lemma includes_prefix sub s : String.prefix sub s = true → includes sub s = true.
Proof. destruct s; simpl; by intros ->. Qed.

Lemma includes_append pre sub post : includes sub (pre +:+ sub +:+ post) = true.
Proof.
  induction pre as [|a pre IH].
  - change (includes sub (sub +:+ post) = true).
    apply includes_prefix, prefix_append.
  - change (includes sub (String a (pre +:+ sub +:+ post)) = true).
    simpl. rewrite IH. apply orb_true_r.
Qed.



(** *** WebpackResourceLoader: the caches *)

Local Abbreviation step := (step normalizePath runInNewContext).

Lemma additionalAssets_cache l filePath compilation l' compilation' result :
  additionalAssets l filePath compilation = (l', compilation', result) →
  (∀ hash evaluated,
     _cachedEvaluatedSources l !! hash = Some evaluated →
     _cachedEvaluatedSources l' !! hash = Some evaluated)
  ∧ (result = HookDone →
     ∀ asset, Js.get (assets compilation') filePath = Own asset →
              _cachedEvaluatedSources l' !! fullHash compilation = Some asset).
Proof.
  unfold ResourceLoader.additionalAssets. intros Heq.
  destruct (_cachedEvaluatedSources l !! fullHash compilation) as [cached|] eqn:Hhit.
  { simplify_eq. split; [done|]. intros _ asset. simpl. unfold Js.get.
    rewrite lookup_insert_eq. congruence. }
  destruct (Js.get (assets compilation) filePath) as [asset| |] eqn:Hasset;
    [| by simplify_eq | simplify_eq; split; [done|]; intros _ ?; congruence].
  destruct (_evaluate _ _) as [output|err|exn]; simplify_eq; simpl;
    [|by split..].
  split.
  - intros hash evaluated Hsome. rewrite lookup_insert_ne; [done|congruence].
  - intros _ asset'. unfold Js.get. rewrite !lookup_insert_eq. congruence.
Qed.

Lemma additionalAssets_hit l filePath compilation cached :
  _cachedEvaluatedSources l !! fullHash compilation = Some cached →
  additionalAssets l filePath compilation
  = (l, set_assets (<[filePath := cached]> (assets compilation)) compilation,
     HookDone).
Proof. unfold ResourceLoader.additionalAssets. by intros ->. Qed.

Lemma compile_child_cache webpack l filePath l' outcome :
  compile_child webpack l filePath = (l', outcome) →
  (∀ hash evaluated,
     _cachedEvaluatedSources l !! hash = Some evaluated →
     _cachedEvaluatedSources l' !! hash = Some evaluated)
  ∧ (∀ childCompilation asset,
       outcome = CompileDone childCompilation →
       Js.get (assets childCompilation) filePath = Own asset →
       _cachedEvaluatedSources l' !! fullHash childCompilation = Some asset).
Proof.
  unfold ResourceLoader.compile_child. intros Heq.
  destruct (webpack _ _) as [err|compilation]; [by simplify_eq|].
  destruct (additionalAssets _ _ _) as [[l1 c1] hook] eqn:Hhook.
  pose proof (additionalAssets_frame _ _ _ _ _ _ Hhook) as (Hhash & _).
  apply additionalAssets_cache in Hhook as [Hmono Hasset].
  destruct hook; simplify_eq; (split; [done|]); [|done..].
  intros child asset [= <-] Hget. rewrite Hhash. by apply Hasset.
Qed.

(** What [_compile] does to the caches and to the presence of a parent. *)
Lemma compile_caches webpack l filePath l' result :
  _compile webpack l filePath = (l', result) →
  (cache_consistent l → cache_consistent l')
  ∧ (∀ hash evaluated,
       _cachedEvaluatedSources l !! hash = Some evaluated →
       _cachedEvaluatedSources l' !! hash = Some evaluated)
  ∧ (is_Some (_parentCompilation l) → is_Some (_parentCompilation l')).
Proof.
  intros Hcompile.
  apply compile_cases in Hcompile
    as [->|(parent & l1 & outcome & Hparent & Hchild & Hl')]; [done|].
  pose proof (compile_child_frame _ _ _ _ _ Hchild)
    as (Hp1 & _ & _ & _ & Hsources & _).
  apply compile_child_cache in Hchild as [Hmono Hasset].
  assert (cache_consistent l → cache_consistent l1) as Hinv1.
  { intros Hinv hash cached. rewrite Hsources. intros Hcached.
    apply Hinv in Hcached as (evaluated & ? & ?). eauto. }
  destruct Hl' as [->|(child & -> & [->|(asset & Hget & _ & ->)])].
  - split; [done|]. split; [done|]. by rewrite Hp1.
  - split; [done|]. split; [done|]. intros _. by eexists.
  - split; [|split; [done|intros _; by eexists]].
    intros Hinv hash cached. simpl.
    destruct (decide (fullHash child = hash)) as [<-|Hne].
    + rewrite lookup_insert_eq. intros [= <-]. exists asset. eauto.
    + rewrite lookup_insert_ne by done. by apply Hinv1.
Qed.

Lemma step_caches l l' :
  step l l' →
  (cache_consistent l → cache_consistent l')
  ∧ (∀ hash evaluated,
       _cachedEvaluatedSources l !! hash = Some evaluated →
       _cachedEvaluatedSources l' !! hash = Some evaluated)
  ∧ (is_Some (_parentCompilation l) → is_Some (_parentCompilation l')).
Proof.
  destruct 1 as [l parent changed|l file resources|webpack l filePath l' result Hget].
  - split; [done|]. split; [done|]. intros _. by eexists.
  - done.
  - unfold get in Hget.
    destruct (_compile webpack l filePath) as [l1 r] eqn:Hcompile. simplify_eq.
    by apply compile_caches in Hcompile.
Qed.

Lemma steps_caches l l' :
  rtc step l l' →
  (cache_consistent l → cache_consistent l')
  ∧ (∀ hash evaluated,
       _cachedEvaluatedSources l !! hash = Some evaluated →
       _cachedEvaluatedSources l' !! hash = Some evaluated)
  ∧ (is_Some (_parentCompilation l) → is_Some (_parentCompilation l')).
Proof.
  induction 1 as [l|l l1 l2 Hstep _ IH]; [done|].
  apply step_caches in Hstep. naive_solver.
Qed.

Lemma new_cache_consistent : cache_consistent ResourceLoader.new.
Proof. intros hash cached Hcached. simpl in Hcached. by rewrite lookup_empty in Hcached. Qed.

(** A successful [_compile] leaves, under the hash of its child
    compilation, an evaluated source whose content is the source it
    returned. *)
Lemma compile_resolved_cached webpack l filePath l0 childCompilation l' output :
  cache_consistent l →
  compile_child webpack l filePath = (l0, CompileDone childCompilation) →
  _compile webpack l filePath = (l', Resolved output) →
  ∃ evaluated,
    _cachedEvaluatedSources l' !! fullHash childCompilation = Some evaluated
    ∧ getSource evaluated = source output.
Proof.
  intros Hinv Hchild Hcompile.
  pose proof (compile_child_frame _ _ _ _ _ Hchild)
    as (_ & _ & _ & _ & Hsources & _).
  pose proof (compile_child_cache _ _ _ _ _ Hchild) as [Hmono Hasset].
  assert (_cachedEvaluatedSources l' = _cachedEvaluatedSources l0) as ->.
  { apply compile_resolved_inv in Hcompile
      as (parent & l1 & child & _ & _ & Hchild' & _ & Hl').
    rewrite Hchild in Hchild'. simplify_eq. by destruct Hl' as [->| ->]. }
  unfold ResourceLoader._compile in Hcompile.
  destruct (_parentCompilation l) as [parent|]; [|done].
  destruct (is_script_file filePath); [done|].
  rewrite Hchild in Hcompile. simpl in Hcompile. rewrite Hsources in Hcompile.
  destruct (Js.get (assets childCompilation) filePath) as [asset| |] eqn:Hget;
    (destruct (_cachedSources l !! fullHash childCompilation)
       as [maybeSource|] eqn:Hcached;
     [destruct (decide (maybeSource = EmptyString))|]);
    simplify_eq; simpl;
    try (apply Hinv in Hcached as (evaluated & Hevaluated & <-); by eauto);
    exists asset; (split; [by eapply Hasset|done]).
Qed.

(** C1, as the code has it.  The caches are keyed by the [fullHash] of the
    child compilation of the resource.  Once [_compile(filePath)] has
    succeeded with a child compilation of hash [h], any later
    [_compile(filePath)] whose child compilation has hash [h] again,
    whatever else that compilation holds, puts the cached evaluated source
    in place as the asset of [filePath], returns the source returned the
    first time, and evaluates nothing. *)
Theorem compile_reuses_cached_artifact
    webpack1 webpack2 l filePath l0 child1 l1 output l2 sealed2 :
  rtc step ResourceLoader.new l →
  compile_child webpack1 l filePath = (l0, CompileDone child1) →
  _compile webpack1 l filePath = (l1, Resolved output) →
  rtc step l1 l2 →
  webpack2 (_context l2) filePath = ChildSealed sealed2 →
  fullHash sealed2 = fullHash child1 →
  ∃ evaluated l3,
    _cachedEvaluatedSources l2 !! fullHash child1 = Some evaluated
    ∧ compile_child webpack2 l2 filePath
      = (log_childCompiler filePath l2,
         CompileDone (set_assets (<[filePath := evaluated]> (assets sealed2))
                                 sealed2))
    ∧ _compile webpack2 l2 filePath = (l3, Resolved output)
    ∧ evaluations l3 = evaluations l2.
Proof.
  intros Hreach Hchild1 Hcompile1 Hlater Hsealed Hhash.
  pose proof (proj1 (steps_caches _ _ Hreach) new_cache_consistent) as Hinv.
  destruct (compile_resolved_cached _ _ _ _ _ _ _ Hinv Hchild1 Hcompile1)
    as (evaluated & Hevaluated & Hsource).
  pose proof (compile_resolved_inv _ _ _ _ _ Hcompile1)
    as (parent & _ & _ & Hparent & Hscript & _ & Hname & _).
  pose proof (compile_caches _ _ _ _ _ Hcompile1) as (Hinv1 & _ & Hparent1).
  pose proof (steps_caches _ _ Hlater) as (Hinv2 & Hmono2 & Hparent2).
  apply Hmono2 in Hevaluated.
  specialize (Hinv2 (Hinv1 Hinv)).
  destruct Hparent2 as [parent2 Hparent2]; [apply Hparent1; by eexists|].
  assert (compile_child webpack2 l2 filePath
          = (log_childCompiler filePath l2,
             CompileDone (set_assets (<[filePath := evaluated]> (assets sealed2))
                                     sealed2))) as Hchild2.
  { unfold ResourceLoader.compile_child. simpl. rewrite Hsealed.
    rewrite (additionalAssets_hit _ _ _ evaluated); [done|].
    simpl. by rewrite Hhash. }
  exists evaluated.
  assert (output = {| outputName := filePath; source := getSource evaluated |})
    as Houtput.
  { destruct output; simpl in *; by subst. }
  unfold ResourceLoader._compile.
  rewrite Hparent2, Hscript, Hchild2. simpl.
  unfold Js.get. rewrite lookup_insert_eq, Hhash.
  destruct (_cachedSources l2 !! fullHash child1) as [maybeSource|] eqn:Hcached.
  - apply Hinv2 in Hcached as (evaluated' & Hevaluated' & <-).
    assert (evaluated' = evaluated) as -> by congruence.
    destruct (decide (getSource evaluated = EmptyString));
      eexists; rewrite Houtput; done.
  - eexists. by rewrite Houtput.
Qed.

End ResourceLoaderTheory.

(** *** SourceFileCache *)
Section CacheTheory.
Import SourceFileCache.
Context {SourceFile : Type}.
Implicit Types (rev : gmap string (gset string)) (files : gset string).

Lemma affected_by_universe rev file resource :
  resource ∈ affected_by rev file → resource ∈ affected_universe rev.
Proof.
  unfold affected_by, affected_universe.
  destruct (rev !! file) as [resources|] eqn:Hfile; simpl; [|set_solver].
  intros Hin. apply elem_of_union_list. exists resources. split; [|done].
  apply list_elem_of_fmap. exists (file, resources). split; [done|].
  by apply elem_of_map_to_list.
Qed.

Lemma elem_of_expand rev files resource :
  resource ∈ expand rev files
  ↔ resource ∈ files ∨ ∃ file, file ∈ files ∧ affects rev file resource.
Proof.
  unfold expand, affects. rewrite elem_of_union, elem_of_set_bind. naive_solver.
Qed.

Lemma expand_fixpoint_saturate rev rounds files :
  expand rev files = files → saturate rev rounds files = files.
Proof.
  intros Hfix. induction rounds as [|rounds IH]; simpl; [done|]. by rewrite Hfix.
Qed.

Lemma saturate_subseteq rev rounds files : files ⊆ saturate rev rounds files.
Proof.
  revert files. induction rounds as [|rounds IH]; intros files; simpl; [done|].
  etrans; [|apply IH]. intros x Hx. apply elem_of_expand. by left.
Qed.

(** Enough rounds give a set that one more hop does not enlarge. *)
Lemma saturate_closed rev rounds files :
  size (affected_universe rev ∖ files) ≤ rounds →
  expand rev (saturate rev rounds files) = saturate rev rounds files.
Proof.
  revert files. induction rounds as [|rounds IH]; intros files Hsize; simpl.
  - assert (affected_universe rev ∖ files = ∅) as Hempty.
    { apply leibniz_equiv, size_empty_inv. lia. }
    apply set_eq. intros x. rewrite elem_of_expand. split; [|by left].
    intros [?|(file & _ & Hx)]; [done|].
    apply affected_by_universe in Hx.
    destruct (decide (x ∈ files)); [done|]. set_solver.
  - destruct (decide (expand rev files ⊆ files)) as [Hfix|Hgrow].
    + assert (expand rev files = files) as Heq.
      { apply set_eq. intros x. split; [apply Hfix|].
        intros ?. apply elem_of_expand. by left. }
      rewrite Heq. by rewrite expand_fixpoint_saturate.
    + apply IH.
      assert (affected_universe rev ∖ expand rev files
              ⊂ affected_universe rev ∖ files) as Hless; [|apply subset_size in Hless; lia].
      split.
      * intros x. rewrite !elem_of_difference, elem_of_expand. naive_solver.
      * intros Hsub. apply Hgrow. intros x Hx.
        destruct (decide (x ∈ files)) as [|Hnew]; [done|]. exfalso.
        apply elem_of_expand in Hx as Hx'. destruct Hx' as [?|(file & _ & Haff)]; [done|].
        apply affected_by_universe in Haff.
        assert (x ∈ affected_universe rev ∖ expand rev files) as Hin.
        { apply Hsub. by apply elem_of_difference. }
        apply elem_of_difference in Hin as [_ Hin]. done.
Qed.

Lemma saturate_sound rev rounds files resource :
  resource ∈ saturate rev rounds files →
  ∃ file, file ∈ files ∧ rtc (affects rev) file resource.
Proof.
  revert files. induction rounds as [|rounds IH]; intros files; simpl.
  - intros ?. by exists resource.
  - intros Hin. apply IH in Hin as (mid & Hmid & Hreach).
    apply elem_of_expand in Hmid as [?|(file & ? & ?)]; [by exists mid|].
    exists file. split; [done|]. by eapply rtc_l.
Qed.

(** [reachable_files] is the reflexive-transitive closure of one hop. *)
Lemma elem_of_reachable_files rev files resource :
  resource ∈ reachable_files rev files
  ↔ ∃ file, file ∈ files ∧ rtc (affects rev) file resource.
Proof.
  split; [apply saturate_sound|].
  intros (file & Hfile & Hreach). unfold reachable_files.
  assert (file ∈ saturate rev (size (affected_universe rev)) files) as Hstart.
  { by apply saturate_subseteq. }
  clear Hfile. induction Hreach as [file|file mid resource Hhop _ IH]; [done|].
  apply IH. rewrite <-saturate_closed.
  - apply elem_of_expand. right. by exists file.
  - apply subseteq_size. set_solver.
Qed.




End CacheTheory.

(** *** AngularWebpackPlugin: unused files *)
Section UnusedFilesTheory.
Import Js Plugin.
Context {CustomTransformers : Type}.
Implicit Types (builder : BuilderProgram CustomTransformers).
Implicit Types (s items : list string).

Lemma Set_add_spec x s y : y ∈ Set_add x s ↔ y = x ∨ y ∈ s.
Proof.
  unfold Set_add. case_decide.
  - naive_solver.
  - rewrite elem_of_app, list_elem_of_singleton. naive_solver.
Qed.

Lemma Set_add_NoDup x s : NoDup s → NoDup (Set_add x s).
Proof.
  unfold Set_add. intros Hs. case_decide; [done|].
  apply NoDup_app. split; [done|]. split; [|apply NoDup_singleton].
  intros y Hy ->%list_elem_of_singleton. done.
Qed.

Lemma foldl_Set_add items s :
  (∀ y, y ∈ foldl (λ s x, Set_add x s) s items ↔ y ∈ s ∨ y ∈ items)
  ∧ (NoDup s → NoDup (foldl (λ s x, Set_add x s) s items)).
Proof.
  revert s. induction items as [|x items IH]; intros s; simpl.
  - split; [|done]. intros y. rewrite elem_of_nil. naive_solver.
  - destruct (IH (Set_add x s)) as [Hin Hnodup]. split.
    + intros y. rewrite Hin, Set_add_spec, elem_of_cons. naive_solver.
    + intros Hs. by apply Hnodup, Set_add_NoDup.
Qed.

Lemma Set_new_spec items y : y ∈ Set_new items ↔ y ∈ items.
Proof.
  unfold Set_new. rewrite (proj1 (foldl_Set_add items [])), elem_of_nil. naive_solver.
Qed.

Lemma Set_new_NoDup items : NoDup (Set_new items).
Proof. apply foldl_Set_add, NoDup_nil_2. Qed.

Lemma foldl_Set_delete deps s :
  (∀ y, y ∈ foldl (λ unused dep, Set_delete dep unused) s deps
        ↔ y ∈ s ∧ y ∉ deps)
  ∧ (NoDup s → NoDup (foldl (λ unused dep, Set_delete dep unused) s deps)).
Proof.
  revert s. induction deps as [|dep deps IH]; intros s; simpl.
  - split; [|done]. intros y. rewrite elem_of_nil. naive_solver.
  - destruct (IH (Set_delete dep s)) as [Hin Hnodup]. split.
    + intros y. rewrite Hin. unfold Set_delete.
      rewrite list_elem_of_filter, not_elem_of_cons. naive_solver.
    + intros Hs. by apply Hnodup, NoDup_filter.
Qed.

Lemma drop_module_dependencies_spec builder s module :
  (∀ y, y ∈ drop_module_dependencies builder s module
        ↔ y ∈ s ∧ ¬ module_depends_on builder module y)
  ∧ (NoDup s → NoDup (drop_module_dependencies builder s module)).
Proof.
  unfold drop_module_dependencies, module_depends_on.
  assert (∀ P : string → Prop, (∀ y, ¬ P y) →
            (∀ y, y ∈ s ↔ y ∈ s ∧ ¬ P y) ∧ (NoDup s → NoDup s)) as Hskip.
  { intros P HP. split; [|done]. intros y. specialize (HP y). tauto. }
  destruct (resource module) as [r|];
    [|apply Hskip; intros y (? & ? & ? & _); done].
  case_decide as Hempty;
    [apply Hskip; intros y (? & ? & ? & ? & _); congruence|].
  destruct (getSourceFile builder r) as [sourceFile|] eqn:Hfile;
    [|apply Hskip; intros y (? & ? & ? & ? & ? & _); congruence].
  destruct (foldl_Set_delete (getAllDependencies builder sourceFile) s)
    as [Hin Hnodup].
  split; [|done]. intros y. rewrite Hin. split.
  - intros [? Hdep]. split; [done|].
    intros (? & ? & ? & ? & ? & ?). by simplify_eq.
  - intros [? Hdep]. split; [done|]. intros ?. apply Hdep. eauto 10.
Qed.

Lemma foldl_drop_module_dependencies builder modules s :
  (∀ y, y ∈ foldl (drop_module_dependencies builder) s modules
        ↔ y ∈ s ∧ ∀ module, module ∈ modules →
                             ¬ module_depends_on builder module y)
  ∧ (NoDup s → NoDup (foldl (drop_module_dependencies builder) s modules)).
Proof.
  revert s. induction modules as [|module modules IH]; intros s; simpl.
  - split; [|done]. intros y. split; [|naive_solver].
    intros ?. split; [done|]. intros ? []%elem_of_nil.
  - destruct (IH (drop_module_dependencies builder s module)) as [Hin Hnodup].
    destruct (drop_module_dependencies_spec builder s module) as [Hin1 Hnodup1].
    split; [|by auto].
    intros y. rewrite Hin, Hin1. split.
    + intros [[? ?] Hrest]. split; [done|].
      intros m [->|?]%elem_of_cons; auto.
    + intros [? Hall]. split; [split; [done|]|].
      * apply Hall. by left.
      * intros m ?. apply Hall. by right.
Qed.

(** The unused files are the non-declaration program files that no bundled
    module depends on, each listed once. *)
Lemma compute_unused_spec builder allProgramFiles modules :
  NoDup (compute_unused builder allProgramFiles modules)
  ∧ ∀ file,
      file ∈ compute_unused builder allProgramFiles modules
      ↔ (∃ sourceFile, sourceFile ∈ allProgramFiles
                       ∧ isDeclarationFile sourceFile = false
                       ∧ fileName sourceFile = file)
        ∧ ∀ module, module ∈ modules → ¬ module_depends_on builder module file.
Proof.
  unfold compute_unused.
  match goal with
  | |- context [foldl _ ?start modules] =>
      destruct (foldl_drop_module_dependencies builder modules start)
        as [Hin Hnodup]
  end.
  split; [apply Hnodup, Set_new_NoDup|].
  intros file. rewrite Hin, Set_new_spec, list_elem_of_fmap.
  setoid_rewrite list_elem_of_filter. naive_solver.
Qed.

Lemma foldl_warn_unused previousUnused compilation unused :
  foldl (warn_unused previousUnused) compilation unused
  = ResourceLoader.set_diagnostics
      (ResourceLoader.warnings compilation
       ++ (unused_message
             <$> filter (λ file, previously_unused previousUnused file = false)
                        unused))
      (ResourceLoader.errors compilation) compilation.
Proof.
  revert compilation. induction unused as [|file unused IH]; intros compilation; simpl.
  - rewrite app_nil_r. by destruct compilation.
  - rewrite IH, filter_cons. unfold warn_unused.
    destruct (previously_unused previousUnused file).
    + by rewrite decide_False by done.
    + rewrite decide_True by done. unfold ResourceLoader.set_diagnostics. simpl.
      by rewrite <-app_assoc.
Qed.

Lemma analyzeUnusedFiles_warnings builder allProgramFiles modules previousUnused
    compilation :
  ∃ warned,
    ResourceLoader.warnings
      (analyzeUnusedFiles builder allProgramFiles modules previousUnused
                          compilation).1
    = ResourceLoader.warnings compilation ++ (unused_message <$> warned)
    ∧ ∀ file, file ∈ warned → previously_unused previousUnused file = false.
Proof.
  unfold analyzeUnusedFiles. destruct (ResourceLoader.errors compilation).
  - rewrite foldl_warn_unused. simpl. eexists. split; [done|].
    by intros file [? _]%list_elem_of_filter.
  - exists []. simpl. rewrite app_nil_r. split; [done|]. by intros ? ?%elem_of_nil.
Qed.

(** With errors on the compilation the analysis is skipped: nothing is
    warned and the files remembered from the previous analysis stay. *)
Lemma analyzeUnusedFiles_errors builder allProgramFiles modules previousUnused
    compilation :
  ResourceLoader.errors compilation ≠ [] →
  analyzeUnusedFiles builder allProgramFiles modules previousUnused compilation
  = (compilation, previousUnused).
Proof. unfold analyzeUnusedFiles. by destruct (ResourceLoader.errors compilation). Qed.

(** C6, as the code has it.  When the compilation has no errors, the
    analysis appends one warning for each unused file that was not unused
    at the previous analysis, and none else; the unused files are the
    non-declaration program files that no bundled module depends on; no
    error is recorded; and a file warned now is not warned again by the
    next analysis. *)
Theorem unused_files_warned_once builder allProgramFiles modules previousUnused
    compilation :
  ResourceLoader.errors compilation = [] →
  let unused := compute_unused builder allProgramFiles modules in
  let warned :=
    filter (λ file, previously_unused previousUnused file = false) unused in
  let result :=
    analyzeUnusedFiles builder allProgramFiles modules previousUnused compilation in
  ResourceLoader.warnings result.1
  = ResourceLoader.warnings compilation ++ (unused_message <$> warned)
  ∧ ResourceLoader.errors result.1 = []
  ∧ result.2 = Some unused
  ∧ NoDup warned
  ∧ (∀ file,
       file ∈ warned
       ↔ ((∃ sourceFile, sourceFile ∈ allProgramFiles
                         ∧ isDeclarationFile sourceFile = false
                         ∧ fileName sourceFile = file)
          ∧ ∀ module, module ∈ modules → ¬ module_depends_on builder module file)
         ∧ previously_unused previousUnused file = false)
  ∧ (∀ file (builder' : BuilderProgram CustomTransformers) allProgramFiles'
       modules' compilation',
       file ∈ warned →
       ∃ warned',
         ResourceLoader.warnings
           (analyzeUnusedFiles builder' allProgramFiles' modules' result.2
                               compilation').1
         = ResourceLoader.warnings compilation' ++ (unused_message <$> warned')
         ∧ file ∉ warned').
Proof.
  intros Herrors unused warned result.
  destruct (compute_unused_spec builder allProgramFiles modules) as [Hnodup Hunused].
  assert (result
          = (ResourceLoader.set_diagnostics
               (ResourceLoader.warnings compilation ++ (unused_message <$> warned))
               (ResourceLoader.errors compilation) compilation,
             Some unused)) as ->.
  { unfold result, analyzeUnusedFiles. rewrite Herrors, foldl_warn_unused.
    by rewrite Herrors. }
  simpl. split; [done|]. split; [done|]. split; [done|].
  split; [by apply NoDup_filter|]. split.
  - intros file. unfold warned, unused. rewrite list_elem_of_filter, Hunused. tauto.
  - intros file builder' files' modules' compilation' [_ Hin]%list_elem_of_filter.
    destruct (analyzeUnusedFiles_warnings builder' files' modules' (Some unused)
                compilation') as (warned' & Hwarnings & Hfresh).
    exists warned'. split; [done|]. intros Hagain%Hfresh. simpl in Hagain.
    unfold Set_has in Hagain. by apply bool_decide_eq_false in Hagain.
Qed.

End UnusedFilesTheory.

(** *** AngularWebpackPlugin: the file emitter *)
Section FileEmitterTheory.
Import Js Plugin.
Context {CustomTransformers S : Type}.
Variable externalizePath : string → string.

(** C7.  A call of the file emitter for [file] emits nothing and returns
    [undefined] when the program has no source file for [file]; otherwise
    it calls [program.emit] once, with the source file of [file] as its
    target, and returns the result of that emit. *)
Theorem fileEmitter_emits_requested_file
    (program : BuilderProgram CustomTransformers) (transformers : CustomTransformers)
    (getExtraDependencies : SourceFile → list string)
    (onAfterEmit : option (SourceFile → S → S))
    (file : string) (st : list (option SourceFile) * S) :
  let result :=
    createFileEmitter externalizePath program transformers
                      getExtraDependencies onAfterEmit file st in
  match getSourceFile program file with
  | None => result = (st, Resolved None)
  | Some sourceFile =>
      result.1.1 = st.1 ++ [Some sourceFile]
      ∧ ∃ emitted,
          result.2 = Resolved (Some emitted)
          ∧ (content emitted, map emitted)
            = foldl writeFile (None, None)
                    (emit program (Some sourceFile) transformers)
  end.
Proof.
  unfold createFileEmitter.
  destruct (getSourceFile program file) as [sourceFile|]; simpl; [|done].
  destruct (foldl writeFile _ _) as [content map]. simpl. eauto.
Qed.

End FileEmitterTheory.

(** *** AngularWebpackPlugin: state kept between compilations *)
Section WatchModeTheory.
Import Plugin.
Context {NgtscProgram CustomTransformers : Type}.
Variable invalidate :
  gmap string SourceFile → gmap string Z → option Z
  → gmap string SourceFile * gset string.
Implicit Types (p : AngularWebpackPlugin NgtscProgram CustomTransformers).
Implicit Types (env : Environment NgtscProgram CustomTransformers).

Local Abbreviation setup_cache := (setup_cache invalidate).
Local Abbreviation thisCompilation := (thisCompilation invalidate).
Local Abbreviation compilations := (compilations invalidate).

(** Both ways of updating the program create the Angular program from the
    stored one and the builder from the stored builder, and store the new
    ones in watch mode only. *)
Lemma update_program_spec env host p :
  let angularProgram := newNgtscProgram env host (ngtscNextProgram p) in
  let builder_ :=
    createBuilderProgram env host
      (if skipTemplateCodegen env then None else Some angularProgram) (builder p) in
  update_program env host p
  = (if in_watchMode p
     then set_programs (Some builder_) (Some angularProgram) p else p,
     builder_).
Proof.
  unfold update_program, updateJitProgram, updateAotProgram.
  destruct (skipTemplateCodegen env), (in_watchMode p) eqn:Hwatch; simpl;
    rewrite ?Hwatch; try done.
  assert (in_watchMode
            (set_programs
               (Some (createBuilderProgram env host None (builder p)))
               (ngtscNextProgram p) p) = true) as -> by done.
  done.
Qed.

(** The [thisCompilation] tap in one piece. *)
Lemma thisCompilation_spec env compilation p l :
  let watch := default true (compiler_watchMode env) in
  let cache_ := (setup_cache env p watch).1.1.1 in
  let changed := (setup_cache env p watch).1.1.2 in
  let angularProgram := newNgtscProgram env cache_ (ngtscNextProgram p) in
  let builder_ :=
    createBuilderProgram env cache_
      (if skipTemplateCodegen env then None else Some angularProgram) (builder p) in
  thisCompilation env compilation (p, l)
  = (({| watchMode := Some watch;
         ngtscNextProgram :=
           if watch then Some angularProgram else ngtscNextProgram p;
         builder := if watch then Some builder_ else builder p;
         sourceFileCache := cachedByHost env <$> (setup_cache env p watch).2;
         buildTimestamp := Some (now env) |},
      ResourceLoader.update l compilation (elements <$> changed)),
     {| cache := cache_; constructed := (setup_cache env p watch).1.2;
        changedFiles := changed; program := builder_ |}).
Proof.
  unfold thisCompilation.
  destruct (setup_cache env p (default true (compiler_watchMode env)))
    as [[[cache_ changed] fresh] stored].
  rewrite update_program_spec. cbn [fst snd].
  by destruct (default true (compiler_watchMode env)).
Qed.

Lemma setup_cache_stored env p watch stored :
  sourceFileCache p = Some stored →
  setup_cache env p watch
  = ((invalidate stored (fileTimestamps env) (buildTimestamp p)).1,
     Some (invalidate stored (fileTimestamps env) (buildTimestamp p)).2,
     false,
     Some (invalidate stored (fileTimestamps env) (buildTimestamp p)).1).
Proof.
  intros Hstored. unfold Plugin.setup_cache. rewrite Hstored.
  by destruct (invalidate _ _ _).
Qed.

Lemma setup_cache_fresh env p watch :
  sourceFileCache p = None →
  setup_cache env p watch
  = (∅, None, true, if watch then Some ∅ else None).
Proof. intros Hnone. unfold Plugin.setup_cache. by rewrite Hnone. Qed.

Lemma compilations_cons env compilation
    (envs : list (Environment NgtscProgram CustomTransformers
                  * ResourceLoader.Compilation)) st :
  compilations ((env, compilation) :: envs) st
  = let '(st, setup) := thisCompilation env compilation st in
    let '(st, setups) := compilations envs st in
    (st, setup :: setups).
Proof. reflexivity. Qed.

(** C8, as the code has it.  The plugin writes its incremental state in
    watch mode only, and reads it in every compilation.  Every compilation
    creates its Angular program from the stored one and its builder from
    the stored builder, and uses the stored source file cache, invalidated,
    where one is stored; only where none is stored does it construct one.
    A compilation in watch mode ends with the builder it created, the
    Angular program it created and the cache it used stored in the three
    fields.  A compilation with [watchMode] false stores nothing: the
    builder and the Angular program stay what they were, and no cache is
    stored where none was.  Hence a plugin only ever used with [watchMode]
    false constructs a new cache in every compilation and keeps the three
    fields unset. *)
Theorem state_kept_only_in_watch_mode :
  (∀ env compilation p l,
     let result := thisCompilation env compilation (p, l) in
     let angularProgram :=
       newNgtscProgram env (cache result.2) (ngtscNextProgram p) in
     program result.2
     = createBuilderProgram env (cache result.2)
         (if skipTemplateCodegen env then None else Some angularProgram)
         (builder p)
     ∧ match sourceFileCache p with
       | Some stored =>
           constructed result.2 = false
           ∧ cache result.2
             = (invalidate stored (fileTimestamps env) (buildTimestamp p)).1
           ∧ changedFiles result.2
             = Some (invalidate stored (fileTimestamps env) (buildTimestamp p)).2
       | None =>
           constructed result.2 = true
           ∧ cache result.2 = ∅
           ∧ changedFiles result.2 = None
       end
     ∧ (compiler_watchMode env ≠ Some false →
        builder result.1.1 = Some (program result.2)
        ∧ ngtscNextProgram result.1.1 = Some angularProgram
        ∧ sourceFileCache result.1.1 = Some (cachedByHost env (cache result.2)))
     ∧ (compiler_watchMode env = Some false →
        builder result.1.1 = builder p
        ∧ ngtscNextProgram result.1.1 = ngtscNextProgram p
        ∧ sourceFileCache result.1.1
          = match sourceFileCache p with
            | Some _ => Some (cachedByHost env (cache result.2))
            | None => None
            end))
  ∧ (∀ (envs : list (Environment NgtscProgram CustomTransformers
                     * ResourceLoader.Compilation)) l,
       Forall (λ run, compiler_watchMode run.1 = Some false) envs →
       let result := compilations envs (Plugin.new NgtscProgram CustomTransformers, l) in
       sourceFileCache result.1.1 = None
       ∧ builder result.1.1 = None
       ∧ ngtscNextProgram result.1.1 = None
       ∧ Forall (λ setup, constructed setup = true ∧ cache setup = ∅) result.2).
Proof.
  assert (∀ env compilation p l,
            let result := thisCompilation env compilation (p, l) in
            compiler_watchMode env = Some false →
            builder result.1.1 = builder p
            ∧ ngtscNextProgram result.1.1 = ngtscNextProgram p
            ∧ sourceFileCache result.1.1
              = match sourceFileCache p with
                | Some _ => Some (cachedByHost env (cache result.2))
                | None => None
                end
            ∧ (sourceFileCache p = None →
               constructed result.2 = true ∧ cache result.2 = ∅)) as Hsingle.
  { intros env compilation p l result Hwatch. unfold result.
    rewrite thisCompilation_spec, Hwatch. simpl.
    destruct (sourceFileCache p) as [stored|] eqn:Hstored.
    - by rewrite (setup_cache_stored _ _ _ stored).
    - by rewrite setup_cache_fresh. }
  split.
  - intros env compilation p l result angularProgram.
    unfold angularProgram, result. rewrite thisCompilation_spec. cbn [fst snd].
    split; [done|]. split; [|split].
    + destruct (sourceFileCache p) as [stored|] eqn:Hstored.
      * by rewrite (setup_cache_stored _ _ _ stored).
      * by rewrite setup_cache_fresh.
    + intros Hwatch.
      assert (default true (compiler_watchMode env) = true) as ->.
      { by destruct (compiler_watchMode env) as [[]|]. }
      simpl. split; [done|]. split; [done|].
      destruct (sourceFileCache p) as [stored|] eqn:Hstored.
      * by rewrite (setup_cache_stored _ _ _ stored).
      * by rewrite setup_cache_fresh.
    + intros Hwatch.
      destruct (Hsingle env compilation p l Hwatch) as (Hb & Hn & Hc & _).
      rewrite thisCompilation_spec in Hb, Hn, Hc. done.
  - intros envs l Hall.
    cut (∀ p l,
           sourceFileCache p = None → builder p = None → ngtscNextProgram p = None →
           let result := compilations envs (p, l) in
           sourceFileCache result.1.1 = None
           ∧ builder result.1.1 = None
           ∧ ngtscNextProgram result.1.1 = None
           ∧ Forall (λ setup, constructed setup = true ∧ cache setup = ∅) result.2).
    { intros Hgen. by apply Hgen. }
    induction Hall as [|[env compilation] envs Hwatch _ IH]; intros p l' Hc Hb Hn.
    + simpl. by repeat split.
    + simpl in Hwatch.
      destruct (Hsingle env compilation p l' Hwatch) as (Hb' & Hn' & Hc' & Hfresh).
      destruct (Hfresh Hc) as (Hconstructed & Hcache).
      rewrite Hc in Hc'.
      rewrite compilations_cons.
      destruct (thisCompilation env compilation (p, l')) as [[p1 l1] setup].
      simpl in *.
      specialize (IH p1 l1 Hc' ltac:(congruence) ltac:(congruence)).
      destruct (compilations envs (p1, l1)) as [[p2 l2] setups]. simpl in *.
      destruct IH as (? & ? & ? & ?). repeat split; try done.
      by constructor.
Qed.

End WatchModeTheory.

(** *** SourceFileCache in a compilation *)
Section CacheUseTheory.
Import Plugin.
Context {NgtscProgram CustomTransformers : Type}.
Implicit Types (p : AngularWebpackPlugin NgtscProgram CustomTransformers).
Implicit Types (env : Environment NgtscProgram CustomTransformers).


End CacheUseTheory.

(** *** The properties on the small build *)
Section ConcreteRuns.
Import Js ResourceLoader Scenario.

Example first_compile_resolves :
  first_compile.2 = Resolved {| outputName := "/app/a.css"; source := "one" |}.
Proof. vm_compute. reflexivity. Qed.

Example first_compile_evaluates_once :
  evaluations first_compile.1 = [{| outputName := "/app/a.css"; source := "one" |}]
  ∧ childCompilers first_compile.1 = ["/app/a.css"].
Proof. vm_compute. done. Qed.

(** The maps of the loader agree with the child compilation after the
    first compilation of [/app/a.css]. *)
Lemma compile_dependency_maps_in_sync_witness :
  ∃ l1 childCompilation,
    compile_child runInNewContext (webpack "h1" "one") loader "/app/a.css"
    = (l1, CompileDone childCompilation)
    ∧ getResourceDependencies first_compile.1 "/app/a.css"
      = list_to_set (fileDependencies childCompilation)
    ∧ ∀ file, file ∈ fileDependencies childCompilation →
              "/app/a.css" ∈ getAffectedResources first_compile.1 (normalizePath file).
Proof.
  apply (compile_dependency_maps_in_sync normalizePath runInNewContext
           (webpack "h1" "one") loader "/app/a.css" first_compile.1
           {| outputName := "/app/a.css"; source := "one" |}).
  vm_compute. reflexivity.
Defined.

(** The assets of the parent after the first compilation of [/app/a.css]. *)
Lemma compile_parent_assets_frame_witness :
  ∃ parent',
    _parentCompilation first_compile.1 = Some parent'
    ∧ (∀ name asset, assets parent !! name = Some asset →
                     assets parent' !! name = Some asset)
    ∧ assets parent' !! "/app/a.css" = assets parent !! "/app/a.css"
    ∧ assets parent' !! ("/app/a.css" +:+ ".map")
      = assets parent !! ("/app/a.css" +:+ ".map").
Proof.
  apply (compile_parent_assets_frame normalizePath runInNewContext
           (webpack "h1" "one") loader "/app/a.css" parent
           first_compile.1 first_compile.2).
  - reflexivity.
  - vm_compute. reflexivity.
Defined.

Example font_is_propagated :
  ∃ parent',
    _parentCompilation first_compile.1 = Some parent'
    ∧ assets parent' !! "font.woff" = Some (GeneratedSource "font")
    ∧ assets parent' !! "/app/a.css" = None.
Proof. eexists. split; [vm_compute; reflexivity|]. by vm_compute. Qed.


Example get_failing_style_sheet :
  (get normalizePath runInNewContext failing_webpack loader "/app/a.css").2
  = Rejected (ThrownError "Module not found").
Proof. vm_compute. reflexivity. Qed.

Example get_style_sheet_with_errors :
  (get normalizePath runInNewContext webpack_with_errors loader "/app/a.css").2
  = Resolved "partial".
Proof. vm_compute. reflexivity. Qed.


(** The second compilation of [/app/a.css], after another [update], with a
    child compilation of the same hash but another bundle. *)
Lemma compile_reuses_cached_artifact_witness :
  let l2 := update first_compile.1 parent (Some ["/app/b.css"]) in
  ∃ evaluated l3,
    _cachedEvaluatedSources l2 !! "h1" = Some evaluated
    ∧ compile_child runInNewContext (webpack "h1" "two") l2 "/app/a.css"
      = (log_childCompiler "/app/a.css" l2,
         CompileDone (set_assets (<["/app/a.css" := evaluated]>
                                    (assets (sealed "h1" "two")))
                                 (sealed "h1" "two")))
    ∧ _compile normalizePath runInNewContext (webpack "h1" "two") l2 "/app/a.css"
      = (l3, Resolved {| outputName := "/app/a.css"; source := "one" |})
    ∧ evaluations l3 = evaluations l2.
Proof.
  intros l2.
  apply (compile_reuses_cached_artifact normalizePath runInNewContext
           (webpack "h1" "one") (webpack "h1" "two") loader "/app/a.css"
           (compile_child runInNewContext (webpack "h1" "one") loader "/app/a.css").1
           (set_assets (<["/app/a.css" := RawSource "one"]> (assets (sealed "h1" "one")))
                       (sealed "h1" "one"))
           first_compile.1 {| outputName := "/app/a.css"; source := "one" |}
           l2 (sealed "h1" "two")).
  - apply rtc_once. apply step_update.
  - vm_compute. reflexivity.
  - vm_compute. reflexivity.
  - apply rtc_once. apply step_update.
  - reflexivity.
  - reflexivity.
Defined.

(** C1 as the specification words it, with the hash of the parent
    compilation as key, fails: the parent compilation keeps its hash while
    the child compilation of the resource gets another one, and the second
    compilation evaluates the new bundle and returns another source. *)
Lemma cache_not_keyed_by_parent_hash :
  ¬ (∀ (webpack1 webpack2 : ChildCompiler) (l l1 : WebpackResourceLoader)
       (parent0 : Compilation) (filePath : string) (output : CompilationOutput),
       rtc (step normalizePath runInNewContext) ResourceLoader.new l →
       _parentCompilation l = Some parent0 →
       _compile normalizePath runInNewContext webpack1 l filePath
       = (l1, Resolved output) →
       (∀ parent1, _parentCompilation l1 = Some parent1 →
                   fullHash parent1 = fullHash parent0) →
       ∃ l2,
         _compile normalizePath runInNewContext webpack2 l1 filePath
         = (l2, Resolved output)
         ∧ evaluations l2 = evaluations l1).
Proof.
  intros Hclaim.
  destruct (Hclaim (webpack "h1" "one") (webpack "h2" "two") loader first_compile.1
              parent "/app/a.css" {| outputName := "/app/a.css"; source := "one" |})
    as (l2 & Hcompile & _).
  - apply rtc_once. apply step_update.
  - reflexivity.
  - vm_compute. reflexivity.
  - intros parent1 Hparent1. vm_compute in Hparent1. by injection Hparent1 as <-.
  - vm_compute in Hcompile. discriminate.
Qed.

(** The analysis of the small program: [unused.ts] is warned once, then
    no more. *)
Lemma unused_files_warned_once_witness :
  let result :=
    Plugin.analyzeUnusedFiles builder (Plugin.getSourceFiles builder) modules
                              None parent in
  warnings result.1 = [Plugin.unused_message "/app/unused.ts"]
  ∧ errors result.1 = []
  ∧ result.2 = Some ["/app/unused.ts"]
  ∧ warnings (Plugin.analyzeUnusedFiles builder (Plugin.getSourceFiles builder)
                                        modules result.2 parent).1 = [].
Proof.
  pose proof (unused_files_warned_once builder (Plugin.getSourceFiles builder)
                modules None parent eq_refl)
    as (Hwarnings & Herrors & Hprevious & _).
  split; [|split; [|split]].
  - rewrite Hwarnings. vm_compute. reflexivity.
  - exact Herrors.
  - rewrite Hprevious. vm_compute. reflexivity.
  - vm_compute. reflexivity.
Defined.

(** C6 as the specification words it, for every rebuild cycle, fails on a
    cycle whose compilation has errors: [unused.ts] is unused and was not
    warned before, and no warning is recorded for it. *)
Lemma unused_file_not_warned_with_errors :
  ¬ (∀ (builder : Plugin.BuilderProgram unit) allProgramFiles modules
       previousUnused compilation file,
       file ∈ Plugin.compute_unused builder allProgramFiles modules →
       Plugin.previously_unused previousUnused file = false →
       Plugin.unused_message file
       ∈ warnings (Plugin.analyzeUnusedFiles builder allProgramFiles modules
                                             previousUnused compilation).1).
Proof.
  intros Hclaim.
  specialize (Hclaim builder (Plugin.getSourceFiles builder) modules None failed
                "/app/unused.ts").
  assert (Plugin.compute_unused builder (Plugin.getSourceFiles builder) modules
          = ["/app/unused.ts"]) as Hunused by (vm_compute; reflexivity).
  rewrite Hunused in Hclaim.
  specialize (Hclaim ltac:(by apply list_elem_of_singleton) eq_refl).
  rewrite analyzeUnusedFiles_errors in Hclaim by done.
  simpl in Hclaim. by apply elem_of_nil in Hclaim.
Qed.

Example loader_with_reverse_map :
  _reverseDependencies loader_with_reverse = reverse.
Proof. vm_compute. done. Qed.

Example invalidate_evicts_touched_file :
  let result :=
    SourceFileCache.invalidate Plugin.SourceFile cached timestamps (Some 10%Z) in
  result.2 = {[ "/app/a.scss" ]}
  ∧ result.1
    = {[ "/app/b.scss" := main_ts; "/app/c.ts" := main_ts;
         "/app/d.ts" := unused_ts ]}.
Proof. vm_compute. done. Qed.


Example rebuild_changed_and_modified_files :
  let result :=
    Plugin.thisCompilation (SourceFileCache.invalidate Plugin.SourceFile)
                           watch_run parent (watching, loader_with_reverse) in
  Plugin.changedFiles result.2 = Some {[ "/app/a.scss" ]}
  ∧ getModifiedResourceFiles result.1.2 = {[ "/app/b.scss" ]}.
Proof. vm_compute. done. Qed.


(** C8 as the specification words it fails: a compilation with
    [watchMode] false that follows one in watch mode finds the stored cache
    and constructs none, and the three fields stay set. *)
Lemma stored_state_outlives_watch_mode :
  ¬ (∀ invalidate (env : Plugin.Environment unit unit) compilation
       (p : Plugin.AngularWebpackPlugin unit unit) l,
       Plugin.compiler_watchMode env = Some false →
       let result := Plugin.thisCompilation invalidate env compilation (p, l) in
       Plugin.constructed result.2 = true
       ∧ Plugin.sourceFileCache result.1.1 = None
       ∧ Plugin.builder result.1.1 = None
       ∧ Plugin.ngtscNextProgram result.1.1 = None).
Proof.
  intros Hclaim.
  destruct (Hclaim (SourceFileCache.invalidate Plugin.SourceFile) single_run parent
              (Plugin.thisCompilation (SourceFileCache.invalidate Plugin.SourceFile)
                                      watch_run parent
                                      (Plugin.new unit unit, ResourceLoader.new)).1.1
              loader eq_refl) as [Hconstructed _].
  vm_compute in Hconstructed. discriminate.
Qed.

Example watch_run_stores_state :
  let result :=
    Plugin.thisCompilation (SourceFileCache.invalidate Plugin.SourceFile)
                           watch_run parent
                           (Plugin.new unit unit, ResourceLoader.new) in
  Plugin.sourceFileCache result.1.1 = Some ∅
  ∧ Plugin.builder result.1.1 = Some builder
  ∧ Plugin.ngtscNextProgram result.1.1 = Some tt
  ∧ Plugin.buildTimestamp result.1.1 = Some 2000%Z.
Proof. vm_compute. done. Qed.

Example hash_format_of_bundles :
  Helpers.getOutputHashFormat "bundles" None
  = Own {| Helpers.chunk := ".[chunkhash:20]"; Helpers.extract := ".[contenthash:20]";
           Helpers.file := EmptyString; Helpers.script := ".[hash:20]" |}.
Proof. reflexivity. Qed.

Example emitter_emits_main_only :
  Plugin.createFileEmitter normalizePath builder tt (λ _, []) None
                           "/app/main.ts" ([], tt)
  = (([Some main_ts], tt),
     Resolved (Some {| Plugin.content := Some "code";
                       Plugin.map := Some "mappings";
                       Plugin.dependencies := ["/app/main.ts"; "/app/lib.d.ts"] |})).
Proof. vm_compute. reflexivity. Qed.

Example emitter_unknown_file :
  Plugin.createFileEmitter normalizePath builder tt (λ _, []) None
                           "/app/other.ts" ([], tt)
  = (([], tt), Resolved None).
Proof. vm_compute. reflexivity. Qed.

Example single_run_keeps_nothing :
  let result :=
    Plugin.thisCompilation (SourceFileCache.invalidate Plugin.SourceFile)
                           single_run parent
                           (Plugin.new unit unit, ResourceLoader.new) in
  Plugin.sourceFileCache result.1.1 = None
  ∧ Plugin.builder result.1.1 = None
  ∧ Plugin.ngtscNextProgram result.1.1 = None
  ∧ Plugin.constructed result.2 = true.
Proof. vm_compute. done. Qed.

End ConcreteRuns.

(** *** Strings *)
Section StringTheory.
Import Js.

Lemma string_length_append (s t : string) :
  String.length (s +:+ t) = String.length s + String.length t.
Proof. induction s as [|c s IH]; simpl; [done|]. by rewrite IH. Qed.

Lemma substring_whole (t : string) : String.substring 0 (String.length t) t = t.
Proof. induction t as [|c t IH]; simpl; [done|]. by rewrite IH. Qed.

Lemma substring_append (s t : string) :
  String.substring (String.length s) (String.length t) (s +:+ t) = t.
Proof. induction s as [|c s IH]; simpl; [apply substring_whole|done]. Qed.

Lemma endsWith_append (s t : string) : endsWith (s +:+ t) t = true.
Proof.
  unfold endsWith. rewrite string_length_append.
  rewrite decide_True by lia.
  replace (String.length s + String.length t - String.length t)
    with (String.length s) by lia.
  rewrite substring_append. by apply bool_decide_eq_true.
Qed.

Lemma prefix_String (a b : ascii) (s t : string) :
  String.prefix (String a s) (String b t)
  = if Ascii.ascii_dec a b then String.prefix s t else false.
Proof. reflexivity. Qed.

Lemma prefix_empty (s : string) : String.prefix EmptyString s = true.
Proof. by destruct s. Qed.

Lemma append_String (a : ascii) (s t : string) :
  String a s +:+ t = String a (s +:+ t).
Proof. reflexivity. Qed.

Lemma substring_split (s : string) (n : nat) :
  n ≤ String.length s →
  s = String.substring 0 n s +:+ String.substring n (String.length s - n) s.
Proof.
  revert n. induction s as [|c s IH]; intros [|n] Hn.
  - reflexivity.
  - simpl in Hn. lia.
  - rewrite Nat.sub_0_r, substring_whole. reflexivity.
  - simpl in Hn. cbn [String.length String.substring Nat.sub].
    rewrite append_String. f_equal. apply IH. lia.
Qed.

Lemma endsWith_inv (s suffix : string) :
  endsWith s suffix = true → ∃ front, s = front +:+ suffix.
Proof.
  unfold endsWith. case_decide as Hle; [|done].
  intros Heq%bool_decide_eq_true.
  exists (String.substring 0 (String.length s - String.length suffix) s).
  rewrite <-Heq at 2.
  rewrite (substring_split s (String.length s - String.length suffix)) at 1 by lia.
  do 2 f_equal. lia.
Qed.

Lemma js_is_no_map (a b : string) : a +:+ ".js" ≠ b +:+ ".map".
Proof.
  revert b. induction a as [|c a IH]; intros b Heq.
  - apply (f_equal String.length) in Heq.
    rewrite !string_length_append in Heq. simpl in Heq. lia.
  - destruct b as [|d b].
    + pose proof (f_equal String.length Heq) as Hlen.
      simpl in Hlen. rewrite !string_length_append in Hlen. simpl in Hlen.
      destruct a as [|? ?]; [|simpl in Hlen; lia].
      discriminate Heq.
    + injection Heq as _ Heq. by eapply IH.
Qed.

Lemma endsWith_js_not_map (filename : string) :
  endsWith filename ".js" = true → endsWith filename ".map" = false.
Proof.
  intros [a Ha]%endsWith_inv.
  destruct (endsWith filename ".map") eqn:Hmap; [|done].
  apply endsWith_inv in Hmap as [b Hb]. subst.
  by apply js_is_no_map in Hb.
Qed.

Lemma substring_after (a b : string) (n k : nat) :
  String.substring (String.length a + n) k (a +:+ b) = String.substring n k b.
Proof. induction a as [|c a IH]; [done|]. simpl. apply IH. Qed.

Lemma substring_before (a b : string) :
  String.substring 0 (String.length a) (a +:+ b) = a.
Proof.
  induction a as [|c a IH]; simpl; [by destruct b|]. by rewrite IH.
Qed.

(** Whether a string ends with a suffix is decided by any tail of the
    string that is no shorter than the suffix. *)
Lemma endsWith_tail (a b suffix : string) :
  String.length suffix ≤ String.length b →
  endsWith (a +:+ b) suffix = endsWith b suffix.
Proof.
  intros Hle. unfold endsWith. rewrite string_length_append.
  rewrite !decide_True by lia.
  replace (String.length a + String.length b - String.length suffix)
    with (String.length a + (String.length b - String.length suffix)) by lia.
  by rewrite substring_after.
Qed.

End StringTheory.

(** *** WebpackResourceLoader: further properties *)
Section LoaderUseTheory.
Import Js ResourceLoader LoaderUse.
Variable normalizePath : string → string.
Variable runInNewContext : string → string → VmResult.

Local Abbreviation additionalAssets := (additionalAssets runInNewContext).
Local Abbreviation compile_child := (compile_child runInNewContext).
Local Abbreviation _compile := (_compile normalizePath runInNewContext).
Local Abbreviation get := (get normalizePath runInNewContext).
Local Abbreviation add_reverse_dependency := (add_reverse_dependency normalizePath).
Local Abbreviation with_dependencies := (with_dependencies normalizePath).
Local Abbreviation load_step := (load_step normalizePath runInNewContext).
Local Abbreviation dependencies_in_sync := (dependencies_in_sync normalizePath).

Lemma add_reverse_dependency_grows filePath rev file key resource :
  resource ∈ default ∅ (rev !! key) →
  resource ∈ default ∅ (add_reverse_dependency filePath rev file !! key).
Proof.
  unfold ResourceLoader.add_reverse_dependency. intros Hin.
  destruct (rev !! normalizePath file) as [entry|] eqn:Hentry;
    (destruct (decide (normalizePath file = key)) as [<-|Hne];
     [rewrite lookup_insert_eq; rewrite ?Hentry in Hin; simpl in *; set_solver
     |by rewrite lookup_insert_ne]).
Qed.

Lemma reverse_dependencies_grow filePath files rev key resource :
  resource ∈ default ∅ (rev !! key) →
  resource ∈ default ∅ (foldl (add_reverse_dependency filePath) rev files !! key).
Proof.
  revert rev. induction files as [|file files IH]; intros rev Hin; [done|].
  simpl. by apply IH, add_reverse_dependency_grows.
Qed.

(** The state of the two dependency maps after [_compile]. *)
Lemma compile_dependency_maps webpack l filePath l' result :
  _compile webpack l filePath = (l', result) →
  (_fileDependencies l' = _fileDependencies l
   ∧ _reverseDependencies l' = _reverseDependencies l)
  ∨ ∃ l1 childCompilation,
      compile_child webpack l filePath = (l1, CompileDone childCompilation)
      ∧ _fileDependencies l'
        = <[filePath := list_to_set (fileDependencies childCompilation)]>
            (_fileDependencies l)
      ∧ _reverseDependencies l'
        = foldl (add_reverse_dependency filePath) (_reverseDependencies l)
                (fileDependencies childCompilation).
Proof.
  intros Hcompile.
  apply compile_cases in Hcompile
    as [->|(parent & l1 & outcome & Hparent & Hchild & Hl')]; [by left|].
  pose proof (compile_child_frame _ _ _ _ _ _ Hchild)
    as (_ & _ & Hfwd & Hrev & _).
  destruct Hl' as [->|(child & -> & Hl')]; [by left|].
  right. exists l1, child. split; [done|]. rewrite <-Hfwd, <-Hrev.
  by destruct Hl' as [->|(asset & _ & _ & ->)].
Qed.

Lemma load_step_reverse_grows l l' file resource :
  load_step l l' →
  resource ∈ getAffectedResources l file →
  resource ∈ getAffectedResources l' file.
Proof.
  unfold getAffectedResources.
  destruct 1 as [l parent changed|webpack l filePath l' result Hget]; [done|].
  unfold ResourceLoader.get in Hget.
  destruct (_compile webpack l filePath) as [l1 r] eqn:Hcompile. simplify_eq.
  apply compile_dependency_maps in Hcompile
    as [[_ ->]|(l0 & child & _ & _ & ->)]; [done|].
  apply reverse_dependencies_grow.
Qed.

Lemma load_step_in_sync l l' :
  load_step l l' → dependencies_in_sync l → dependencies_in_sync l'.
Proof.
  destruct 1 as [l parent changed|webpack l filePath l' result Hget]; [done|].
  unfold ResourceLoader.get in Hget.
  destruct (_compile webpack l filePath) as [l1 r] eqn:Hcompile. simplify_eq.
  apply compile_dependency_maps in Hcompile
    as [[Hfwd Hrev]|(l0 & child & _ & Hfwd & Hrev)];
    intros Hsync resource file;
    unfold getResourceDependencies, getAffectedResources; rewrite Hfwd, Hrev.
  { apply Hsync. }
  destruct (decide (filePath = resource)) as [<-|Hne].
  - rewrite lookup_insert_eq. simpl. rewrite elem_of_list_to_set.
    apply (reverse_dependencies_add normalizePath runInNewContext).
  - rewrite lookup_insert_ne by done. intros Hin.
    apply reverse_dependencies_grow. by apply Hsync.
Qed.

(** X1.  Through any number of [update] and [get] calls the reverse map only
    grows: a resource once recorded as affected by a file stays so, also
    when a later compilation of the resource no longer depends on the
    file. *)
Theorem reverse_dependencies_never_shrink l l' file resource :
  rtc load_step l l' →
  resource ∈ getAffectedResources l file →
  resource ∈ getAffectedResources l' file.
Proof.
  induction 1 as [l|l l1 l2 Hstep _ IH]; [done|].
  intros Hin. by eapply IH, load_step_reverse_grows.
Qed.

(** X2.  On a loader driven by [update] and [get] only, the maps are in sync
    for every resource at once: each file in
    [getResourceDependencies(resource)] has [resource] among its affected
    resources.  Hence a resource is among the modified resource files
    whenever one of its recorded dependencies, normalized, is in the list
    of changed files. *)
Theorem dependency_maps_stay_in_sync l :
  rtc load_step ResourceLoader.new l →
  dependencies_in_sync l
  ∧ ∀ changed resource file,
      changedFiles l = Some changed →
      file ∈ getResourceDependencies l resource →
      normalizePath file ∈ changed →
      resource ∈ getModifiedResourceFiles l.
Proof.
  intros Hsteps.
  assert (dependencies_in_sync ResourceLoader.new) as Hnew.
  { intros resource file. unfold getResourceDependencies. simpl.
    rewrite lookup_empty. simpl. set_solver. }
  assert (dependencies_in_sync l) as Hsync.
  { induction Hsteps as [l|l l1 l2 Hstep _ IH]; [done|].
    by eapply IH, load_step_in_sync. }
  split; [done|]. intros changed resource file Hchanged Hdep Hin.
  apply (elem_of_getModifiedResourceFiles _ _ _ Hchanged).
  exists (normalizePath file). split; [done|]. by apply Hsync.
Qed.



Lemma push_all_app target xs : push_all target xs = target ++ xs.
Proof. destruct xs; simpl; [by rewrite app_nil_r|done]. Qed.

Lemma propagate_asset_lookup filePath parentAssets assetName asset name :
  propagate_asset filePath parentAssets (assetName, asset) !! name
  = match parentAssets !! name with
    | Some kept => Some kept
    | None =>
        if decide (assetName = name ∧ propagated_name filePath assetName)
        then Some asset else None
    end.
Proof.
  unfold propagate_asset, propagated_name, Js.get.
  destruct (parentAssets !! assetName) as [present|] eqn:Hpresent.
  { simpl. rewrite andb_false_r.
    destruct (parentAssets !! name) eqn:Hname; [done|].
    rewrite decide_False; [done|]. intros [-> _]. congruence. }
  destruct (decide (assetName ∈ object_prototype_members)) as [Hproto|Hproto]; simpl.
  { rewrite andb_false_r.
    destruct (parentAssets !! name) eqn:Hname; [done|].
    rewrite decide_False; [done|]. naive_solver. }
  rewrite andb_true_r.
  destruct (decide (assetName = filePath)) as [->|Hfile].
  { rewrite bool_decide_eq_false_2 by naive_solver. simpl.
    destruct (parentAssets !! name) eqn:Hname; [done|].
    rewrite decide_False; [done|]. naive_solver. }
  destruct (decide (assetName = filePath +:+ ".map")) as [->|Hmap].
  { rewrite (bool_decide_eq_false_2 (_ ≠ filePath +:+ ".map")) by naive_solver.
    rewrite andb_false_r.
    destruct (parentAssets !! name) eqn:Hname; [done|].
    rewrite decide_False; [done|]. naive_solver. }
  rewrite !bool_decide_eq_true_2 by done. simpl.
  destruct (decide (assetName = name)) as [->|Hne].
  - rewrite lookup_insert_eq, Hpresent. by rewrite decide_True.
  - rewrite lookup_insert_ne by done.
    destruct (parentAssets !! name); [done|]. rewrite decide_False; naive_solver.
Qed.

Lemma foldl_propagate_asset filePath (entries : list (string * Source))
    parentAssets name :
  foldl (propagate_asset filePath) parentAssets entries !! name
  = match parentAssets !! name with
    | Some kept => Some kept
    | None =>
        if decide (propagated_name filePath name)
        then (list_to_map entries : gmap string Source) !! name else None
    end.
Proof.
  revert parentAssets.
  induction entries as [|[assetName asset] entries IH]; intros parentAssets.
  - simpl. rewrite lookup_empty. by repeat case_match.
  - rewrite list_to_map_cons.
    change (foldl (propagate_asset filePath) parentAssets
                  ((assetName, asset) :: entries))
      with (foldl (propagate_asset filePath)
                  (propagate_asset filePath parentAssets (assetName, asset))
                  entries).
    rewrite IH, propagate_asset_lookup.
    destruct (parentAssets !! name) as [kept|]; [done|].
    destruct (decide (assetName = name)) as [->|Hne].
    + rewrite lookup_insert_eq.
      destruct (decide (propagated_name filePath name)).
      * by rewrite decide_True.
      * by rewrite decide_False by naive_solver.
    + rewrite lookup_insert_ne by done. by rewrite decide_False by naive_solver.
Qed.

(** The assets of the parent after the propagation. *)
Lemma propagate_assets_lookup filePath childAssets parentAssets name :
  propagate_assets filePath childAssets parentAssets !! name
  = match parentAssets !! name with
    | Some kept => Some kept
    | None =>
        if decide (propagated_name filePath name) then childAssets !! name
        else None
    end.
Proof.
  unfold propagate_assets. rewrite foldl_propagate_asset.
  by rewrite list_to_map_to_list.
Qed.

(** X4.  Once the child compilation of a resource has completed, the
    parent compilation has the assets it had and, where it had none of that
    name, those assets of the child whose name is neither the resource, nor
    its source map, nor the name of a member of [Object.prototype];
    whatever [_compile] then returns. *)
Theorem child_assets_reach_parent webpack l filePath parent l1
    childCompilation l' result :
  _parentCompilation l = Some parent →
  is_script_file filePath = false →
  compile_child webpack l filePath = (l1, CompileDone childCompilation) →
  _compile webpack l filePath = (l', result) →
  ∃ parent',
    _parentCompilation l' = Some parent'
    ∧ ∀ name,
        assets parent' !! name
        = match assets parent !! name with
          | Some kept => Some kept
          | None =>
              if decide (propagated_name filePath name)
              then assets childCompilation !! name else None
          end.
Proof.
  intros Hparent Hscript Hchild Hcompile.
  unfold ResourceLoader._compile in Hcompile.
  rewrite Hparent, Hscript, Hchild in Hcompile. simpl in Hcompile.
  exists (propagate filePath childCompilation parent). split.
  - repeat case_match; by simplify_eq.
  - intros name. unfold propagate. simpl. apply propagate_assets_lookup.
Qed.

(** X5.  Once the child compilation of a resource has completed, its
    warnings and errors are appended to those of the parent compilation,
    whatever [_compile] then returns (also when it rejects because the
    child compilation has no asset for the resource). *)
Theorem child_diagnostics_reach_parent webpack l filePath parent l1
    childCompilation l' result :
  _parentCompilation l = Some parent →
  is_script_file filePath = false →
  compile_child webpack l filePath = (l1, CompileDone childCompilation) →
  _compile webpack l filePath = (l', result) →
  ∃ parent',
    _parentCompilation l' = Some parent'
    ∧ warnings parent' = warnings parent ++ warnings childCompilation
    ∧ errors parent' = errors parent ++ errors childCompilation.
Proof.
  intros Hparent Hscript Hchild Hcompile.
  unfold ResourceLoader._compile in Hcompile.
  rewrite Hparent, Hscript, Hchild in Hcompile. simpl in Hcompile.
  exists (propagate filePath childCompilation parent). split.
  - repeat case_match; by simplify_eq.
  - unfold propagate. simpl. by rewrite !push_all_app.
Qed.

(** X6.  A first compilation under a hash: with a parent compilation set,
    when nothing is evaluated yet under the hash of the child compilation
    and the sandbox yields a string for the bundle the resource has when
    the hook runs, that bundle is evaluated, once, one child compiler is
    created, and the string is cached as a raw source under the hash.  This
    holds whatever [_compile] then returns: the source it returns is read
    from the child compilation when that is complete. *)
Theorem compile_evaluates_on_cache_miss webpack l filePath parent sealed asset
    output :
  _parentCompilation l = Some parent →
  is_script_file filePath = false →
  webpack (_context l) filePath = ChildSealed sealed →
  _cachedEvaluatedSources l !! fullHash sealed = None →
  Js.get (assets sealed) filePath = Own asset →
  _evaluate runInNewContext
            {| outputName := filePath; source := getSource asset |}
  = Resolved output →
  ∃ l' result,
    _compile webpack l filePath = (l', result)
    ∧ evaluations l'
      = evaluations l ++ [{| outputName := filePath; source := getSource asset |}]
    ∧ childCompilers l' = childCompilers l ++ [filePath]
    ∧ _cachedEvaluatedSources l'
      = <[fullHash sealed := RawSource output]> (_cachedEvaluatedSources l).
Proof.
  intros Hparent Hscript Hsealed Hmiss Hasset Heval.
  unfold ResourceLoader._compile, ResourceLoader.compile_child,
    ResourceLoader.additionalAssets.
  rewrite Hparent, Hscript. simpl. rewrite Hsealed, Hmiss, Hasset, Heval. simpl.
  unfold Js.get. rewrite lookup_insert_eq.
  destruct (_cachedSources l !! fullHash sealed) as [maybeSource|];
    [destruct (decide (maybeSource = EmptyString))|];
    eexists _, _; (split; [reflexivity|]); done.
Qed.

(** X7.  The caches do not take the path of the resource into account: once
    a resource was compiled under a hash, the compilation of any resource
    whose child compilation has that hash resolves with the source of the
    first one, and the bundle of the second is never evaluated. *)
Theorem cache_hit_across_resources
    webpack1 webpack2 l filePath l0 child1 l1 output l2 filePath' sealed2 :
  rtc (step normalizePath runInNewContext) ResourceLoader.new l →
  compile_child webpack1 l filePath = (l0, CompileDone child1) →
  _compile webpack1 l filePath = (l1, Resolved output) →
  rtc (step normalizePath runInNewContext) l1 l2 →
  is_script_file filePath' = false →
  webpack2 (_context l2) filePath' = ChildSealed sealed2 →
  fullHash sealed2 = fullHash child1 →
  ∃ l3,
    _compile webpack2 l2 filePath'
    = (l3, Resolved {| outputName := filePath'; source := source output |})
    ∧ evaluations l3 = evaluations l2.
Proof.
  intros Hreach Hchild1 Hcompile1 Hlater Hscript Hsealed Hhash.
  pose proof (proj1 (steps_caches _ _ _ _ Hreach) new_cache_consistent) as Hinv.
  destruct (compile_resolved_cached _ _ _ _ _ _ _ _ _ Hinv Hchild1 Hcompile1)
    as (evaluated & Hevaluated & Hsource).
  pose proof (compile_caches _ _ _ _ _ _ _ Hcompile1) as (Hinv1 & _ & Hparent1).
  pose proof (compile_resolved_inv _ _ _ _ _ _ _ Hcompile1)
    as (parent & _ & _ & Hparent & _).
  pose proof (steps_caches _ _ _ _ Hlater) as (Hinv2 & Hmono2 & Hparent2).
  apply Hmono2 in Hevaluated. specialize (Hinv2 (Hinv1 Hinv)).
  destruct Hparent2 as [parent2 Hparent2]; [apply Hparent1; by eexists|].
  unfold ResourceLoader._compile, ResourceLoader.compile_child.
  rewrite Hparent2, Hscript. simpl. rewrite Hsealed.
  rewrite (additionalAssets_hit _ _ _ _ evaluated) by (simpl; by rewrite Hhash).
  simpl. unfold Js.get. rewrite lookup_insert_eq, Hhash.
  destruct (_cachedSources l2 !! fullHash child1) as [maybeSource|] eqn:Hcached.
  - apply Hinv2 in Hcached as (evaluated' & Hevaluated' & <-).
    assert (evaluated' = evaluated) as -> by congruence.
    rewrite Hsource.
    destruct (decide (source output = EmptyString)); eexists; done.
  - eexists. by rewrite Hsource.
Qed.

(** X8.  A bundle that leaves no string in [resource]: when nothing is
    cached under the hash of the child compilation and the sandbox runs the
    bundle of the resource without leaving a string in [resource] or in
    [resource.default], [get] rejects with an error that names the
    resource, after one evaluation, and nothing is cached or recorded. *)
Theorem get_rejects_bundle_without_string webpack l filePath parent sealed asset :
  _parentCompilation l = Some parent →
  is_script_file filePath = false →
  webpack (_context l) filePath = ChildSealed sealed →
  _cachedEvaluatedSources l !! fullHash sealed = None →
  Js.get (assets sealed) filePath = Own asset →
  runInNewContext (getSource asset) filePath = VmDone ResourceOther →
  let message :=
    "The loader " +:+ dquote +:+ filePath +:+ dquote +:+ " didn't return a string." in
  ∃ l',
    get webpack l filePath = (l', Rejected (ThrownError message))
    ∧ includes filePath message = true
    ∧ evaluations l'
      = evaluations l ++ [{| outputName := filePath; source := getSource asset |}]
    ∧ _parentCompilation l' = Some parent
    ∧ _cachedEvaluatedSources l' = _cachedEvaluatedSources l
    ∧ _cachedSources l' = _cachedSources l
    ∧ _fileDependencies l' = _fileDependencies l
    ∧ _reverseDependencies l' = _reverseDependencies l.
Proof.
  intros Hparent Hscript Hsealed Hmiss Hasset Hvm message.
  unfold ResourceLoader.get, ResourceLoader._compile, ResourceLoader.compile_child,
    ResourceLoader.additionalAssets, ResourceLoader._evaluate.
  rewrite Hparent, Hscript. simpl. rewrite Hsealed, Hmiss, Hasset. simpl.
  rewrite Hvm. eexists. split; [done|]. simpl. split; [|done].
  unfold message.
  apply (includes_append ("The loader " +:+ dquote) filePath
                         (dquote +:+ " didn't return a string.")).
Qed.

(** X9.  A child compilation without an asset for the resource: when
    nothing is cached under its hash, [_compile] rejects with a type
    error, but only after the dependencies of the child compilation were
    recorded in both maps. *)
Theorem missing_asset_rejects_after_recording webpack l filePath parent sealed :
  rtc (step normalizePath runInNewContext) ResourceLoader.new l →
  _parentCompilation l = Some parent →
  is_script_file filePath = false →
  webpack (_context l) filePath = ChildSealed sealed →
  _cachedEvaluatedSources l !! fullHash sealed = None →
  Js.get (assets sealed) filePath = Undefined →
  ∃ l' reason,
    _compile webpack l filePath = (l', Rejected (ThrownTypeError reason))
    ∧ getResourceDependencies l' filePath = list_to_set (fileDependencies sealed)
    ∧ (∀ file, file ∈ fileDependencies sealed →
               filePath ∈ getAffectedResources l' (normalizePath file))
    ∧ _cachedSources l' = _cachedSources l
    ∧ _cachedEvaluatedSources l' = _cachedEvaluatedSources l
    ∧ evaluations l' = evaluations l.
Proof.
  intros Hreach Hparent Hscript Hsealed Hmiss Hasset.
  pose proof (proj1 (steps_caches _ _ _ _ Hreach) (new_cache_consistent)) as Hinv.
  assert (_cachedSources l !! fullHash sealed = None) as Hsources.
  { destruct (_cachedSources l !! fullHash sealed) as [cached|] eqn:Hcached; [|done].
    apply Hinv in Hcached as (? & ? & _). congruence. }
  unfold ResourceLoader._compile, ResourceLoader.compile_child,
    ResourceLoader.additionalAssets.
  rewrite Hparent, Hscript. simpl. rewrite Hsealed, Hmiss, Hasset. simpl.
  rewrite Hsources, Hasset. eexists _, _. split; [done|].
  unfold getResourceDependencies, getAffectedResources. simpl.
  split; [by rewrite lookup_insert_eq|]. split; [|done].
  intros file Hin.
  by apply (reverse_dependencies_add normalizePath runInNewContext).
Qed.

End LoaderUseTheory.

(** *** Extra entry points and global scripts *)
Section EntryPointsTheory.
Import Js EntryPoints.
Variable basename_normalize : string → string.

Local Abbreviation normalizeExtraEntryPoint :=
  (normalizeExtraEntryPoint basename_normalize).
Local Abbreviation normalizeExtraEntryPoints :=
  (normalizeExtraEntryPoints basename_normalize).

Lemma normalizeExtraEntryPoint_as_entry defaultBundleName entry :
  n_bundleName entry ≠ EmptyString →
  normalizeExtraEntryPoint defaultBundleName (as_entry entry) = entry.
Proof.
  intros Hname. destruct entry as [input name inject]. simpl in *.
  by rewrite decide_False by done.
Qed.

(** X10.  [normalizeExtraEntryPoints] keeps the paths of the entries, in
    their order, and is idempotent: normalized entries whose bundle names
    are not empty come out unchanged when normalized again, with any
    default bundle name. *)
Theorem normalizeExtraEntryPoints_idempotent extraEntryPoints defaultBundleName
    otherDefault :
  let normalized := normalizeExtraEntryPoints extraEntryPoints defaultBundleName in
  n_input <$> normalized = entry_input <$> extraEntryPoints
  ∧ (Forall (λ entry, n_bundleName entry ≠ EmptyString) normalized →
     normalizeExtraEntryPoints (as_entry <$> normalized) otherDefault = normalized).
Proof.
  unfold EntryPoints.normalizeExtraEntryPoints. split.
  - rewrite <-list_fmap_compose. apply list_fmap_ext. by intros _ [path|entry] _.
  - intros Hnames. rewrite <-list_fmap_compose.
    rewrite <-(list_fmap_id (normalizeExtraEntryPoint defaultBundleName
                               <$> extraEntryPoints)) at 2.
    apply Forall_fmap_ext_1. eapply Forall_impl; [exact Hnames|].
    intros entry Hname. simpl. by apply normalizeExtraEntryPoint_as_entry.
Qed.

Lemma lower_append (s t : string) : lower (s +:+ t) = lower s +:+ lower t.
Proof. induction s as [|c s IH]; simpl; [done|]. by rewrite IH. Qed.

Lemma lower_length (s : string) : String.length (lower s) = String.length s.
Proof. induction s as [|c s IH]; simpl; [done|]. by rewrite IH. Qed.

(** The extension the regular expression finds at the end of a file name
    with a known extension, in any case. *)
Lemma find_known_extension (name extension : string) :
  lower extension ∈ known_extensions →
  ∃ index,
    list_find (λ ext, endsWith (lower (name +:+ "." +:+ extension)) ("." +:+ ext) = true)
              known_extensions
    = Some (index, lower extension).
Proof.
  intros Hknown.
  assert (∀ ext, String.length ext ≤ String.length (lower extension) →
            endsWith (lower (name +:+ "." +:+ extension)) ("." +:+ ext)
            = endsWith ("." +:+ lower extension) ("." +:+ ext)) as Htail.
  { intros ext Hle. rewrite !lower_append.
    change (lower ".") with ".". apply endsWith_tail.
    rewrite !string_length_append. simpl. lia. }
  unfold known_extensions in *.
  repeat (apply elem_of_cons in Hknown as [Hext|Hknown]);
    [| | | | | |by apply elem_of_nil in Hknown].
  all: rewrite Hext in *.
  all: [> exists 0 | exists 1 | exists 2 | exists 3 | exists 4 | exists 5].
  all: apply list_find_Some;
    (split; [reflexivity|]); (split; [by rewrite Htail|]);
    intros j y Hy Hj;
    do 6 (destruct j as [|j];
          [first [lia|injection Hy as <-; by rewrite Htail by (simpl; lia)]|]);
    lia.
Qed.

Lemma strip_known_extension_append (name extension : string) :
  lower extension ∈ known_extensions →
  strip_known_extension (name +:+ "." +:+ extension) = name.
Proof.
  intros Hknown. unfold strip_known_extension.
  destruct (find_known_extension name extension Hknown) as [index ->].
  rewrite !string_length_append, lower_length. simpl.
  replace (String.length name + S (String.length extension)
           - String.length extension - 1) with (String.length name) by lia.
  apply substring_before.
Qed.

(** X11.  Lazy entry points use the file name as bundle name: an entry that
    is not injected and has no bundle name of its own (none, or the empty
    one), for a file with one of the known extensions in any case, gets
    the base name of the path without that extension; nothing but this
    last extension is removed. *)
Theorem lazy_entry_named_after_file defaultBundleName name extension entry :
  inject entry = Some false →
  bundleName entry = None ∨ bundleName entry = Some EmptyString →
  lower extension ∈ known_extensions →
  input entry = name +:+ "." +:+ extension →
  normalizeExtraEntryPoint defaultBundleName (EntryObject entry)
  = {| n_input := input entry; n_inject := false;
       n_bundleName := basename_normalize name |}.
Proof.
  intros Hinject Hname Hknown Hinput.
  assert (strip_known_extension (input entry) = name) as Hstrip.
  { rewrite Hinput. by apply strip_known_extension_append. }
  unfold EntryPoints.normalizeExtraEntryPoint.
  rewrite Hinject, Hstrip. simpl. by destruct Hname as [-> | ->].
Qed.

End EntryPointsTheory.

Section GlobalScriptsTheory.
Import Js EntryPoints GlobalScripts.
Variable path_resolve : string → string.
Variable existsSync : string → bool.
Variable require_resolve : string → option string.

Local Abbreviation resolve_script :=
  (resolve_script path_resolve existsSync require_resolve).
Local Abbreviation group_script :=
  (group_script path_resolve existsSync require_resolve).
Local Abbreviation group_scripts :=
  (group_scripts path_resolve existsSync require_resolve).

Lemma group_script_grouped resolved prev curr bundles :
  grouped resolved prev →
  group_script prev curr = inr bundles →
  ∃ resolvedPath,
    resolve_script (n_input curr) = inr resolvedPath
    ∧ grouped (resolved ++ [(curr, resolvedPath)]) bundles.
Proof.
  intros (Hnodup & Hperm & Hin). unfold GlobalScripts.group_script.
  destruct (resolve_script (n_input curr)) as [err|resolvedPath]; [done|].
  intros Hstep. exists resolvedPath. split; [done|].
  destruct (list_find _ prev) as [[index existingEntry]|] eqn:Hfind.
  - apply list_find_Some in Hfind as (Hlookup & Hname & _).
    destruct (inject existingEntry && negb (n_inject curr)) eqn:Hmix; [done|].
    simplify_eq.
    assert (index < length prev) as Hlt by (by eapply lookup_lt_Some).
    split; [|split].
    + rewrite list_fmap_insert. simpl.
      rewrite list_insert_id; [done|]. by rewrite list_lookup_fmap, Hlookup.
    + rewrite fmap_app. simpl. rewrite <-Hperm.
      rewrite <-(take_drop_middle prev index existingEntry Hlookup) at 2.
      rewrite insert_take_drop by done.
      rewrite !fmap_app, !fmap_cons, !concat_app, !concat_cons. simpl.
      rewrite <-!app_assoc. apply Permutation_app_head.
      rewrite (Permutation_app_comm (concat _) [resolvedPath]).
      by rewrite app_assoc.
    + intros entry path [Hold|Hnew%list_elem_of_singleton]%elem_of_app.
      * destruct (Hin _ _ Hold) as (bundle & Hbundle & ? & ? & ?).
        apply list_elem_of_lookup in Hbundle as [j Hj].
        destruct (decide (j = index)) as [->|Hne].
        -- assert (bundle = existingEntry) as -> by congruence.
           assert (push_path resolvedPath existingEntry
                   ∈ <[index:=push_path resolvedPath existingEntry]> prev).
           { apply list_elem_of_lookup. exists index.
             by apply list_lookup_insert_eq. }
           exists (push_path resolvedPath existingEntry). simpl.
           split; [done|]. split; [done|]. split; [|done].
           apply elem_of_app. by left.
        -- exists bundle. split; [|done].
           apply list_elem_of_lookup. exists j. by rewrite list_lookup_insert_ne.
      * injection Hnew as -> ->.
        exists (push_path resolvedPath existingEntry). simpl.
        split; [apply list_elem_of_lookup; exists index;
                by apply list_lookup_insert_eq|].
        split; [done|]. split; [apply elem_of_app; right; by left|].
        intros Hinject. rewrite Hinject in Hmix. by destruct (n_inject curr).
  - apply list_find_None in Hfind. simplify_eq. split; [|split].
    + rewrite fmap_app. apply NoDup_app. split; [done|]. split.
      * intros name Hname ->%list_elem_of_singleton.
        apply list_elem_of_fmap in Hname as (bundle & Heq & Hbundle).
        rewrite Forall_forall in Hfind. by eapply Hfind.
      * apply NoDup_singleton.
    + rewrite !fmap_app, concat_app. simpl. by rewrite Hperm.
    + intros entry path [Hold|Hnew%list_elem_of_singleton]%elem_of_app.
      * destruct (Hin _ _ Hold) as (bundle & ? & ?).
        exists bundle. split; [|done]. apply elem_of_app. by left.
      * injection Hnew as -> ->.
        eexists. split; [apply elem_of_app; right; by left|].
        simpl. split; [done|]. split; [by left|done].
Qed.

Lemma group_scripts_from resolved prev entries bundles :
  grouped resolved prev →
  foldl (λ acc curr,
           match acc with
           | inl err => inl err
           | inr prev => group_script prev curr
           end) (inr prev) entries = inr bundles →
  ∃ resolvedPaths,
    Forall2 (λ entry resolvedPath,
               resolve_script (n_input entry) = inr resolvedPath)
            entries resolvedPaths
    ∧ grouped (resolved ++ zip entries resolvedPaths) bundles.
Proof.
  revert resolved prev.
  induction entries as [|curr entries IH]; intros resolved prev Hgrouped; simpl.
  - intros [= <-]. exists []. split; [constructor|]. by rewrite app_nil_r.
  - destruct (group_script prev curr) as [err|next] eqn:Hstep.
    + intros Hfold. exfalso. clear -Hfold.
      induction entries as [|e entries IH]; simpl in *; [done|]. auto.
    + intros Hfold.
      destruct (group_script_grouped _ _ _ _ Hgrouped Hstep)
        as (resolvedPath & Hresolved & Hnext).
      destruct (IH _ _ Hnext Hfold) as (resolvedPaths & Hall & Hfinal).
      exists (resolvedPath :: resolvedPaths). split; [by constructor|].
      simpl. by rewrite <-app_assoc in Hfinal.
Qed.

(** X12.  When the grouping of the global scripts succeeds, every script has
    a resolved path, no two bundles have the same name, the paths of the
    bundles are exactly the resolved paths (none lost, none twice), each
    path is in the bundle named by its entry, and an injected bundle holds
    injected scripts only. *)
Theorem group_scripts_grouped entries bundles :
  group_scripts entries = inr bundles →
  ∃ resolvedPaths,
    Forall2 (λ entry resolvedPath,
               resolve_script (n_input entry) = inr resolvedPath)
            entries resolvedPaths
    ∧ grouped (zip entries resolvedPaths) bundles.
Proof.
  intros Hfold. apply (group_scripts_from [] []) in Hfold; [done|].
  split; [constructor|]. split; [done|]. by intros ? ? ?%elem_of_nil.
Qed.

Lemma group_scripts_thrown (err : Thrown) entries :
  foldl (λ acc curr,
           match acc with
           | inl err => inl err
           | inr prev => group_script prev curr
           end) (inl err) entries = inl err.
Proof. induction entries as [|curr entries IH]; simpl; [done|]. apply IH. Qed.

Lemma group_script_same_bundle name (injected : bool) collected curr resolvedPath :
  n_bundleName curr = name →
  resolve_script (n_input curr) = inr resolvedPath →
  group_script [{| bundleName := name; paths := collected; inject := injected |}] curr
  = if injected && negb (n_inject curr)
    then inl (ThrownError ("The " +:+ name
                           +:+ " bundle is mixing injected and non-injected scripts."))
    else inr [{| bundleName := name; paths := collected ++ [resolvedPath];
                 inject := injected |}].
Proof.
  intros Hname Hresolved. unfold GlobalScripts.group_script.
  rewrite Hresolved, Hname. simpl. by rewrite decide_True by done.
Qed.

Lemma group_scripts_one_bundle name (injected : bool) collected rest resolvedPaths :
  Forall (λ entry, n_bundleName entry = name) rest →
  Forall2 (λ entry resolvedPath,
             resolve_script (n_input entry) = inr resolvedPath)
          rest resolvedPaths →
  foldl (λ acc curr,
           match acc with
           | inl err => inl err
           | inr prev => group_script prev curr
           end)
        (inr [{| bundleName := name; paths := collected; inject := injected |}])
        rest
  = if injected && existsb (λ entry, negb (n_inject entry)) rest
    then inl (ThrownError ("The " +:+ name
                           +:+ " bundle is mixing injected and non-injected scripts."))
    else inr [{| bundleName := name; paths := collected ++ resolvedPaths;
                 inject := injected |}].
Proof.
  intros Hnames Hresolved. revert collected Hnames.
  induction Hresolved as [|curr resolvedPath rest resolvedPaths Hcurr _ IH];
    intros collected Hnames.
  - simpl. by rewrite andb_false_r, app_nil_r.
  - apply Forall_cons in Hnames as [Hname Hnames].
    cbn [foldl existsb].
    rewrite (group_script_same_bundle _ _ _ _ resolvedPath) by done.
    destruct injected, (n_inject curr); cbn [andb negb orb].
    + rewrite IH by done. simpl. by rewrite <-app_assoc.
    + apply group_scripts_thrown.
    + rewrite IH by done. simpl. by rewrite <-app_assoc.
    + rewrite IH by done. simpl. by rewrite <-app_assoc.
Qed.

(** X13.  Scripts of one bundle name, all of them resolvable: when the first
    one is injected and a later one is not, the grouping throws the mixing
    error; in every other case, also when the first one is lazy and later
    ones are injected, there is one bundle with all the paths in order,
    and it has the [inject] flag of the first script. *)
Theorem group_scripts_of_one_bundle first rest resolvedPath resolvedPaths :
  Forall (λ entry, n_bundleName entry = n_bundleName first) rest →
  resolve_script (n_input first) = inr resolvedPath →
  Forall2 (λ entry resolvedPath,
             resolve_script (n_input entry) = inr resolvedPath)
          rest resolvedPaths →
  group_scripts (first :: rest)
  = if n_inject first && existsb (λ entry, negb (n_inject entry)) rest
    then inl (ThrownError ("The " +:+ n_bundleName first
                           +:+ " bundle is mixing injected and non-injected scripts."))
    else inr [{| bundleName := n_bundleName first;
                 paths := resolvedPath :: resolvedPaths;
                 inject := n_inject first |}].
Proof.
  intros Hnames Hfirst Hrest. unfold GlobalScripts.group_scripts.
  cbn [foldl]. unfold GlobalScripts.group_script at 2. rewrite Hfirst.
  cbn [list_find app].
  by rewrite (group_scripts_one_bundle _ _ _ _ resolvedPaths).
Qed.

End GlobalScriptsTheory.

(** *** Asset patterns *)
Section AssetPatternsTheory.
Import Js AssetPatterns.
Variable path_resolve : string → string.
Variable posix_join : string → string → string.

Local Abbreviation copy_pattern := (copy_pattern path_resolve posix_join).

Lemma with_trailing_slash_ends (s : string) :
  endsWith (with_trailing_slash s) "/" = true.
Proof.
  unfold with_trailing_slash. destruct (endsWith s "/") eqn:Hends; [done|].
  apply endsWith_append.
Qed.

Lemma prefix_dots_trailing_slash (s : string) :
  String.prefix ".." (with_trailing_slash s) = String.prefix ".." s.
Proof.
  unfold with_trailing_slash. destruct (endsWith s "/"); [done|].
  destruct s as [|a [|b rest]]; [done| |].
  - rewrite append_String, !prefix_String.
    destruct (Ascii.ascii_dec "." a); reflexivity.
  - by rewrite !append_String, !prefix_String, !prefix_empty.
Qed.

Lemma slashes_no_backslash (s : string) :
  backslash ∉ String.list_ascii_of_string (slashes s).
Proof.
  induction s as [|c s IH]; simpl; [apply not_elem_of_nil|].
  apply not_elem_of_cons. split; [|done]. by case_decide.
Qed.

Lemma list_ascii_of_string_append (s t : string) :
  String.list_ascii_of_string (s +:+ t) = String.list_ascii_of_string s ++ String.list_ascii_of_string t.
Proof. induction s as [|c s IH]; simpl; [done|]. by rewrite IH. Qed.

(** X14.  A pattern is refused exactly when its output starts with two dots.
    For an accepted pattern the context ends with a slash and has no
    backslash.  The leading slash of the output is removed after the test:
    an output that starts with [/..] is accepted and gives a destination
    that starts with two dots. *)
Theorem copy_pattern_checks (asset : AssetPatternClass) :
  ((∃ err, copy_pattern asset = inl err)
   ↔ String.prefix ".." (output asset) = true)
  ∧ ∀ pattern,
      copy_pattern asset = inr pattern →
      endsWith (context pattern) "/" = true
      ∧ (backslash ∉ String.list_ascii_of_string (context pattern))
      ∧ (String.prefix "/.." (output asset) = true →
         String.prefix ".." (to pattern) = true).
Proof.
  unfold AssetPatterns.copy_pattern. rewrite prefix_dots_trailing_slash.
  destruct (String.prefix ".." (output asset)) eqn:Hdots.
  { split; [|done]. split; [done|]. intros _. by eexists. }
  split; [split; [by intros [? ?]|done]|].
  intros pattern [= <-]. simpl. split; [apply with_trailing_slash_ends|]. split.
  - unfold with_trailing_slash. case_match; [apply slashes_no_backslash|].
    rewrite list_ascii_of_string_append. apply not_elem_of_app.
    split; [apply slashes_no_backslash|]. simpl.
    apply not_elem_of_cons. split; [done|apply not_elem_of_nil].
  - intros Hescape.
    destruct (output asset) as [|a [|b [|c rest]]];
      [by vm_compute in Hescape| | |];
      rewrite !prefix_String in Hescape;
      (destruct (Ascii.ascii_dec "/" a) as [<-|]; [|done]);
      [by vm_compute in Hescape| |];
      (destruct (Ascii.ascii_dec "." b) as [<-|]; [|done]);
      [by vm_compute in Hescape|].
    destruct (Ascii.ascii_dec "." c) as [<-|]; [|done].
    unfold with_trailing_slash.
    destruct (endsWith _ "/"), rest; reflexivity.
Qed.

End AssetPatternsTheory.

(** *** Entry points *)
Section EntryConfigTheory.
Import EntryConfig.
Variable path_resolve : string → string.
Variable shipped : string → string.
Variable targetIsES5 : bool.
Variable isEs5SupportNeeded : bool.

Local Abbreviation entryPoints :=
  (entryPoints path_resolve shipped targetIsES5 isEs5SupportNeeded).
Local Abbreviation es5_polyfills := (es5_polyfills path_resolve shipped).

Lemma push_entry_ok name file entries :
  (name = "main" ∨ isPolyfillsEntry name = true) →
  entries_ok entries → entries_ok (push_entry name file entries).
Proof.
  intros Hname Hok name' files'. unfold push_entry.
  destruct (entries !! name) as [files|] eqn:Hfiles;
    (destruct (decide (name = name')) as [<-|Hne];
     [rewrite lookup_insert_eq; intros [= <-]; split; [|done]
     |rewrite lookup_insert_ne by done; apply Hok]).
  - by destruct files.
  - done.
Qed.

Lemma insert_entry_ok name files entries :
  (name = "main" ∨ isPolyfillsEntry name = true) → files ≠ [] →
  entries_ok entries → entries_ok (<[name := files]> entries).
Proof.
  intros Hname Hfiles Hok name' files'.
  destruct (decide (name = name')) as [<-|Hne].
  - rewrite lookup_insert_eq. by intros [= <-].
  - rewrite lookup_insert_ne by done. apply Hok.
Qed.

Lemma push_entry_last name file entries :
  ∃ files, push_entry name file entries !! name = Some (files ++ [file]).
Proof.
  unfold push_entry. destruct (entries !! name) as [files|].
  - exists files. by rewrite lookup_insert_eq.
  - exists []. by rewrite lookup_insert_eq.
Qed.

Lemma push_entry_other name file entries name' :
  name ≠ name' → push_entry name file entries !! name' = entries !! name'.
Proof.
  intros Hne. unfold push_entry.
  destruct (entries !! name); by rewrite lookup_insert_ne.
Qed.

(** X15.  Every entry point of the common configuration is [main] or a
    polyfills entry ([isPolyfillsEntry]) and has at least one file.  On the
    server platform there is no polyfills entry.  On any other platform
    [polyfills-es5] exists exactly when ES5 support is needed and the
    build is differential or targets ES5, and it starts with the ES5
    polyfills; and in a JIT build the [polyfills] entry ends with the JIT
    polyfills. *)
Theorem entryPoints_shape (buildOptions : BuildOptions) :
  let entries := entryPoints buildOptions in
  let server := bool_decide (default "browser" (platform buildOptions) = "server") in
  entries_ok entries
  ∧ (server = true →
     entries !! "polyfills" = None ∧ entries !! "polyfills-es5" = None)
  ∧ (server = false →
     entries !! "polyfills-es5"
     = (if (truthy (differentialLoadingMode buildOptions) || targetIsES5)
           && isEs5SupportNeeded
        then Some (es5_polyfills buildOptions) else None)
     ∧ (truthy (aot buildOptions) = false →
        ∃ files,
          entries !! "polyfills" = Some (files ++ [shipped "jit-polyfills.js"])))
  ∧ ∃ rest, es5_polyfills buildOptions = shipped "es5-polyfills.js" :: rest.
Proof.
  intros entries server.
  assert (entries_ok (match given (main buildOptions) with
                      | Some file => {[ "main" := [path_resolve file] ]}
                      | None => ∅
                      end : gmap string (list string))) as Hmain.
  { intros name files. destruct (given (main buildOptions)).
    - intros [<- <-]%lookup_singleton_Some. split; [done|]. by left.
    - by rewrite lookup_empty. }
  assert (∀ name, name ≠ "main" →
            (match given (main buildOptions) with
             | Some file => {[ "main" := [path_resolve file] ]}
             | None => ∅
             end : gmap string (list string)) !! name = None) as Hother.
  { intros name Hname. destruct (given (main buildOptions)).
    - by rewrite lookup_singleton_ne.
    - by rewrite lookup_empty. }
  assert ("polyfills" = "main" ∨ isPolyfillsEntry "polyfills" = true) as Hp.
  { by right. }
  assert ("polyfills-es5" = "main" ∨ isPolyfillsEntry "polyfills-es5" = true) as Hp5.
  { by right. }
  assert (es5_polyfills buildOptions ≠ []) as Hes5 by done.
  unfold entries, server, EntryConfig.entryPoints.
  case_decide as Hserver.
  { rewrite bool_decide_eq_true_2 by done.
    split; [done|]. split; [by rewrite !Hother|]. split; [done|by eexists]. }
  rewrite bool_decide_eq_false_2 by done.
  split; [|split; [done|split; [|by eexists]]].
  - destruct (truthy (aot buildOptions)), (given (polyfills buildOptions)),
      ((truthy (differentialLoadingMode buildOptions) || targetIsES5)
       && isEs5SupportNeeded);
      repeat (apply push_entry_ok; [done|]);
      try (apply insert_entry_ok; [done|done|]); exact Hmain.
  - intros _. split.
    + destruct (truthy (aot buildOptions)), (given (polyfills buildOptions)),
        ((truthy (differentialLoadingMode buildOptions) || targetIsES5)
         && isEs5SupportNeeded);
        rewrite ?push_entry_other by done;
        rewrite ?lookup_insert_eq, ?Hother; done.
    + intros ->. destruct (given (polyfills buildOptions)); apply push_entry_last.
Qed.

End EntryConfigTheory.

(** *** AngularWebpackPlugin: what the file emitter returns *)
Section AotEmitterTheory.
Import Js Plugin AotEmitter.
Context {CustomTransformers : Type}.
Variable externalizePath : string → string.
Variable normalizePath : string → string.
Variable runInNewContext : string → string → ResourceLoader.VmResult.

(** The write callback folded over the files of an emit. *)
Lemma foldl_writeFile (written : list (string * string)) :
  foldl writeFile (None, None) written
  = (last (filter (λ file, endsWith file.1 ".js" = true) written).*2,
     last (filter (λ file, endsWith file.1 ".map" = true) written).*2).
Proof.
  induction written as [|[filename data] written IH] using rev_ind; [done|].
  rewrite foldl_app, IH. cbn [foldl writeFile].
  rewrite !filter_app, !fmap_app, !filter_cons, !filter_nil. cbn [fst].
  destruct (endsWith filename ".js") eqn:Hjs.
  - rewrite (endsWith_js_not_map _ Hjs).
    rewrite decide_True, decide_False by done. simpl.
    by rewrite app_nil_r, last_snoc.
  - destruct (endsWith filename ".map") eqn:Hmap.
    + rewrite decide_False, decide_True by done. simpl.
      by rewrite app_nil_r, last_snoc.
    + rewrite !decide_False by done. simpl. by rewrite !app_nil_r.
Qed.

(** X16.  What the emitter returns for a file of the program: [content] is
    the text of the last file written by the emit whose name ends in
    [.js], [map] that of the last one whose name ends in [.map], and each
    is [undefined] when no such file was written (so for a declaration
    file, of which only [.d.ts] is written). *)
Theorem fileEmitter_content_and_map {S : Type}
    (program : BuilderProgram CustomTransformers) (transformers : CustomTransformers)
    (getExtraDependencies : SourceFile → list string)
    (onAfterEmit : option (SourceFile → S → S))
    (file : string) (st : list (option SourceFile) * S) (sourceFile : SourceFile) :
  getSourceFile program file = Some sourceFile →
  let written := emit program (Some sourceFile) transformers in
  ∃ emitted,
    (createFileEmitter externalizePath program transformers
                       getExtraDependencies onAfterEmit file st).2
    = Resolved (Some emitted)
    ∧ content emitted
      = last (filter (λ file, endsWith file.1 ".js" = true) written).*2
    ∧ map emitted
      = last (filter (λ file, endsWith file.1 ".map" = true) written).*2
    ∧ (Forall (λ file, endsWith file.1 ".js" = false) written →
       content emitted = None).
Proof.
  intros Hfile written. unfold createFileEmitter. rewrite Hfile.
  fold written. rewrite foldl_writeFile. simpl.
  eexists. split; [done|]. simpl. split; [done|]. split; [done|].
  intros Hnone. clearbody written.
  induction Hnone as [|written_file written Hjs _ IH]; [done|].
  rewrite filter_cons_False; [done|]. by rewrite Hjs.
Qed.

Lemma elem_of_foldl_getDependencies (loader : ResourceLoader.WebpackResourceLoader)
    (resources : list string) (collected : list string) (dep : string) :
  dep ∈ foldl (λ dependencies resourcePath,
                 dependencies
                 ++ resourcePath
                    :: elements (ResourceLoader.getResourceDependencies
                                   loader resourcePath))
              collected resources
  ↔ dep ∈ collected
    ∨ ∃ resourcePath,
        resourcePath ∈ resources
        ∧ (dep = resourcePath
           ∨ dep ∈ ResourceLoader.getResourceDependencies loader resourcePath).
Proof.
  revert collected.
  induction resources as [|resource resources IH]; intros collected; simpl.
  - split; [by left|]. intros [?|(? & []%elem_of_nil & _)]. done.
  - rewrite IH, elem_of_app, elem_of_cons, elem_of_elements. split.
    + intros [[?|[->|?]]|(r & ? & ?)]; [by left|right..].
      * exists resource. split; [by left|by left].
      * exists resource. split; [by left|by right].
      * exists r. split; [by right|done].
    + intros [?|(r & [->|?]%elem_of_cons & Hdep)]; [by left; left|..].
      * left. right. destruct Hdep as [->|?]; [by left|by right].
      * right. by exists r.
Qed.

(** The dependencies [getDependencies] lists for a source file. *)
Lemma elem_of_getDependencies angularCompiler loader sourceFile dep :
  dep ∈ getDependencies angularCompiler loader sourceFile
  ↔ ∃ resourcePath,
      resourcePath ∈ getResourceDependencies angularCompiler sourceFile
      ∧ (dep = resourcePath
         ∨ dep ∈ ResourceLoader.getResourceDependencies loader resourcePath).
Proof.
  unfold getDependencies. rewrite elem_of_foldl_getDependencies.
  split; [|by right]. by intros [[]%elem_of_nil|?].
Qed.

(** X17.  The AOT file emitter and the resource loader together: once a
    resource of a source file has been compiled, the emitter reports for
    that source file, all of them externalized, the dependencies the
    program has for it, the resource itself and every file the child
    compilation of the resource depended on; and it reports nothing but
    program dependencies, resources of the source file and the recorded
    dependencies of these. *)
Theorem fileEmitter_reports_resource_dependencies
    (builder : BuilderProgram CustomTransformers) (transformers : CustomTransformers)
    (angularCompiler : AngularCompiler) webpack l resourcePath l' output
    (file : string) (sourceFile : SourceFile)
    (st : list (option SourceFile) * EmitState) :
  ResourceLoader._compile normalizePath runInNewContext webpack l resourcePath
  = (l', Resolved output) →
  getSourceFile builder file = Some sourceFile →
  resourcePath ∈ getResourceDependencies angularCompiler sourceFile →
  ∃ l1 childCompilation emitted,
    ResourceLoader.compile_child runInNewContext webpack l resourcePath
    = (l1, ResourceLoader.CompileDone childCompilation)
    ∧ (fileEmitter externalizePath builder transformers angularCompiler l' file st).2
      = Resolved (Some emitted)
    ∧ externalizePath resourcePath ∈ dependencies emitted
    ∧ (∀ dep, dep ∈ ResourceLoader.fileDependencies childCompilation →
              externalizePath dep ∈ dependencies emitted)
    ∧ (∀ dep, dep ∈ getAllDependencies builder sourceFile →
              externalizePath dep ∈ dependencies emitted)
    ∧ (∀ reported, reported ∈ dependencies emitted →
         ∃ dep,
           reported = externalizePath dep
           ∧ (dep ∈ getAllDependencies builder sourceFile
              ∨ ∃ resource,
                  resource ∈ getResourceDependencies angularCompiler sourceFile
                  ∧ (dep = resource
                     ∨ dep ∈ ResourceLoader.getResourceDependencies l' resource))).
Proof.
  intros Hcompile Hfile Hresource.
  apply compile_resolved_inv in Hcompile
    as (parent & l1 & child & _ & _ & Hchild & _ & Hl').
  assert (ResourceLoader.getResourceDependencies l' resourcePath
          = list_to_set (ResourceLoader.fileDependencies child)) as Hdeps.
  { unfold ResourceLoader.getResourceDependencies.
    destruct Hl' as [-> | ->]; simpl; by rewrite lookup_insert_eq. }
  exists l1, child. unfold fileEmitter, createFileEmitter. rewrite Hfile.
  destruct (foldl writeFile _ _) as [content_ map_]. simpl.
  eexists. split; [done|]. split; [done|]. simpl.
  split; [|split; [|split]].
  - apply list_elem_of_fmap_2, elem_of_app. right.
    apply elem_of_getDependencies. exists resourcePath. split; [done|by left].
  - intros dep Hdep. apply list_elem_of_fmap_2, elem_of_app. right.
    apply elem_of_getDependencies. exists resourcePath. split; [done|].
    right. rewrite Hdeps. by apply elem_of_list_to_set.
  - intros dep Hdep. apply list_elem_of_fmap_2, elem_of_app. by left.
  - intros reported (dep & -> & Hdep)%list_elem_of_fmap.
    exists dep. split; [done|].
    apply elem_of_app in Hdep as [?|Hdep]; [by left|right].
    by apply elem_of_getDependencies.
Qed.

Lemma foldl_collect_required angularCompiler sourceFiles required :
  NoDup required →
  let collected :=
    foldl (λ required sourceFile,
             if is_required angularCompiler sourceFile
             then Set_add (fileName sourceFile) required else required)
          required sourceFiles in
  NoDup collected
  ∧ ∀ name, name ∈ collected
            ↔ name ∈ required
              ∨ ∃ sourceFile, sourceFile ∈ sourceFiles
                              ∧ is_required angularCompiler sourceFile = true
                              ∧ fileName sourceFile = name.
Proof.
  revert required.
  induction sourceFiles as [|sourceFile sourceFiles IH]; intros required Hnodup.
  - simpl. split; [done|]. intros name. split; [by left|].
    by intros [?|(? & []%elem_of_nil & _)].
  - cbn [foldl]. cbv zeta.
    destruct (is_required angularCompiler sourceFile) eqn:Hrequired.
    + destruct (IH (Set_add (fileName sourceFile) required)) as [Hnd Hin].
      { by apply Set_add_NoDup. }
      split; [done|]. intros name. rewrite Hin, Set_add_spec. split.
      * intros [[->|?]|(sf & ? & ? & ?)]; [right|by left|right].
        -- exists sourceFile. split; [by left|done].
        -- exists sf. split; [by right|done].
      * intros [?|(sf & [->|?]%elem_of_cons & ? & ?)];
          [by left; right|by left; left|right].
        by exists sf.
    + destruct (IH required Hnodup) as [Hnd Hin].
      split; [done|]. intros name. rewrite Hin. split.
      * intros [?|(sf & ? & ? & ?)]; [by left|right].
        exists sf. split; [by right|done].
      * intros [?|(sf & [->|?]%elem_of_cons & ? & ?)]; [by left|congruence|right].
        by exists sf.
Qed.

Lemma Set_delete_spec x s y : y ∈ Set_delete x s ↔ y ∈ s ∧ y ≠ x.
Proof. unfold Set_delete. rewrite list_elem_of_filter. tauto. Qed.

(** The required files after a run of emitter calls. *)
Lemma emit_files_required
    (builder : BuilderProgram CustomTransformers) (transformers : CustomTransformers)
    (angularCompiler : AngularCompiler) loader files
    (st : list (option SourceFile) * EmitState) name :
  name ∈ requiredFilesToEmit
           (emit_files externalizePath builder transformers angularCompiler
                       loader files st).2
  ↔ name ∈ requiredFilesToEmit st.2
    ∧ ¬ ∃ file sourceFile,
          file ∈ files
          ∧ getSourceFile builder file = Some sourceFile
          ∧ fileName sourceFile = name.
Proof.
  unfold emit_files. revert st.
  induction files as [|file files IH]; intros st.
  - simpl. split; [|by intros [? _]].
    intros Hin. split; [done|]. by intros (? & ? & []%elem_of_nil & _).
  - cbn [foldl]. rewrite IH. unfold fileEmitter, createFileEmitter.
    destruct (getSourceFile builder file) as [sourceFile|] eqn:Hfile.
    + destruct (foldl writeFile _ _) as [content_ map_]. simpl.
      rewrite Set_delete_spec. split.
      * intros [[Hin Hne] Hnot]. split; [done|].
        intros (file' & sf & [->|?]%elem_of_cons & Hsf & Hname).
        -- rewrite Hfile in Hsf. injection Hsf as <-. done.
        -- apply Hnot. by exists file', sf.
      * intros [Hin Hnot]. split; [split; [done|]|].
        -- intros ->. apply Hnot. exists file, sourceFile. split; [by left|done].
        -- intros (file' & sf & ? & ? & ?). apply Hnot.
           exists file', sf. split; [by right|done].
    + simpl. split.
      * intros [Hin Hnot]. split; [done|].
        intros (file' & sf & [->|?]%elem_of_cons & Hsf & Hname).
        -- congruence.
        -- apply Hnot. by exists file', sf.
      * intros [Hin Hnot]. split; [done|].
        intros (file' & sf & ? & ? & ?). apply Hnot.
        exists file', sf. split; [by right|done].
Qed.

(** X18.  The files still required to be emitted: after the analysis and
    any run of emitter calls, a file name is in [requiredFilesToEmit]
    exactly when it is the name of a source file of the program that is no
    declaration file, is not ignored for emit and is not safe to skip, and
    none of the calls was for a file whose source file has that name.  A
    call for a path the program does not know removes nothing. *)
Theorem required_files_until_emitted
    (builder : BuilderProgram CustomTransformers) (transformers : CustomTransformers)
    (angularCompiler : AngularCompiler) loader files previousEmits recorded name :
  let analysed :=
    (previousEmits,
     {| requiredFilesToEmit :=
          collect_required angularCompiler (getSourceFiles builder);
        successfulEmits := recorded |}) in
  name ∈ requiredFilesToEmit
           (emit_files externalizePath builder transformers angularCompiler
                       loader files analysed).2
  ↔ (∃ sourceFile,
       sourceFile ∈ getSourceFiles builder
       ∧ isDeclarationFile sourceFile = false
       ∧ ignoreForEmit angularCompiler sourceFile = false
       ∧ safeToSkipEmit angularCompiler sourceFile = false
       ∧ fileName sourceFile = name)
    ∧ ¬ ∃ file sourceFile,
          file ∈ files
          ∧ getSourceFile builder file = Some sourceFile
          ∧ fileName sourceFile = name.
Proof.
  intros analysed. rewrite emit_files_required. simpl.
  destruct (foldl_collect_required angularCompiler (getSourceFiles builder) [])
    as [_ Hin]; [constructor|].
  unfold collect_required. rewrite Hin.
  assert (∀ sourceFile,
            is_required angularCompiler sourceFile = true
            ↔ isDeclarationFile sourceFile = false
              ∧ ignoreForEmit angularCompiler sourceFile = false
              ∧ safeToSkipEmit angularCompiler sourceFile = false) as Hrequired.
  { intros sourceFile. unfold is_required.
    destruct (isDeclarationFile sourceFile), (ignoreForEmit _ sourceFile),
      (safeToSkipEmit _ sourceFile); naive_solver. }
  split.
  - intros [[[]%elem_of_nil|(sf & ? & Hsf%Hrequired & ?)] Hnot].
    split; [|done]. exists sf. naive_solver.
  - intros [(sf & ? & ? & ? & ? & ?) Hnot]. split; [|done].
    right. exists sf. split; [done|]. split; [|done]. by apply Hrequired.
Qed.

End AotEmitterTheory.

(** *** AngularWebpackPlugin: what a compilation hands to the resource loader *)
Section LoaderUpdateTheory.
Import Plugin.
Context {NgtscProgram CustomTransformers : Type}.
Variable invalidate :
  gmap string SourceFile → gmap string Z → option Z
  → gmap string SourceFile * gset string.
Implicit Types (p : AngularWebpackPlugin NgtscProgram CustomTransformers).
Implicit Types (env : Environment NgtscProgram CustomTransformers).

Local Abbreviation thisCompilation := (thisCompilation invalidate).

(** X19.  Every compilation makes itself the parent compilation of the
    resource loader and leaves the dependency maps and the caches of the
    loader alone.  A compilation that finds no stored source file cache
    (the first one, and every one outside watch mode) hands no list of
    changed files to the loader, so that no resource counts as modified;
    one that finds a stored cache hands over the list it got from the
    invalidation of that cache. *)
Theorem thisCompilation_updates_loader env compilation p l :
  let result := thisCompilation env compilation (p, l) in
  let l' := result.1.2 in
  ResourceLoader._parentCompilation l' = Some compilation
  ∧ ResourceLoader._context l' = ResourceLoader.context compilation
  ∧ ResourceLoader._fileDependencies l' = ResourceLoader._fileDependencies l
  ∧ ResourceLoader._reverseDependencies l' = ResourceLoader._reverseDependencies l
  ∧ ResourceLoader._cachedSources l' = ResourceLoader._cachedSources l
  ∧ ResourceLoader._cachedEvaluatedSources l'
    = ResourceLoader._cachedEvaluatedSources l
  ∧ ResourceLoader.changedFiles l' = elements <$> changedFiles result.2
  ∧ (sourceFileCache p = None →
     constructed result.2 = true
     ∧ ResourceLoader.changedFiles l' = None
     ∧ ResourceLoader.getModifiedResourceFiles l' = ∅)
  ∧ (is_Some (sourceFileCache p) →
     constructed result.2 = false
     ∧ is_Some (ResourceLoader.changedFiles l')).
Proof.
  rewrite thisCompilation_spec. cbn [fst snd changedFiles constructed].
  do 7 (split; [done|]). split.
  - intros Hnone. by rewrite setup_cache_fresh.
  - intros [stored Hstored]. by rewrite (setup_cache_stored _ _ _ _ stored).
Qed.

End LoaderUpdateTheory.

(** *** AngularWebpackPlugin: unused files over successive compilations *)
Section RebuildsTheory.
Import Js Plugin Rebuilds.
Context {CustomTransformers : Type}.

(** X20.  A file that was unused at the last analysis and stays unused is
    never warned about again, however many compilations follow and
    whichever of them end with errors: a compilation with errors skips
    the analysis and keeps the set of the last analysis.  After the run the
    file is still in that set. *)
Theorem unused_file_stays_silent (cycles : list (Cycle CustomTransformers))
    previousUnused file :
  previously_unused previousUnused file = true →
  Forall (λ cycle,
            file ∈ compute_unused (cycle_builder cycle) (cycle_files cycle)
                                  (cycle_modules cycle)) cycles →
  Forall2 (λ cycle result,
             ∃ warned,
               ResourceLoader.warnings result
               = ResourceLoader.warnings (cycle_compilation cycle)
                 ++ (unused_message <$> warned)
               ∧ file ∉ warned)
          cycles (analyses cycles previousUnused).1
  ∧ previously_unused (analyses cycles previousUnused).2 file = true.
Proof.
  intros Hprevious Hunused. revert previousUnused Hprevious.
  induction Hunused as [|cycle cycles Hfile _ IH]; intros previousUnused Hprevious.
  - simpl. split; [constructor|done].
  - cbn [analyses].
    pose proof (analyzeUnusedFiles_warnings (cycle_builder cycle) (cycle_files cycle)
                  (cycle_modules cycle) previousUnused (cycle_compilation cycle))
      as (warned & Hwarnings & Hfresh).
    assert (previously_unused
              (analyzeUnusedFiles (cycle_builder cycle) (cycle_files cycle)
                 (cycle_modules cycle) previousUnused (cycle_compilation cycle)).2
              file = true) as Hnext.
    { unfold analyzeUnusedFiles.
      destruct (ResourceLoader.errors (cycle_compilation cycle)); simpl; [|done].
      unfold Set_has. by apply bool_decide_eq_true. }
    destruct (analyzeUnusedFiles _ _ _ _ _) as [compilation next].
    simpl in Hwarnings, Hnext.
    destruct (IH next Hnext) as [Hrest Hfinal].
    destruct (analyses cycles next) as [compilations final]. simpl in *.
    split; [|done]. constructor; [|done].
    exists warned. split; [done|]. intros Hin%Hfresh. congruence.
Qed.

End RebuildsTheory.

(** *** The further properties on the small build *)
Section FurtherRuns.
Import Js ResourceLoader LoaderUse Scenario Runs.

Lemma reverse_dependencies_never_shrink_witness :
  "/app/a.css" ∈ getAffectedResources rebuild "/app/b.css".
Proof.
  apply (reverse_dependencies_never_shrink normalizePath runInNewContext
           first_compile.1 rebuild "/app/b.css" "/app/a.css").
  - eapply rtc_l; [|apply rtc_once, load_update].
    apply (load_get normalizePath runInNewContext failing_webpack first_compile.1
                    "/app/c.css" after_failure
                    (Rejected (ThrownError "Module not found"))).
    vm_compute. reflexivity.
  - vm_compute. reflexivity.
Defined.

Lemma dependency_maps_stay_in_sync_witness :
  dependencies_in_sync normalizePath rebuild
  ∧ ∀ changed resource file,
      changedFiles rebuild = Some changed →
      file ∈ getResourceDependencies rebuild resource →
      normalizePath file ∈ changed →
      resource ∈ getModifiedResourceFiles rebuild.
Proof.
  apply (dependency_maps_stay_in_sync normalizePath runInNewContext rebuild).
  eapply rtc_l; [apply (load_update _ _ ResourceLoader.new parent None)|].
  eapply rtc_l.
  { apply (load_get normalizePath runInNewContext (webpack "h1" "one") loader
                    "/app/a.css" first_compile.1 (Resolved "one")).
    vm_compute. reflexivity. }
  eapply rtc_l; [|apply rtc_once, load_update].
  apply (load_get normalizePath runInNewContext failing_webpack first_compile.1
                  "/app/c.css" after_failure
                  (Rejected (ThrownError "Module not found"))).
  vm_compute. reflexivity.
Defined.

Example changed_import_marks_style_sheet :
  "/app/a.css" ∈ getModifiedResourceFiles rebuild.
Proof. vm_compute. reflexivity. Qed.


Lemma child_assets_reach_parent_witness :
  ∃ parent',
    _parentCompilation first_compile.1 = Some parent'
    ∧ ∀ name,
        assets parent' !! name
        = match assets parent !! name with
          | Some kept => Some kept
          | None =>
              if decide (propagated_name "/app/a.css" name)
              then assets (set_assets (<["/app/a.css" := RawSource "one"]>
                                         (assets (sealed "h1" "one")))
                                      (sealed "h1" "one")) !! name
              else None
          end.
Proof.
  apply (child_assets_reach_parent normalizePath runInNewContext
           (webpack "h1" "one") loader "/app/a.css" parent
           (compile_child runInNewContext (webpack "h1" "one") loader "/app/a.css").1
           (set_assets (<["/app/a.css" := RawSource "one"]> (assets (sealed "h1" "one")))
                       (sealed "h1" "one"))
           first_compile.1 first_compile.2).
  - reflexivity.
  - vm_compute. reflexivity.
  - vm_compute. reflexivity.
  - vm_compute. reflexivity.
Defined.

Lemma child_diagnostics_reach_parent_witness :
  ∃ parent',
    _parentCompilation first_compile.1 = Some parent'
    ∧ warnings parent' = warnings parent ++ ["deprecated syntax"]
    ∧ errors parent' = errors parent ++ [].
Proof.
  apply (child_diagnostics_reach_parent normalizePath runInNewContext
           (webpack "h1" "one") loader "/app/a.css" parent
           (compile_child runInNewContext (webpack "h1" "one") loader "/app/a.css").1
           (set_assets (<["/app/a.css" := RawSource "one"]> (assets (sealed "h1" "one")))
                       (sealed "h1" "one"))
           first_compile.1 first_compile.2).
  - reflexivity.
  - vm_compute. reflexivity.
  - vm_compute. reflexivity.
  - vm_compute. reflexivity.
Defined.

Lemma compile_evaluates_on_cache_miss_witness :
  ∃ l' result,
    _compile normalizePath runInNewContext (webpack "h1" "one") loader "/app/a.css"
    = (l', result)
    ∧ evaluations l'
      = evaluations loader
        ++ [{| outputName := "/app/a.css";
               source := getSource (GeneratedSource "one") |}]
    ∧ childCompilers l' = childCompilers loader ++ ["/app/a.css"]
    ∧ _cachedEvaluatedSources l'
      = <[fullHash (sealed "h1" "one") := RawSource "one"]>
          (_cachedEvaluatedSources loader).
Proof.
  apply (compile_evaluates_on_cache_miss normalizePath runInNewContext
           (webpack "h1" "one") loader "/app/a.css" parent (sealed "h1" "one")
           (GeneratedSource "one") "one").
  - reflexivity.
  - vm_compute. reflexivity.
  - reflexivity.
  - reflexivity.
  - vm_compute. reflexivity.
  - reflexivity.
Defined.

(** A second style sheet whose child compilation has the hash of the
    first one gets the source of the first one. *)
Lemma cache_hit_across_resources_witness :
  let l2 := update first_compile.1 parent (Some ["/app/b.css"]) in
  ∃ l3,
    _compile normalizePath runInNewContext (webpack "h1" "two") l2 "/app/b.css"
    = (l3, Resolved {| outputName := "/app/b.css"; source := "one" |})
    ∧ evaluations l3 = evaluations l2.
Proof.
  intros l2.
  apply (cache_hit_across_resources normalizePath runInNewContext
           (webpack "h1" "one") (webpack "h1" "two") loader "/app/a.css"
           (compile_child runInNewContext (webpack "h1" "one") loader "/app/a.css").1
           (set_assets (<["/app/a.css" := RawSource "one"]> (assets (sealed "h1" "one")))
                       (sealed "h1" "one"))
           first_compile.1 {| outputName := "/app/a.css"; source := "one" |}
           l2 "/app/b.css" (sealed "h1" "two")).
  - apply rtc_once. apply step_update.
  - vm_compute. reflexivity.
  - vm_compute. reflexivity.
  - apply rtc_once. apply step_update.
  - vm_compute. reflexivity.
  - reflexivity.
  - reflexivity.
Defined.

Lemma get_rejects_bundle_without_string_witness :
  let message :=
    "The loader " +:+ dquote +:+ "/app/a.css" +:+ dquote
    +:+ " didn't return a string." in
  ∃ l',
    get normalizePath sandbox (webpack "h9" "broken") loader "/app/a.css"
    = (l', Rejected (ThrownError message))
    ∧ includes "/app/a.css" message = true
    ∧ evaluations l'
      = evaluations loader
        ++ [{| outputName := "/app/a.css";
               source := getSource (GeneratedSource "broken") |}]
    ∧ _parentCompilation l' = Some parent
    ∧ _cachedEvaluatedSources l' = _cachedEvaluatedSources loader
    ∧ _cachedSources l' = _cachedSources loader
    ∧ _fileDependencies l' = _fileDependencies loader
    ∧ _reverseDependencies l' = _reverseDependencies loader.
Proof.
  apply (get_rejects_bundle_without_string normalizePath sandbox
           (webpack "h9" "broken") loader "/app/a.css" parent (sealed "h9" "broken")
           (GeneratedSource "broken")).
  - reflexivity.
  - vm_compute. reflexivity.
  - reflexivity.
  - reflexivity.
  - vm_compute. reflexivity.
  - vm_compute. reflexivity.
Defined.

Lemma missing_asset_rejects_after_recording_witness :
  ∃ l' reason,
    _compile normalizePath runInNewContext webpack_without_asset loader "/app/c.css"
    = (l', Rejected (ThrownTypeError reason))
    ∧ getResourceDependencies l' "/app/c.css"
      = list_to_set (fileDependencies without_asset)
    ∧ (∀ file, file ∈ fileDependencies without_asset →
               "/app/c.css" ∈ getAffectedResources l' (normalizePath file))
    ∧ _cachedSources l' = _cachedSources loader
    ∧ _cachedEvaluatedSources l' = _cachedEvaluatedSources loader
    ∧ evaluations l' = evaluations loader.
Proof.
  apply (missing_asset_rejects_after_recording normalizePath runInNewContext
           webpack_without_asset loader "/app/c.css" parent without_asset).
  - apply rtc_once. apply step_update.
  - reflexivity.
  - vm_compute. reflexivity.
  - reflexivity.
  - reflexivity.
  - vm_compute. reflexivity.
Defined.

Lemma lazy_entry_named_after_file_witness :
  EntryPoints.normalizeExtraEntryPoint basename "styles"
                                       (EntryPoints.EntryObject lazy_style)
  = {| EntryPoints.n_input := EntryPoints.input lazy_style;
       EntryPoints.n_inject := false;
       EntryPoints.n_bundleName := basename "src/lazy.theme" |}.
Proof.
  apply (lazy_entry_named_after_file basename "styles" "src/lazy.theme" "SCSS"
           lazy_style).
  - reflexivity.
  - left. reflexivity.
  - vm_compute. repeat constructor.
  - reflexivity.
Defined.

Example lazy_style_bundle_name :
  EntryPoints.n_bundleName
    (EntryPoints.normalizeExtraEntryPoint basename "styles"
                                          (EntryPoints.EntryObject lazy_style))
  = "lazy.theme".
Proof. vm_compute. reflexivity. Qed.

(** The three scripts give two bundles. *)
Lemma group_scripts_grouped_witness :
  ∃ resolvedPaths,
    Forall2 (λ entry resolvedPath,
               GlobalScripts.resolve_script path_resolve existsSync require_resolve
                                            (EntryPoints.n_input entry)
               = inr resolvedPath)
            scripts resolvedPaths
    ∧ GlobalScripts.grouped
        (zip scripts resolvedPaths)
        [ {| GlobalScripts.bundleName := "scripts";
             GlobalScripts.paths := ["/ws/a.js"; "/ws/b.js"];
             GlobalScripts.inject := true |};
          {| GlobalScripts.bundleName := "lazy";
             GlobalScripts.paths := ["/ws/lazy.js"];
             GlobalScripts.inject := false |} ].
Proof.
  apply (group_scripts_grouped path_resolve existsSync require_resolve scripts).
  vm_compute. reflexivity.
Defined.

(** A lazy script followed by an injected one of the same bundle: the
    bundle stays lazy. *)
Lemma group_scripts_of_one_bundle_witness :
  let first :=
    {| EntryPoints.n_input := "lazy.js"; EntryPoints.n_bundleName := "lazy";
       EntryPoints.n_inject := false |} in
  let second :=
    {| EntryPoints.n_input := "b.js"; EntryPoints.n_bundleName := "lazy";
       EntryPoints.n_inject := true |} in
  GlobalScripts.group_scripts path_resolve existsSync require_resolve [first; second]
  = if EntryPoints.n_inject first
       && existsb (λ entry, negb (EntryPoints.n_inject entry)) [second]
    then inl (ThrownError ("The " +:+ EntryPoints.n_bundleName first
                           +:+ " bundle is mixing injected and non-injected scripts."))
    else inr [{| GlobalScripts.bundleName := EntryPoints.n_bundleName first;
                 GlobalScripts.paths := ["/ws/lazy.js"; "/ws/b.js"];
                 GlobalScripts.inject := EntryPoints.n_inject first |}].
Proof.
  intros first second.
  apply (group_scripts_of_one_bundle path_resolve existsSync require_resolve
           first [second] "/ws/lazy.js" ["/ws/b.js"]).
  - repeat constructor.
  - reflexivity.
  - repeat constructor.
Defined.

Example injected_then_lazy_script_is_refused :
  GlobalScripts.group_scripts path_resolve existsSync require_resolve
    [ {| EntryPoints.n_input := "a.js"; EntryPoints.n_bundleName := "scripts";
         EntryPoints.n_inject := true |};
      {| EntryPoints.n_input := "b.js"; EntryPoints.n_bundleName := "scripts";
         EntryPoints.n_inject := false |} ]
  = inl (ThrownError "The scripts bundle is mixing injected and non-injected scripts.").
Proof. vm_compute. reflexivity. Qed.

Lemma fileEmitter_content_and_map_witness :
  ∃ emitted,
    (Plugin.createFileEmitter externalizePath builder tt (λ _, [])
                              (None : option (Plugin.SourceFile → unit → unit))
                              "/app/main.ts" ([], tt)).2
    = Resolved (Some emitted)
    ∧ Plugin.content emitted
      = last (filter (λ file, endsWith file.1 ".js" = true)
                     (Plugin.emit builder (Some main_ts) tt)).*2
    ∧ Plugin.map emitted
      = last (filter (λ file, endsWith file.1 ".map" = true)
                     (Plugin.emit builder (Some main_ts) tt)).*2
    ∧ (Forall (λ file, endsWith file.1 ".js" = false)
              (Plugin.emit builder (Some main_ts) tt) →
       Plugin.content emitted = None).
Proof.
  apply (fileEmitter_content_and_map externalizePath builder tt (λ _, [])
           (None : option (Plugin.SourceFile → unit → unit))
           "/app/main.ts" ([], tt) main_ts).
  reflexivity.
Defined.

Example main_ts_content_and_map :
  (Plugin.createFileEmitter externalizePath builder tt (λ _, [])
                            (None : option (Plugin.SourceFile → unit → unit))
                            "/app/main.ts" ([], tt)).2
  = Resolved (Some {| Plugin.content := Some "code";
                      Plugin.map := Some "mappings";
                      Plugin.dependencies := ["/app/main.ts"; "/app/lib.d.ts"] |}).
Proof. vm_compute. reflexivity. Qed.

Lemma fileEmitter_reports_resource_dependencies_witness :
  let st : list (option Plugin.SourceFile) * AotEmitter.EmitState :=
    ([], {| AotEmitter.requiredFilesToEmit := ["/app/main.ts"];
            AotEmitter.successfulEmits := [] |}) in
  ∃ l1 childCompilation emitted,
    compile_child runInNewContext (webpack "h1" "one") loader "/app/a.css"
    = (l1, CompileDone childCompilation)
    ∧ (AotEmitter.fileEmitter externalizePath builder tt angularCompiler
                              first_compile.1 "/app/main.ts" st).2
      = Resolved (Some emitted)
    ∧ externalizePath "/app/a.css" ∈ Plugin.dependencies emitted
    ∧ (∀ dep, dep ∈ fileDependencies childCompilation →
              externalizePath dep ∈ Plugin.dependencies emitted)
    ∧ (∀ dep, dep ∈ Plugin.getAllDependencies builder main_ts →
              externalizePath dep ∈ Plugin.dependencies emitted)
    ∧ (∀ reported, reported ∈ Plugin.dependencies emitted →
         ∃ dep,
           reported = externalizePath dep
           ∧ (dep ∈ Plugin.getAllDependencies builder main_ts
              ∨ ∃ resource,
                  resource ∈ AotEmitter.getResourceDependencies angularCompiler main_ts
                  ∧ (dep = resource
                     ∨ dep ∈ getResourceDependencies first_compile.1 resource))).
Proof.
  intros st.
  apply (fileEmitter_reports_resource_dependencies externalizePath normalizePath
           runInNewContext builder tt angularCompiler (webpack "h1" "one") loader
           "/app/a.css" first_compile.1
           {| outputName := "/app/a.css"; source := "one" |}
           "/app/main.ts" main_ts st).
  - vm_compute. reflexivity.
  - reflexivity.
  - vm_compute. left.
Defined.

Example emitting_main_ts_leaves_unused_ts_required :
  AotEmitter.requiredFilesToEmit
    (AotEmitter.emit_files externalizePath builder tt angularCompiler
       first_compile.1 ["/app/main.ts"; "/app/none.ts"]
       ([], {| AotEmitter.requiredFilesToEmit :=
                 AotEmitter.collect_required angularCompiler
                                             (Plugin.getSourceFiles builder);
               AotEmitter.successfulEmits := [] |})).2
  = ["/app/unused.ts"].
Proof. vm_compute. reflexivity. Qed.

Lemma unused_file_stays_silent_witness :
  Forall2 (λ cycle result,
             ∃ warned,
               warnings result
               = warnings (Rebuilds.cycle_compilation cycle)
                 ++ (Plugin.unused_message <$> warned)
               ∧ "/app/unused.ts" ∉ warned)
          later_cycles
          (Rebuilds.analyses later_cycles (Some ["/app/unused.ts"])).1
  ∧ Plugin.previously_unused
      (Rebuilds.analyses later_cycles (Some ["/app/unused.ts"])).2
      "/app/unused.ts" = true.
Proof.
  apply (unused_file_stays_silent later_cycles (Some ["/app/unused.ts"])
           "/app/unused.ts").
  - reflexivity.
  - repeat constructor.
Defined.

End FurtherRuns.
